(** * User_Tests_Study: navigation state machine, submission retry and
      server-side message relay

    Shallow embedding of [public/script.js] (the questionnaire client) and of
    [server.js] (the Express endpoints), and the properties of the
    specification checked against them.

    Conventions of the embedding.
    - A JavaScript number that holds a page number is a [JsNum]: an exact
      integer or [NaN], the only other value [parseInt] produces.
    - Property names are strings, so the scroll map is a [gmap string Z]
      keyed by [toString page]; the server's [Map] of processed messages is a
      [gmap string DedupEntry] keyed by the message key.
    - [sessionStorage] holds strings.  ['currentPage'] is kept as the string
      it is.  The JSON texts under ['historyStates'], ['scrollPositions'] and
      ['formData'] are represented by the values they denote, so
      [JSON.stringify] and [JSON.parse] do not appear.  Every other item is
      kept as its string.
    - The DOM lookups of the script are taken to succeed (the markup is not
      among the sources).  Of the DOM only what navigation reads or writes is
      kept: the consent checkbox, the active page, the chatbot view, the
      notifications shown, the scroll offset and the events dispatched on
      [document].  The progress bar and the answers to the questions are
      left out; the e-mail form and the end of the dialogue have a state of
      their own ([Final]), since navigation does not read them.
    - [window.history] is a list of the state objects of this document's
      entries with a cursor.  [back()] and [forward()] are asynchronous in
      the browser: they only queue a traversal, which [traverse] later
      performs and reports through [popstate].
    - An asynchronous function is a function of what the network does; it
      returns, next to its result, the [fetch] calls and the waits it made.
      A handler runs to its end before the next one starts, except at an
      [await].
    - What the code draws at random ([Math.random], [crypto.randomBytes],
      [new Date()]) is an argument of the function that draws it.  A JS
      array is a list of cells that hold a value or [undefined]. *)

From Stdlib Require Import ZArith Lia Bool List Ascii String.
From Stdlib Require Import Decimal DecimalString DecimalPos DecimalZ.
From stdpp Require Import gmap strings list.

Local Open Scope string_scope.
Local Open Scope Z_scope.

(** ** JavaScript values *)

Module Js.

Inductive JsNum : Type :=
| Num (z : Z)
| NaN.

#[export] Instance JsNum_eq_dec : EqDecision JsNum.
Proof. solve_decision. Defined.

(** [a === b] on numbers: [NaN] is not equal to anything. *)
Definition strictEq (a b : JsNum) : bool :=
  match a, b with
  | Num x, Num y => x =? y
  | _, _ => false
  end.

(** [a < b] on numbers: every comparison with [NaN] is [false]. *)
Definition lt (a b : JsNum) : bool :=
  match a, b with
  | Num x, Num y => x <? y
  | _, _ => false
  end.

Definition gt (a b : JsNum) : bool := lt b a.
Definition le (a b : JsNum) : bool :=
  match a, b with
  | Num x, Num y => x <=? y
  | _, _ => false
  end.
Definition ge (a b : JsNum) : bool := le b a.

(** [n++] and [n--]. *)
Definition incr (n : JsNum) : JsNum :=
  match n with Num z => Num (z + 1) | NaN => NaN end.
Definition decr (n : JsNum) : JsNum :=
  match n with Num z => Num (z - 1) | NaN => NaN end.

(** [String(n)], also the property name [n] is converted to. *)
Definition toString (n : JsNum) : string :=
  match n with
  | Num z => NilZero.string_of_int (Z.to_int z)
  | NaN => "NaN"
  end.

(** White space skipped by [parseInt] (the ASCII part of it). *)
Definition isWhiteSpace (c : ascii) : bool :=
  match nat_of_ascii c with
  | 9%nat | 10%nat | 11%nat | 12%nat | 13%nat | 32%nat => true
  | _ => false
  end.

Fixpoint trimStart (s : string) : string :=
  match s with
  | String c r => if isWhiteSpace c then trimStart r else s
  | EmptyString => s
  end.

Definition digitOf (c : ascii) : option (uint -> uint) :=
  match c with
  | "0"%char => Some D0 | "1"%char => Some D1 | "2"%char => Some D2
  | "3"%char => Some D3 | "4"%char => Some D4 | "5"%char => Some D5
  | "6"%char => Some D6 | "7"%char => Some D7 | "8"%char => Some D8
  | "9"%char => Some D9
  | _ => None
  end.

(** The longest prefix of [s] made of decimal digits. *)
Fixpoint digitPrefix (s : string) : uint :=
  match s with
  | String c r =>
      match digitOf c with
      | Some d => d (digitPrefix r)
      | None => Nil
      end
  | EmptyString => Nil
  end.

(** [parseInt(s, 10)]: leading white space, an optional sign, then the
    digits up to the first character that is not one; [NaN] when there is
    no digit. *)
Definition parseInt10 (s : string) : JsNum :=
  let s1 := trimStart s in
  let '(negative, s2) :=
    match s1 with
    | String "-"%char r => (true, r)
    | String "+"%char r => (false, r)
    | _ => (false, s1)
    end in
  match digitPrefix s2 with
  | Nil => NaN
  | d => Num (if negative then - Z.of_uint d else Z.of_uint d)
  end.

(** Values a JSON request body can carry in one field; [JUndefined] is a
    missing field. *)
Inductive JsValue : Type :=
| JUndefined
| JNull
| JBool (b : bool)
| JNumber (n : JsNum)
| JString (s : string)
| JObject.

(** [!!v]. *)
Definition truthy (v : JsValue) : bool :=
  match v with
  | JUndefined | JNull => false
  | JBool b => b
  | JNumber (Num z) => negb (z =? 0)
  | JNumber NaN => false
  | JString s => negb (String.eqb s "")
  | JObject => true
  end.

(** Truthiness of a string, as in [if (savedPage)]. *)
Definition nonEmpty (s : string) : bool := negb (String.eqb s "").

End Js.

(** ** The client: [public/script.js] *)

Module Client.
Import Js.

Definition totalPages : JsNum := Num 9.
Definition chatbotPage : JsNum := Num 4.

(** An element of [historyStates], and the state object of a history entry:
    [{ page: n }]. *)
Record HistoryEntry : Type := { page : JsNum }.

(** The element [showPage] activates: [thankyou] or [page<n>]. *)
Inductive ActiveElement : Type :=
| ThankYou
| PageElement (n : JsNum).

(** [sessionStorage].  [item_currentPage] is the string stored under
    ['currentPage']; [item_historyStates] and [item_scrollPositions] are the
    values of the JSON texts stored under those keys; [item_formConsent] is
    the [consent] field of the JSON text under ['formData'] (the answers
    to the questions are not modelled); [items] holds every other key. *)
Record Storage : Type := {
  item_currentPage : option string;
  item_historyStates : option (list HistoryEntry);
  item_scrollPositions : option (gmap string Z);
  item_formConsent : option bool;
  items : gmap string string
}.

Record State : Type := {
  currentPage : JsNum;  (* the global [currentPage] *)
  historyStates : list HistoryEntry;  (* the global [historyStates] *)
  scrollPositions : gmap string Z;  (* the global [scrollPositions], keyed by property name *)
  bypassPopState : bool;  (* the global [bypassPopState] *)
  chatbotAlreadyOpened : bool;  (* the global [chatbotAlreadyOpened] *)
  scrollQueued : option Z;  (* the scroll restoration queued behind [scrollFrame1Id]/[scrollFrame2Id] *)
  consentChecked : bool;  (* [consentCheckbox.checked] *)
  activePage : option ActiveElement;  (* the element carrying the class [active] *)
  chatbotView : bool;  (* whether the chatbot interface view is applied *)
  shown : gset string;  (* ids of the notifications displayed *)
  scrollY : Z;  (* [window.scrollY] *)
  scrollHeight : Z;  (* [document.body.scrollHeight] *)
  dispatched : list string;  (* events dispatched on [document], oldest first *)
  sessionStorage : Storage;  (* [sessionStorage] *)
  entries : list (option HistoryEntry);  (* state objects of the session history entries *)
  cursor : nat;  (* index of the current history entry *)
  traversals : list Z;  (* history traversals requested and not yet performed *)
  popstateListener : bool  (* whether [handlePopState] listens to [popstate] *)
}.

(** Field updates. *)
Definition set_currentPage (v : JsNum) (s : State) : State :=
  {| currentPage := v; historyStates := historyStates s;
     scrollPositions := scrollPositions s;
     bypassPopState := bypassPopState s;
     chatbotAlreadyOpened := chatbotAlreadyOpened s;
     scrollQueued := scrollQueued s; consentChecked := consentChecked s;
     activePage := activePage s; chatbotView := chatbotView s;
     shown := shown s; scrollY := scrollY s;
     scrollHeight := scrollHeight s; dispatched := dispatched s;
     sessionStorage := sessionStorage s; entries := entries s;
     cursor := cursor s; traversals := traversals s;
     popstateListener := popstateListener s |}.
Definition set_historyStates (v : list HistoryEntry) (s : State) : State :=
  {| currentPage := currentPage s; historyStates := v;
     scrollPositions := scrollPositions s;
     bypassPopState := bypassPopState s;
     chatbotAlreadyOpened := chatbotAlreadyOpened s;
     scrollQueued := scrollQueued s; consentChecked := consentChecked s;
     activePage := activePage s; chatbotView := chatbotView s;
     shown := shown s; scrollY := scrollY s;
     scrollHeight := scrollHeight s; dispatched := dispatched s;
     sessionStorage := sessionStorage s; entries := entries s;
     cursor := cursor s; traversals := traversals s;
     popstateListener := popstateListener s |}.
Definition set_scrollPositions (v : gmap string Z) (s : State) : State :=
  {| currentPage := currentPage s; historyStates := historyStates s;
     scrollPositions := v; bypassPopState := bypassPopState s;
     chatbotAlreadyOpened := chatbotAlreadyOpened s;
     scrollQueued := scrollQueued s; consentChecked := consentChecked s;
     activePage := activePage s; chatbotView := chatbotView s;
     shown := shown s; scrollY := scrollY s;
     scrollHeight := scrollHeight s; dispatched := dispatched s;
     sessionStorage := sessionStorage s; entries := entries s;
     cursor := cursor s; traversals := traversals s;
     popstateListener := popstateListener s |}.
Definition set_bypassPopState (v : bool) (s : State) : State :=
  {| currentPage := currentPage s; historyStates := historyStates s;
     scrollPositions := scrollPositions s; bypassPopState := v;
     chatbotAlreadyOpened := chatbotAlreadyOpened s;
     scrollQueued := scrollQueued s; consentChecked := consentChecked s;
     activePage := activePage s; chatbotView := chatbotView s;
     shown := shown s; scrollY := scrollY s;
     scrollHeight := scrollHeight s; dispatched := dispatched s;
     sessionStorage := sessionStorage s; entries := entries s;
     cursor := cursor s; traversals := traversals s;
     popstateListener := popstateListener s |}.
Definition set_chatbotAlreadyOpened (v : bool) (s : State) : State :=
  {| currentPage := currentPage s; historyStates := historyStates s;
     scrollPositions := scrollPositions s;
     bypassPopState := bypassPopState s; chatbotAlreadyOpened := v;
     scrollQueued := scrollQueued s; consentChecked := consentChecked s;
     activePage := activePage s; chatbotView := chatbotView s;
     shown := shown s; scrollY := scrollY s;
     scrollHeight := scrollHeight s; dispatched := dispatched s;
     sessionStorage := sessionStorage s; entries := entries s;
     cursor := cursor s; traversals := traversals s;
     popstateListener := popstateListener s |}.
Definition set_scrollQueued (v : option Z) (s : State) : State :=
  {| currentPage := currentPage s; historyStates := historyStates s;
     scrollPositions := scrollPositions s;
     bypassPopState := bypassPopState s;
     chatbotAlreadyOpened := chatbotAlreadyOpened s; scrollQueued := v;
     consentChecked := consentChecked s; activePage := activePage s;
     chatbotView := chatbotView s; shown := shown s; scrollY := scrollY s;
     scrollHeight := scrollHeight s; dispatched := dispatched s;
     sessionStorage := sessionStorage s; entries := entries s;
     cursor := cursor s; traversals := traversals s;
     popstateListener := popstateListener s |}.
Definition set_consentChecked (v : bool) (s : State) : State :=
  {| currentPage := currentPage s; historyStates := historyStates s;
     scrollPositions := scrollPositions s;
     bypassPopState := bypassPopState s;
     chatbotAlreadyOpened := chatbotAlreadyOpened s;
     scrollQueued := scrollQueued s; consentChecked := v;
     activePage := activePage s; chatbotView := chatbotView s;
     shown := shown s; scrollY := scrollY s;
     scrollHeight := scrollHeight s; dispatched := dispatched s;
     sessionStorage := sessionStorage s; entries := entries s;
     cursor := cursor s; traversals := traversals s;
     popstateListener := popstateListener s |}.
Definition set_activePage (v : option ActiveElement) (s : State) : State :=
  {| currentPage := currentPage s; historyStates := historyStates s;
     scrollPositions := scrollPositions s;
     bypassPopState := bypassPopState s;
     chatbotAlreadyOpened := chatbotAlreadyOpened s;
     scrollQueued := scrollQueued s; consentChecked := consentChecked s;
     activePage := v; chatbotView := chatbotView s; shown := shown s;
     scrollY := scrollY s; scrollHeight := scrollHeight s;
     dispatched := dispatched s; sessionStorage := sessionStorage s;
     entries := entries s; cursor := cursor s; traversals := traversals s;
     popstateListener := popstateListener s |}.
Definition set_chatbotView (v : bool) (s : State) : State :=
  {| currentPage := currentPage s; historyStates := historyStates s;
     scrollPositions := scrollPositions s;
     bypassPopState := bypassPopState s;
     chatbotAlreadyOpened := chatbotAlreadyOpened s;
     scrollQueued := scrollQueued s; consentChecked := consentChecked s;
     activePage := activePage s; chatbotView := v; shown := shown s;
     scrollY := scrollY s; scrollHeight := scrollHeight s;
     dispatched := dispatched s; sessionStorage := sessionStorage s;
     entries := entries s; cursor := cursor s; traversals := traversals s;
     popstateListener := popstateListener s |}.
Definition set_shown (v : gset string) (s : State) : State :=
  {| currentPage := currentPage s; historyStates := historyStates s;
     scrollPositions := scrollPositions s;
     bypassPopState := bypassPopState s;
     chatbotAlreadyOpened := chatbotAlreadyOpened s;
     scrollQueued := scrollQueued s; consentChecked := consentChecked s;
     activePage := activePage s; chatbotView := chatbotView s; shown := v;
     scrollY := scrollY s; scrollHeight := scrollHeight s;
     dispatched := dispatched s; sessionStorage := sessionStorage s;
     entries := entries s; cursor := cursor s; traversals := traversals s;
     popstateListener := popstateListener s |}.
Definition set_scrollY (v : Z) (s : State) : State :=
  {| currentPage := currentPage s; historyStates := historyStates s;
     scrollPositions := scrollPositions s;
     bypassPopState := bypassPopState s;
     chatbotAlreadyOpened := chatbotAlreadyOpened s;
     scrollQueued := scrollQueued s; consentChecked := consentChecked s;
     activePage := activePage s; chatbotView := chatbotView s;
     shown := shown s; scrollY := v; scrollHeight := scrollHeight s;
     dispatched := dispatched s; sessionStorage := sessionStorage s;
     entries := entries s; cursor := cursor s; traversals := traversals s;
     popstateListener := popstateListener s |}.
Definition set_scrollHeight (v : Z) (s : State) : State :=
  {| currentPage := currentPage s; historyStates := historyStates s;
     scrollPositions := scrollPositions s;
     bypassPopState := bypassPopState s;
     chatbotAlreadyOpened := chatbotAlreadyOpened s;
     scrollQueued := scrollQueued s; consentChecked := consentChecked s;
     activePage := activePage s; chatbotView := chatbotView s;
     shown := shown s; scrollY := scrollY s; scrollHeight := v;
     dispatched := dispatched s; sessionStorage := sessionStorage s;
     entries := entries s; cursor := cursor s; traversals := traversals s;
     popstateListener := popstateListener s |}.
Definition set_dispatched (v : list string) (s : State) : State :=
  {| currentPage := currentPage s; historyStates := historyStates s;
     scrollPositions := scrollPositions s;
     bypassPopState := bypassPopState s;
     chatbotAlreadyOpened := chatbotAlreadyOpened s;
     scrollQueued := scrollQueued s; consentChecked := consentChecked s;
     activePage := activePage s; chatbotView := chatbotView s;
     shown := shown s; scrollY := scrollY s;
     scrollHeight := scrollHeight s; dispatched := v;
     sessionStorage := sessionStorage s; entries := entries s;
     cursor := cursor s; traversals := traversals s;
     popstateListener := popstateListener s |}.
Definition set_sessionStorage (v : Storage) (s : State) : State :=
  {| currentPage := currentPage s; historyStates := historyStates s;
     scrollPositions := scrollPositions s;
     bypassPopState := bypassPopState s;
     chatbotAlreadyOpened := chatbotAlreadyOpened s;
     scrollQueued := scrollQueued s; consentChecked := consentChecked s;
     activePage := activePage s; chatbotView := chatbotView s;
     shown := shown s; scrollY := scrollY s;
     scrollHeight := scrollHeight s; dispatched := dispatched s;
     sessionStorage := v; entries := entries s; cursor := cursor s;
     traversals := traversals s; popstateListener := popstateListener s |}.
Definition set_entries (v : list (option HistoryEntry)) (s : State) : State :=
  {| currentPage := currentPage s; historyStates := historyStates s;
     scrollPositions := scrollPositions s;
     bypassPopState := bypassPopState s;
     chatbotAlreadyOpened := chatbotAlreadyOpened s;
     scrollQueued := scrollQueued s; consentChecked := consentChecked s;
     activePage := activePage s; chatbotView := chatbotView s;
     shown := shown s; scrollY := scrollY s;
     scrollHeight := scrollHeight s; dispatched := dispatched s;
     sessionStorage := sessionStorage s; entries := v; cursor := cursor s;
     traversals := traversals s; popstateListener := popstateListener s |}.
Definition set_cursor (v : nat) (s : State) : State :=
  {| currentPage := currentPage s; historyStates := historyStates s;
     scrollPositions := scrollPositions s;
     bypassPopState := bypassPopState s;
     chatbotAlreadyOpened := chatbotAlreadyOpened s;
     scrollQueued := scrollQueued s; consentChecked := consentChecked s;
     activePage := activePage s; chatbotView := chatbotView s;
     shown := shown s; scrollY := scrollY s;
     scrollHeight := scrollHeight s; dispatched := dispatched s;
     sessionStorage := sessionStorage s; entries := entries s; cursor := v;
     traversals := traversals s; popstateListener := popstateListener s |}.
Definition set_traversals (v : list Z) (s : State) : State :=
  {| currentPage := currentPage s; historyStates := historyStates s;
     scrollPositions := scrollPositions s;
     bypassPopState := bypassPopState s;
     chatbotAlreadyOpened := chatbotAlreadyOpened s;
     scrollQueued := scrollQueued s; consentChecked := consentChecked s;
     activePage := activePage s; chatbotView := chatbotView s;
     shown := shown s; scrollY := scrollY s;
     scrollHeight := scrollHeight s; dispatched := dispatched s;
     sessionStorage := sessionStorage s; entries := entries s;
     cursor := cursor s; traversals := v;
     popstateListener := popstateListener s |}.
Definition set_popstateListener (v : bool) (s : State) : State :=
  {| currentPage := currentPage s; historyStates := historyStates s;
     scrollPositions := scrollPositions s;
     bypassPopState := bypassPopState s;
     chatbotAlreadyOpened := chatbotAlreadyOpened s;
     scrollQueued := scrollQueued s; consentChecked := consentChecked s;
     activePage := activePage s; chatbotView := chatbotView s;
     shown := shown s; scrollY := scrollY s;
     scrollHeight := scrollHeight s; dispatched := dispatched s;
     sessionStorage := sessionStorage s; entries := entries s;
     cursor := cursor s; traversals := traversals s;
     popstateListener := v |}.

(** *** sessionStorage *)

Definition setItem_currentPage (v : string) (st : Storage) : Storage :=
  {| item_currentPage := Some v; item_historyStates := item_historyStates st;
     item_scrollPositions := item_scrollPositions st;
     item_formConsent := item_formConsent st; items := items st |}.

Definition setItem_historyStates (v : list HistoryEntry) (st : Storage) : Storage :=
  {| item_currentPage := item_currentPage st; item_historyStates := Some v;
     item_scrollPositions := item_scrollPositions st;
     item_formConsent := item_formConsent st; items := items st |}.

Definition setItem_scrollPositions (v : gmap string Z) (st : Storage) : Storage :=
  {| item_currentPage := item_currentPage st;
     item_historyStates := item_historyStates st;
     item_scrollPositions := Some v;
     item_formConsent := item_formConsent st; items := items st |}.

Definition setItem_formConsent (v : bool) (st : Storage) : Storage :=
  {| item_currentPage := item_currentPage st;
     item_historyStates := item_historyStates st;
     item_scrollPositions := item_scrollPositions st;
     item_formConsent := Some v; items := items st |}.

Definition set_items (v : gmap string string) (st : Storage) : Storage :=
  {| item_currentPage := item_currentPage st;
     item_historyStates := item_historyStates st;
     item_scrollPositions := item_scrollPositions st;
     item_formConsent := item_formConsent st; items := v |}.

(** [removeItem('formData')]. *)
Definition removeItem_formData (st : Storage) : Storage :=
  {| item_currentPage := item_currentPage st;
     item_historyStates := item_historyStates st;
     item_scrollPositions := item_scrollPositions st;
     item_formConsent := None; items := items st |}.

(** [sessionStorage.setItem(k, v)] and [removeItem(k)] for the other keys. *)
Definition setItem (k v : string) (s : State) : State :=
  set_sessionStorage (set_items (<[k := v]> (items (sessionStorage s))) (sessionStorage s)) s.

Definition removeItem (k : string) (s : State) : State :=
  set_sessionStorage (set_items (delete k (items (sessionStorage s))) (sessionStorage s)) s.

Definition emptyStorage : Storage :=
  {| item_currentPage := None; item_historyStates := None;
     item_scrollPositions := None; item_formConsent := None; items := ∅ |}.

(** *** window.history *)

(** [window.history.pushState(stateObj, "", "")]: the entries after the
    current one are dropped, the new entry is appended and becomes
    current. *)
Definition pushState (stateObj : HistoryEntry) (s : State) : State :=
  set_cursor (S (cursor s))
    (set_entries (take (S (cursor s)) (entries s) ++ [Some stateObj]) s).

(** [window.history.replaceState(stateObj, "", "")]. *)
Definition replaceState (stateObj : HistoryEntry) (s : State) : State :=
  set_entries (<[cursor s := Some stateObj]> (entries s)) s.

(** [window.history.back()] and [window.history.forward()]. *)
Definition historyBack (s : State) : State :=
  set_traversals (traversals s ++ [-1]) s.
Definition historyForward (s : State) : State :=
  set_traversals (traversals s ++ [1]) s.

(** *** Page display *)

Definition dispatchEvent (name : string) (s : State) : State :=
  set_dispatched (dispatched s ++ [name]) s.

Definition cancelScrollDelays (s : State) : State := set_scrollQueued None s.

(** [toggleNotification(action, elementId)]; [show] is [action === 'show']. *)
Definition toggleNotification (show : bool) (elementId : string) (s : State) : State :=
  set_shown (if show then {[elementId]} ∪ shown s else shown s ∖ {[elementId]}) s.

Definition applyChatbotViewState (s : State) : State :=
  if strictEq (currentPage s) chatbotPage
  then dispatchEvent "chatbotInterfaceOpened" (set_chatbotView true s)
  else set_chatbotView false s.

Definition trackChatbotArrival (s : State) : State :=
  if negb (chatbotAlreadyOpened s)
  then dispatchEvent "userArrivedAtChatbot"
         (setItem "chatbotAlreadyOpened" "true" (set_chatbotAlreadyOpened true s))
  else s.

Definition showPage (pageNumber : JsNum) (s : State) : State :=
  let s := cancelScrollDelays s in
  let s := set_activePage
             (Some (if strictEq pageNumber totalPages then ThankYou
                    else PageElement pageNumber)) s in
  let s := if ge pageNumber (decr chatbotPage) && le pageNumber (incr chatbotPage)
           then applyChatbotViewState s else s in
  let s := if strictEq pageNumber chatbotPage then trackChatbotArrival s else s in
  if negb (strictEq pageNumber chatbotPage) then
    match scrollPositions s !! toString pageNumber with
    | Some scrollPos => set_scrollQueued (Some scrollPos) s
    | None => set_scrollY 0 s
    end
  else s.

(** *** State management *)

Definition saveNavigationState (s : State) : State :=
  set_sessionStorage
    (setItem_historyStates (historyStates s)
       (setItem_currentPage (toString (currentPage s)) (sessionStorage s))) s.

Definition saveScrollPositions (pageNumber : JsNum) (s : State) : State :=
  if negb (strictEq (currentPage s) chatbotPage) then
    let s := set_scrollPositions
               (<[toString pageNumber := scrollY s]> (scrollPositions s)) s in
    set_sessionStorage (setItem_scrollPositions (scrollPositions s) (sessionStorage s)) s
  else s.

Definition restoreState (s : State) : State :=
  let s := match item_currentPage (sessionStorage s) with
           | Some savedPage =>
               if nonEmpty savedPage then set_currentPage (parseInt10 savedPage) s else s
           | None => s
           end in
  let s := match item_historyStates (sessionStorage s) with
           | Some savedHistoryStates => set_historyStates savedHistoryStates s
           | None => s
           end in
  let s := match item_scrollPositions (sessionStorage s) with
           | Some savedScrollPositions => set_scrollPositions savedScrollPositions s
           | None => s
           end in
  match item_formConsent (sessionStorage s) with
  | Some true => set_consentChecked true s
  | _ => s
  end.

Definition clearState (s : State) : State :=
  let s := removeItem "participantId" s in
  let s := removeItem "treatmentGroup" s in
  let s := set_sessionStorage (removeItem_formData (sessionStorage s)) s in
  removeItem "conversation" s.

(** [saveData()], as far as the consent value goes. *)
Definition saveData (s : State) : State :=
  set_sessionStorage (setItem_formConsent (consentChecked s) (sessionStorage s)) s.

(** *** Navigation and history management *)

(** [historyStates.some(obj => obj.page === p)]. *)
Definition hasPage (p : JsNum) (hs : list HistoryEntry) : bool :=
  existsb (fun obj => strictEq (page obj) p) hs.

Definition pushPageToHistory (p : JsNum) (s : State) : State :=
  let stateObj := {| page := p |} in
  let s := set_historyStates (historyStates s ++ [stateObj]) s in
  let s := pushState stateObj s in
  saveNavigationState s.

Definition initializeHistory (p : JsNum) (s : State) : State :=
  let stateObj := {| page := p |} in
  let s := if negb (hasPage (currentPage s) (historyStates s))
           then set_historyStates (historyStates s ++ [stateObj]) s else s in
  let s := replaceState stateObj s in
  saveNavigationState s.

Definition nextButtonLogic (s : State) : State :=
  let s := if lt (currentPage s) totalPages then
             let s := saveScrollPositions (currentPage s) s in
             let s := set_currentPage (incr (currentPage s)) s in
             let s := showPage (currentPage s) s in
             saveNavigationState s
           else s in
  if negb (hasPage (currentPage s) (historyStates s))
  then pushPageToHistory (currentPage s) s
  else historyForward (set_bypassPopState true s).

Definition backButtonLogic (s : State) : State :=
  if gt (currentPage s) (Num 1) && lt (currentPage s) totalPages then
    let s := saveScrollPositions (currentPage s) s in
    let s := set_currentPage (decr (currentPage s)) s in
    let s := showPage (currentPage s) s in
    let s := saveNavigationState s in
    historyBack (set_bypassPopState true s)
  else s.

Definition closeChatbotLogic (s : State) : State := backButtonLogic s.
Definition continueSurveyLogic (s : State) : State := nextButtonLogic s.

Definition moveToFinalPage (s : State) : State :=
  let s := if lt (currentPage s) totalPages then
             let s := saveScrollPositions (currentPage s) s in
             let s := set_currentPage totalPages s in
             let s := showPage (currentPage s) s in
             saveNavigationState s
           else s in
  if negb (hasPage (currentPage s) (historyStates s))
  then pushPageToHistory (currentPage s) s
  else historyForward (set_bypassPopState true s).

(** [consentCheckboxLogic], with [checked] the new value of the box. *)
Definition consentCheckboxLogic (checked : bool) (s : State) : State :=
  saveData (set_consentChecked checked s).

(** A [popstate] event; [state] is [null] for an entry without a state
    object. *)
Record PopStateEvent : Type := { state : option HistoryEntry }.

(** How a handler finished: it returned, or [event.state.page] was read on
    a [null] state and raised a [TypeError]. *)
Inductive Outcome : Type :=
| Returned
| TypeError.

(** The statements of [handlePopState] below its pre-check (d): the cases
    (b), (c) and (a) of the source, in that order. *)
Definition handleNavigation (event : PopStateEvent) (s : State) : Outcome * State :=
  (* (b): [&&] reads [event.state.page] only when [currentPage === 1] *)
  let consentIsChecked := consentChecked s in
  let consentCase :=
    if strictEq (currentPage s) (Num 1) then
      match state event with
      | Some st => Some (strictEq (page st) (Num 2) && negb consentIsChecked)
      | None => None
      end
    else Some false in
  match consentCase with
  | None => (TypeError, s)
  | Some true => (Returned, historyBack (set_bypassPopState true s))
  | Some false =>
      (* (c) *)
      if strictEq (currentPage s) totalPages then
        (Returned, historyBack (set_popstateListener false s))
      else
        (* (a) *)
        match state event with
        | None => (TypeError, s)
        | Some st =>
            let s := if lt (page st) (currentPage s) then
                       set_currentPage (decr (currentPage s))
                         (saveScrollPositions (currentPage s) s)
                     else
                       set_currentPage (incr (currentPage s))
                         (saveScrollPositions (currentPage s) s) in
            let s := showPage (currentPage s) s in
            (Returned, saveNavigationState s)
        end
  end.

Definition handlePopState (event : PopStateEvent) (s : State) : Outcome * State :=
  (* (d) *)
  if bypassPopState s then (Returned, set_bypassPopState false s)
  else handleNavigation event s.

(** *** The browser around the script *)

(** The browser performs a history traversal by [delta] entries (a press
    on its back or forward control, a pick in its history list, or a
    traversal the script requested).  A traversal that would leave the
    list of entries does nothing; otherwise the cursor moves and [popstate]
    is fired with the state object of the entry reached. *)
Definition traverse (delta : Z) (s : State) : State :=
  let target := Z.of_nat (cursor s) + delta in
  if negb (delta =? 0) && (0 <=? target) && (target <? Z.of_nat (length (entries s)))
  then
    let s := set_cursor (Z.to_nat target) s in
    let event := {| state := match entries s !! Z.to_nat target with
                             | Some st => st
                             | None => None
                             end |} in
    if popstateListener s then snd (handlePopState event s) else s
  else s.

(** The browser performs the oldest traversal the script requested. *)
Definition performRequested (s : State) : State :=
  match traversals s with
  | delta :: rest => traverse delta (set_traversals rest s)
  | [] => s
  end.

(** The top-level declarations of the script, run when the document is
    loaded: the session storage and the session history survive a reload,
    the globals and the DOM start afresh. *)
Definition loadScript (storage : Storage) (hist : list (option HistoryEntry))
    (cur : nat) (height : Z) : State :=
  {| currentPage := Num 1; historyStates := []; scrollPositions := ∅;
     bypassPopState := false;
     chatbotAlreadyOpened :=
       bool_decide (items storage !! "chatbotAlreadyOpened" = Some "true");
     scrollQueued := None; consentChecked := false; activePage := None;
     chatbotView := false; shown := ∅; scrollY := 0; scrollHeight := height;
     dispatched := []; sessionStorage := storage; entries := hist;
     cursor := cur; traversals := []; popstateListener := false |}.

Definition referenceElements (s : State) : State :=
  setItem "chatbotAlreadyOpened" (if chatbotAlreadyOpened s then "true" else "false") s.

Definition attachEventListeners (s : State) : State := set_popstateListener true s.

(** [initializePage], once the metadata has been obtained; [getMetadata]
    and [randomizeQuestionSets] only write items of their own into the
    session storage and are left out. *)
Definition initializePage (s : State) : State :=
  let s := referenceElements s in
  let s := restoreState s in
  let s := initializeHistory (currentPage s) s in
  let s := showPage (currentPage s) s in
  let s := attachEventListeners s in
  dispatchEvent "surveyDataInitialized" s.

(** The handler of [beforeunload]. *)
Definition beforeUnload (s : State) : State := saveScrollPositions (currentPage s) s.

(** The user reloads the page: [beforeunload] runs, then the script is
    loaded again on the storage and the history the old document left. *)
Definition reload (s : State) : State :=
  let s := beforeUnload s in
  initializePage (loadScript (sessionStorage s) (entries s) (cursor s) (scrollHeight s)).

(** The first load of the page in a tab: empty session storage, one history
    entry without a state object. *)
Definition firstLoad (height : Z) : State :=
  initializePage (loadScript emptyStorage [None] 0 height).

(** *** Submission *)

(** The three fields of the submitted data that do not come from the
    questions. *)
Record SubmitData : Type := {
  participantId : option string;
  treatmentGroup : option string;
  conversationLog : string
}.

Definition collectData (s : State) : SubmitData :=
  {| participantId := items (sessionStorage s) !! "participantId";
     treatmentGroup := items (sessionStorage s) !! "treatmentGroup";
     conversationLog := default "" (items (sessionStorage s) !! "conversation") |}.

(** What one [fetch] does: the promise is rejected, or a response with a
    status arrives. *)
Inductive FetchResult : Type :=
| Rejected (reason : string)
| Responded (status : Z).

(** [response.ok]. *)
Definition ok (status : Z) : bool := (200 <=? status) && (status <=? 299).

(** The errors [submitData] catches: the rejection of [fetch], or its own
    [new Error(`Server returned ${response.status}`)]. *)
Inductive JsError : Type :=
| FetchError (reason : string)
| ServerReturned (status : Z).

(** What an asynchronous function did to the outside, in order. *)
Inductive Effect : Type :=
| Fetch (body : SubmitData)
| Wait (ms : Z).

(** How [submitData] settles: with the response (its status), or by
    throwing [lastError], which is [null] ([None]) when no attempt was
    made. *)
Inductive Settled : Type :=
| Resolved (status : Z)
| Thrown (lastError : option JsError).

(** The loop of [submitData]: [n] iterations are left, the next one is
    attempt number [i], answered by [net i]. *)
Fixpoint submitLoop (net : nat -> FetchResult) (data : SubmitData)
    (n : nat) (i : nat) (lastError : option JsError) : Settled * list Effect :=
  match n with
  | O => (Thrown lastError, [])
  | S n' =>
      let caught (error : JsError) :=
        let '(r, t) := submitLoop net data n' (S i) (Some error) in
        (r, Fetch data :: Wait 500 :: t) in
      match net i with
      | Responded status =>
          if ok status then (Resolved status, [Fetch data])
          else caught (ServerReturned status)
      | Rejected reason => caught (FetchError reason)
      end
  end.

(** [submitData(data, retries)]; [retries] is [None] when the argument is
    omitted.  The loop runs for [i = 0 .. retries - 1]. *)
Definition submitData (net : nat -> FetchResult) (data : SubmitData)
    (retries : option Z) : Settled * list Effect :=
  submitLoop net data (Z.to_nat (default 4 retries)) 0 None.

(** [window.scrollTo({ top: document.body.scrollHeight, ... })]. *)
Definition scrollToBottom (s : State) : State := set_scrollY (scrollHeight s) s.

(** The three parts of [submitButtonLogic]: what runs before the [await],
    what runs when [submitData] has returned, and the [catch] block. *)
Definition submitStarted (s : State) : State :=
  let s := toggleNotification false "submit-error-message" s in
  let s := toggleNotification true "submit-data-notification" s in
  scrollToBottom s.

Definition submitSucceeded (s : State) : State :=
  let s := toggleNotification false "submit-data-notification" s in
  let s := moveToFinalPage s in
  clearState s.

Definition submitFailed (s : State) : State :=
  let s := toggleNotification false "submit-data-notification" s in
  let s := toggleNotification true "submit-error-message" s in
  scrollToBottom s.

(** [submitButtonLogic], run without another handler in between. *)
Definition submitButtonLogic (net : nat -> FetchResult) (s : State)
    : State * list Effect :=
  let s := submitStarted s in
  let data := collectData s in
  match submitData net data (Some 4) with
  | (Resolved _, t) => (submitSucceeded s, t)
  | (Thrown _, t) => (submitFailed s, t)
  end.

(** *** Sessions *)

(** One thing that happens to the page: a handler of the script runs (the
    parts of [submitButtonLogic] separately, since other handlers can run
    while it awaits), the user scrolls, or the browser traverses its history
    or reloads the page. *)
Inductive step : State -> State -> Prop :=
| step_next s : step s (nextButtonLogic s)
| step_back s : step s (backButtonLogic s)
| step_consent checked s : step s (consentCheckboxLogic checked s)
| step_submit_started s : step s (submitStarted s)
| step_submit_succeeded s : step s (submitSucceeded s)
| step_submit_failed s : step s (submitFailed s)
| step_scroll y s : step s (set_scrollY y s)
| step_traverse delta s : step s (traverse delta s)
| step_requested s : step s (performRequested s)
| step_reload s : step s (reload s).

(** The states a session can be in. *)
Definition reachable (s : State) : Prop :=
  exists height, rtc step (firstLoad height) s.

End Client.

(** ** The server: [server.js] *)

Module Server.
Import Js.

Definition randomTreatment : bool := true.
Definition treatmentFallback : Z := 1.

(** [assignGroup()]; [low] is the outcome of [Math.random() < 0.5]. *)
Definition assignGroup (low : bool) : Z :=
  if randomTreatment then (if low then 0 else 1) else treatmentFallback.

(** *** /submit *)

(** The body of a POST /submit: the three named fields, and the rest
    ([responseData]) as the JSON text it is stored as. *)
Record SubmitBody : Type := {
  participantId : JsValue;
  treatmentGroup : JsValue;
  conversationLog : JsValue;
  responseData : string
}.

(** A row of [survey_responses]. *)
Record Row : Type := {
  participant_id : JsValue;
  treatment_group : JsValue;
  response_data : string;
  conversation_log : JsValue
}.

(** The handler of POST /submit on the table [db]; [queryOk] tells whether
    [pool.query] succeeds.  The result is the HTTP status and the table. *)
Definition submit (body : SubmitBody) (queryOk : bool) (db : list Row)
    : Z * list Row :=
  if negb (truthy (participantId body)) || negb (truthy (treatmentGroup body))
     || negb (truthy (conversationLog body))
  then (400, db)
  else if queryOk then
    (200, (db ++ [{| participant_id := participantId body;
                     treatment_group := treatmentGroup body;
                     response_data := responseData body;
                     conversation_log := conversationLog body |}])%list)
  else (500, db).

(** *** /sendmessage *)

(** A value of [processedMessages]: [{ timestamp, id }]. *)
Record DedupEntry : Type := { timestamp : Z; id : string }.

(** The body of a POST /sendmessage; [conversationId] and [clientSideMsgId]
    are the strings the template literal of the key turns them into. *)
Record SendRequest : Type := {
  conversationId : string;
  text : string;
  channelGroup : JsValue;
  clientSideMsgId : string
}.

Definition messageKey (req : SendRequest) : string :=
  (conversationId req ++ "::" ++ clientSideMsgId req)%string.

(** A message activity posted to the Direct Line API. *)
Record Activity : Type := {
  toConversation : string;
  activityText : string;
  activityGroup : JsValue
}.

(** What [axios.post] does: it resolves with [response.data] (its [id]), or
    it throws. *)
Inductive PostResult : Type :=
| Posted (dataId : string)
| PostFailed (details : string).

(** The three answers of the endpoint: [{ status: "duplicate", id }],
    [response.data], or status 500. *)
Inductive Reply : Type :=
| Duplicate (storedId : string)
| Data (dataId : string)
| Error500 (details : string).

(** The relay: the [Map] of processed messages, and the POSTs of message
    activities made to the Direct Line API so far, oldest first. *)
Record Relay : Type := {
  processedMessages : gmap string DedupEntry;
  outbound : list Activity
}.

(** The activity [sendmessage] posts for a request. *)
Definition activityOf (req : SendRequest) : Activity :=
  {| toConversation := conversationId req;
     activityText := text req;
     activityGroup := channelGroup req |}.

(** The handler of POST /sendmessage, run without another request in
    between.  [directLine] is what the POST to the Direct Line API does if it
    is made, [now] is [Date.now()] when it resolves. *)
Definition sendmessage (req : SendRequest) (directLine : PostResult) (now : Z)
    (r : Relay) : Reply * Relay :=
  match processedMessages r !! messageKey req with
  | Some storedEntry => (Duplicate (id storedEntry), r)
  | None =>
      let activity := activityOf req in
      match directLine with
      | Posted dataId =>
          (Data dataId,
           {| processedMessages :=
                <[messageKey req := {| timestamp := now; id := dataId |}]>
                  (processedMessages r);
              outbound := (outbound r ++ [activity])%list |})
      | PostFailed details =>
          (Error500 details,
           {| processedMessages := processedMessages r;
              outbound := (outbound r ++ [activity])%list |})
      end
  end.

Definition oneHour : Z := 60 * 60 * 1000.

(** The callback of [setInterval], run when [Date.now()] is [now]. *)
Definition sweep (now : Z) (r : Relay) : Relay :=
  {| processedMessages :=
       filter (fun kv => ¬ (now - timestamp kv.2 > oneHour)) (processedMessages r);
     outbound := outbound r |}.

(** What the relay goes through: requests and ticks of the sweep timer. *)
Inductive Event : Type :=
| Send (req : SendRequest) (directLine : PostResult) (now : Z)
| Sweep (now : Z).

Definition handle (r : Relay) (e : Event) : Relay :=
  match e with
  | Send req directLine now => snd (sendmessage req directLine now r)
  | Sweep now => sweep now r
  end.

Definition run (es : list Event) (r : Relay) : Relay := foldl handle r es.

Definition start : Relay := {| processedMessages := ∅; outbound := [] |}.

(** An event that does not sweep away an entry stamped [ts]: any request,
    or a sweep at a time when the entry is not older than one hour. *)
Definition keeps (ts : Z) (e : Event) : Prop :=
  match e with
  | Send _ _ _ => True
  | Sweep now => now - ts <= oneHour
  end.

End Server.

(** ** Scenarios

    Concrete sessions, built with the operations above, that the theorems
    below are evaluated on. *)

Module Scenario.
Import Js Client.

Definition times (n : nat) (f : State -> State) (s : State) : State :=
  Nat.iter n f s.

(** A fresh session in which the user gave consent and pressed the next
    button [n] times. *)
Definition advanced (n : nat) : State :=
  times n nextButtonLogic (consentCheckboxLogic true (firstLoad 1000)).

(** The user pressed the page's back button and the browser performed the
    traversal it requested. *)
Definition pageBack (s : State) : State := performRequested (backButtonLogic s).

(** On page 8 the submission succeeded at once: the thank-you page. *)
Definition submitted : State :=
  fst (submitButtonLogic (fun _ => Responded 200) (advanced 7)).



End Scenario.


(** ** Views and invariants *)

Module View.
Import Js Client.

(** The part of a state that navigation depends on: everything except the
    display (active page, chatbot view, notifications, scroll offset,
    dispatched events) and the items of the storage that are not about
    navigation. *)
Record Nav : Type := {
  nav_currentPage : JsNum;
  nav_historyStates : list HistoryEntry;
  nav_scrollPositions : gmap string Z;
  nav_bypassPopState : bool;
  nav_consentChecked : bool;
  nav_entries : list (option HistoryEntry);
  nav_cursor : nat;
  nav_traversals : list Z;
  nav_popstateListener : bool;
  nav_storedPage : option string;
  nav_storedHistory : option (list HistoryEntry);
  nav_storedScroll : option (gmap string Z);
  nav_storedConsent : option bool
}.

Definition nav (s : State) : Nav :=
  {| nav_currentPage := currentPage s;
     nav_historyStates := historyStates s;
     nav_scrollPositions := scrollPositions s;
     nav_bypassPopState := bypassPopState s;
     nav_consentChecked := consentChecked s;
     nav_entries := entries s;
     nav_cursor := cursor s;
     nav_traversals := traversals s;
     nav_popstateListener := popstateListener s;
     nav_storedPage := item_currentPage (sessionStorage s);
     nav_storedHistory := item_historyStates (sessionStorage s);
     nav_storedScroll := item_scrollPositions (sessionStorage s);
     nav_storedConsent := item_formConsent (sessionStorage s) |}.

(** The page values of a shadow stack, in order. *)
Definition pages (hs : list HistoryEntry) : list JsNum := map page hs.

(** The invariant of a session: the current page is an integer, no page
    occurs twice in [historyStates], and the session storage holds the
    current page and the current [historyStates]. *)
Definition consistent (s : State) : Prop :=
  (exists z, currentPage s = Num z)
  /\ NoDup (pages (historyStates s))
  /\ item_currentPage (sessionStorage s) = Some (toString (currentPage s))
  /\ item_historyStates (sessionStorage s) = Some (historyStates s).

(** The number of distinct values of a list of pages. *)
Fixpoint distinct (l : list JsNum) : nat :=
  match l with
  | [] => 0
  | p :: r => if decide (p ∈ r) then distinct r else S (distinct r)
  end.

End View.

(** ** Reading a run of [submitData] *)

Module Retry.
Import Client.

(** The error attempt [r] ends in, if it fails: a rejected [fetch], or a
    response that is not [ok]. *)
Definition errorOf (r : FetchResult) : option JsError :=
  match r with
  | Rejected reason => Some (FetchError reason)
  | Responded status => if ok status then None else Some (ServerReturned status)
  end.

(** The effects of [k] failed attempts in a row. *)
Fixpoint failures (data : SubmitData) (k : nat) : list Effect :=
  match k with
  | O => []
  | S k' => Fetch data :: Wait 500 :: failures data k'
  end.

(** The number of [fetch] calls in a trace. *)
Fixpoint fetches (t : list Effect) : nat :=
  match t with
  | [] => 0
  | Fetch _ :: r => S (fetches r)
  | Wait _ :: r => fetches r
  end.

(** A network on which every request is answered with status 503. *)
Definition unavailable : nat -> FetchResult := fun _ => Responded 503.

(** A network that rejects the first two requests and then answers 200. *)
Definition flaky : nat -> FetchResult :=
  fun i => if (i <? 2)%nat then Rejected "Failed to fetch" else Responded 200.

End Retry.

(** ** Stored sessions and relay runs used as examples *)

Module Example.
Import Js.




(** The message ["hi"] with client id ["m1"]. *)
Definition hi : Server.SendRequest :=
  {| Server.conversationId := "conv1"; Server.text := "hi";
     Server.channelGroup := JNumber (Num 1); Server.clientSideMsgId := "m1" |}.

(** A body of POST /submit with the treatment group sent as the number 0. *)
Definition groupZero : Server.SubmitBody :=
  {| Server.participantId := JString "ID-ABCDEFGHIJKLMNO0101120000000";
     Server.treatmentGroup := JNumber (Num 0);
     Server.conversationLog := JString "User: hi";
     Server.responseData := "{}" |}.

(** The same body with the group as the string the client sends, and an
    empty conversation log. *)
Definition emptyLog : Server.SubmitBody :=
  {| Server.participantId := JString "ID-ABCDEFGHIJKLMNO0101120000000";
     Server.treatmentGroup := JString "0";
     Server.conversationLog := JString "";
     Server.responseData := "{}" |}.

End Example.

(** ** Sessions: how the handlers are built, and what a session keeps *)

Module Session.
Import Js Client View.

(** The block the handlers share when they go to a page: save the scroll
    offset of the page left, set [currentPage], show the page, save the
    navigation state. *)
Definition move (target : JsNum) (s : State) : State :=
  saveNavigationState
    (showPage target (set_currentPage target (saveScrollPositions (currentPage s) s))).

(** The block of [nextButtonLogic] and [moveToFinalPage] that brings the
    browser history in line with [currentPage]. *)
Definition synchronise (s : State) : State :=
  if negb (hasPage (currentPage s) (historyStates s))
  then pushPageToHistory (currentPage s) s
  else historyForward (set_bypassPopState true s).

(** The element that displays page [p]. *)
Definition elementOf (p : JsNum) : ActiveElement :=
  if strictEq p totalPages then ThankYou else PageElement p.

(** [1 <= p <= totalPages]. *)
Definition inRange (p : JsNum) : bool := le (Num 1) p && le p totalPages.

(** A history entry that carries a state object with a page in range. *)
Definition entryInRange (o : option HistoryEntry) : bool :=
  match o with
  | Some st => inRange (page st)
  | None => false
  end.

(** The current page, the pages of the shadow stack and the pages of the
    browser history entries are pages of the survey, and the cursor points
    at an entry. *)
Definition bounded (n : Nav) : Prop :=
  inRange (nav_currentPage n) = true
  /\ Forall (fun e => inRange (page e) = true) (nav_historyStates n)
  /\ Forall (fun o => entryInRange o = true) (nav_entries n)
  /\ (nav_cursor n < length (nav_entries n))%nat.


(** How often ['userArrivedAtChatbot'] was dispatched in this document. *)
Definition arrivals (s : State) : nat :=
  length (filter (fun e => e = "userArrivedAtChatbot") (dispatched s)).

(** The flag [chatbotAlreadyOpened] and its copy in the session storage
    agree, and the arrival event was dispatched at most once, and only with
    the flag set. *)
Definition arrivalTracked (s : State) : Prop :=
  items (sessionStorage s) !! "chatbotAlreadyOpened"
  = Some (if chatbotAlreadyOpened s then "true" else "false")
  /\ (arrivals s <= if chatbotAlreadyOpened s then 1 else 0)%nat.

(** What the tracking of the first arrival is about: the flag, the number of
    arrival events dispatched, and the stored flag. *)
Definition tracking (s : State) : bool * nat * option string :=
  (chatbotAlreadyOpened s, arrivals s,
   items (sessionStorage s) !! "chatbotAlreadyOpened").

(** [trackChatbotArrival], on that. *)
Definition tracked (t : bool * nat * option string) : bool * nat * option string :=
  let '(opened, n, stored) := t in
  if negb opened then (true, S n, Some "true") else t.

(** The chatbot interface view is applied exactly on the chatbot page. *)
Definition viewFollows (s : State) : Prop :=
  chatbotView s = strictEq (currentPage s) chatbotPage.

(** The page displayed is the current page. *)
Definition displayed (s : State) : Prop :=
  activePage s = Some (elementOf (currentPage s)).

End Session.

(** ** The client and the server together *)

Module Wire.
Import Js.

(** A string read from the session storage as it arrives in the JSON body:
    [null] when the item is missing. *)
Definition jsonOf (o : option string) : JsValue :=
  match o with
  | Some v => JString v
  | None => JNull
  end.

(** The body [bodyParser.json()] hands to the handler of /submit when the
    client sends [JSON.stringify(data)]; [answers] is the JSON text of the
    answers to the questions. *)
Definition toBody (data : Client.SubmitData) (answers : string) : Server.SubmitBody :=
  {| Server.participantId := jsonOf (Client.participantId data);
     Server.treatmentGroup := jsonOf (Client.treatmentGroup data);
     Server.conversationLog := JString (Client.conversationLog data);
     Server.responseData := answers |}.

(** The network as the client sees it when every request reaches the server:
    attempt [i] is answered with the status of the handler, whose query
    succeeds or not as [queryOk i] says.  Every attempt meets the table [db],
    since an attempt that is not answered with 200 leaves the table as it is
    and the one answered with 200 is the last. *)
Definition served (body : Server.SubmitBody) (queryOk : nat -> bool)
    (db : list Server.Row) : nat -> Client.FetchResult :=
  fun i => Client.Responded (fst (Server.submit body (queryOk i) db)).

(** The row the handler of /submit inserts. *)
Definition rowOf (body : Server.SubmitBody) : Server.Row :=
  {| Server.participant_id := Server.participantId body;
     Server.treatment_group := Server.treatmentGroup body;
     Server.response_data := Server.responseData body;
     Server.conversation_log := Server.conversationLog body |}.

(** Requests to /submit handled one after the other; each comes with
    whether its query succeeds.  The result is the statuses, in order, and
    the table. *)
Fixpoint submitAll (requests : list (Server.SubmitBody * bool)) (db : list Server.Row)
    : list Z * list Server.Row :=
  match requests with
  | [] => ([], db)
  | (body, queryOk) :: rest =>
      let '(status, db) := Server.submit body queryOk db in
      let '(statuses, db) := submitAll rest db in
      (status :: statuses, db)
  end.

(** Whether a request is one that /submit answers with 200. *)
Definition accepted (request : Server.SubmitBody * bool) : bool :=
  truthy (Server.participantId (fst request))
  && truthy (Server.treatmentGroup (fst request))
  && truthy (Server.conversationLog (fst request))
  && snd request.

(** A participant on page 8 whose session storage holds the metadata the
    server assigned (group 0) and a conversation. *)
Definition participant : Client.State :=
  Client.setItem "conversation" "[{'role':'user','text':'hi'}]"
    (Client.setItem "treatmentGroup" "0"
       (Client.setItem "participantId" "ID-K7QZ02MBK7QZ02M1102093015250"
          (Scenario.advanced 7))).

(** Whether a string contains a colon. *)
Fixpoint hasColon (s : string) : bool :=
  match s with
  | EmptyString => false
  | String c r => Ascii.eqb c ":" || hasColon r
  end.

End Wire.

(** ** The relay's books *)

Module Ledger.
Import Js Server.

(** Where the entries and the POSTs of a relay come from, as an invariant
    of the events [es] that led to it. *)
Definition accounted (es : list Event) (r : Relay) : Prop :=
  (forall k e, processedMessages r !! k = Some e ->
      exists req0, Send req0 (Posted (id e)) (timestamp e) ∈ es
                   /\ messageKey req0 = k
                   /\ activityOf req0 ∈ outbound r)
  /\ (forall a, a ∈ outbound r ->
        exists req0 directLine now0,
          Send req0 directLine now0 ∈ es /\ a = activityOf req0)
  /\ (size (processedMessages r) <= length (outbound r) <= length es)%nat.

End Ledger.

(** ** The order of the questions: [public/script.js], continued *)

Module Shuffle.

Section Arrays.
Context {A : Type}.

(** A JS array is a list of cells; a cell holds a value, or [undefined]
    ([None]). *)

(** [array[i]]: [undefined] past the end. *)
Definition read (array : list (option A)) (i : nat) : option A := mjoin (array !! i).

(** [array[i] = v]: past the end the array grows, with holes up to [i]. *)
Definition assign (i : nat) (v : option A) (array : list (option A)) : list (option A) :=
  if decide (i < length array)%nat then <[i := v]> array
  else (array ++ replicate (i - length array) None ++ [v])%list.

(** [[array[i], array[j]] = [array[j], array[i]]]. *)
Definition swap (i j : nat) (array : list (option A)) : list (option A) :=
  let right := (read array j, read array i) in
  assign j (snd right) (assign i (fst right) array).

(** The loop of [shuffleArray] from index [i] down to 1; [random i] is the
    value of [Math.floor(Math.random() * (i + 1))] in the iteration of
    index [i]. *)
Fixpoint shuffleFrom (random : nat -> nat) (i : nat) (array : list (option A)) : list (option A) :=
  match i with
  | O => array
  | S i' => shuffleFrom random i' (swap i (random i) array)
  end.

Definition shuffleArray (random : nat -> nat) (array : list (option A)) : list (option A) :=
  shuffleFrom random (length array - 1) array.

End Arrays.

(** [[...Array(n).keys()]]. *)
Definition keys (n : nat) : list (option nat) := Some <$> seq 0 n.

(** [randomOrder.map(index => allRandomizedElements[index])]. *)
Definition newOrder {A : Type} (randomOrder : list (option nat))
    (allRandomizedElements : list (option A)) : list (option A) :=
  (fun index => match index with
                | Some i => read allRandomizedElements i
                | None => None
                end) <$> randomOrder.

End Shuffle.

(** ** Participant ids and groups: [server.js], continued *)

Module Ident.
Import Js.

(** [s.charAt(n)]: the empty string past the end. *)
Definition charAt (n : nat) (s : string) : string :=
  match String.get n s with
  | Some c => String c ""
  | None => ""
  end.

(** [s.padStart(targetLength, '0')]. *)
Fixpoint zeros (n : nat) : string :=
  match n with
  | O => ""
  | S n' => String "0" (zeros n')
  end.

Definition padStart (targetLength : nat) (s : string) : string :=
  (zeros (targetLength - String.length s) ++ s)%string.

(** What [createParticipantId] reads off [new Date()]. *)
Record Date : Type := {
  getMonth : Z;
  getDate : Z;
  getHours : Z;
  getMinutes : Z;
  getSeconds : Z;
  getMilliseconds : Z
}.

Definition chars : string := "ABCDEFGHIJKLMNOPQRSTUVWXYZ0123456789".

(** [randomBytes[i]] of a buffer: a byte.  (Only an empty buffer is read
    outside its range; the index [NaN] that JS computes with the [undefined]
    read there selects the first character, as the byte 0 does here.) *)
Definition byteAt (randomBytes : list Z) (i : nat) : Z := nth i randomBytes 0.

(** The loop of [createParticipantId], for [i] from [from] on, [n] times. *)
Fixpoint randomLoop (randomBytes : list Z) (n : nat) (i : nat) (randomStr : string)
    : string :=
  match n with
  | O => randomStr
  | S n' =>
      let randomIndex :=
        byteAt randomBytes (i mod length randomBytes) mod Z.of_nat (String.length chars) in
      randomLoop randomBytes n' (S i)
        (randomStr ++ charAt (Z.to_nat randomIndex) chars)%string
  end.

(** [createParticipantId()]; [randomBytes] is the buffer
    [crypto.randomBytes(8)] returns, [now] is [new Date()]. *)
Definition createParticipantId (randomBytes : list Z) (now : Date) : string :=
  let prefix := "ID-" in
  let randomStr := randomLoop randomBytes 15 0 "" in
  let month := padStart 2 (toString (Num (getMonth now + 1))) in
  let day := padStart 2 (toString (Num (getDate now))) in
  let hour := padStart 2 (toString (Num (getHours now))) in
  let minute := padStart 2 (toString (Num (getMinutes now))) in
  let second := padStart 2 (toString (Num (getSeconds now))) in
  let ms := padStart 3 (toString (Num (getMilliseconds now))) in
  let timestamp := (month ++ day ++ hour ++ minute ++ second ++ ms)%string in
  (prefix ++ randomStr ++ timestamp)%string.

#[export] Instance JsValue_eq_dec : EqDecision JsValue.
Proof. solve_decision. Defined.

(** The rows [SELECT participant_id FROM survey_responses WHERE
    participant_id = $1] returns for an id: those /submit inserted with
    that string as [participantId]. *)
Definition selectById (id : string) (db : list Server.Row) : list Server.Row :=
  filter (fun row => Server.participant_id row = JString id) db.

(** How [generateUniqueParticipantId] ends: it returns an id, or
    [pool.query] throws. *)
Inductive Generated : Type :=
| Id (id : string)
| QueryError.

(** The loop of [generateUniqueParticipantId]: iteration number [i] draws
    [entropy i] and its query succeeds or not as [queryOk i] says.  The
    loop has no bound of its own; [fuel] iterations are run, and [None] says
    that it is still running after them. *)
Fixpoint generateLoop (entropy : nat -> list Z * Date) (queryOk : nat -> bool)
    (db : list Server.Row) (fuel : nat) (i : nat) : option Generated :=
  match fuel with
  | O => None
  | S fuel' =>
      let id := createParticipantId (fst (entropy i)) (snd (entropy i)) in
      if queryOk i then
        if (length (selectById id db) =? 0)%nat then Some (Id id)
        else generateLoop entropy queryOk db fuel' (S i)
      else Some QueryError
  end.

Definition generateUniqueParticipantId (entropy : nat -> list Z * Date)
    (queryOk : nat -> bool) (db : list Server.Row) (fuel : nat) : option Generated :=
  generateLoop entropy queryOk db fuel 0.

(** The body of the answer of GET /generateSurveyData. *)
Inductive SurveyJson : Type :=
| SurveyData (participantId : string) (treatmentGroup : Z)
| SurveyError.

(** The handler of GET /generateSurveyData: the status and the body; [low]
    is the outcome of [Math.random() < 0.5]. *)
Definition generateSurveyData (entropy : nat -> list Z * Date)
    (queryOk : nat -> bool) (low : bool) (db : list Server.Row) (fuel : nat)
    : option (Z * SurveyJson) :=
  match generateUniqueParticipantId entropy queryOk db fuel with
  | Some (Id participantId) =>
      Some (200, SurveyData participantId (Server.assignGroup low))
  | Some QueryError => Some (500, SurveyError)
  | None => None
  end.

(** The id of iteration [i]. *)
Definition candidate (entropy : nat -> list Z * Date) (i : nat) : string :=
  createParticipantId (fst (entropy i)) (snd (entropy i)).

(** The character a byte selects in [chars]. *)
Definition randomChar (byte : Z) : string :=
  charAt (Z.to_nat (byte mod Z.of_nat (String.length chars))) chars.

(** Whether the character [c] occurs in [alphabet], and whether [s] is made
    of characters of [alphabet]. *)
Fixpoint occurs (c : ascii) (alphabet : string) : bool :=
  match alphabet with
  | EmptyString => false
  | String a r => Ascii.eqb a c || occurs c r
  end.

Fixpoint allOf (alphabet : string) (s : string) : bool :=
  match s with
  | EmptyString => true
  | String c r => occurs c alphabet && allOf alphabet r
  end.

(** A date whose fields are in the ranges of [Date]. *)
Definition inCalendar (now : Date) : Prop :=
  0 <= getMonth now <= 11 /\ 1 <= getDate now <= 31 /\ 0 <= getHours now <= 23
  /\ 0 <= getMinutes now <= 59 /\ 0 <= getSeconds now <= 59
  /\ 0 <= getMilliseconds now <= 999.

(** 2 November, 09:30:15.250. *)
Definition morning : Date :=
  {| getMonth := 10; getDate := 2; getHours := 9; getMinutes := 30;
     getSeconds := 15; getMilliseconds := 250 |}.

(** Draws that differ in the first byte only, at one moment. *)
Definition draws : nat -> list Z * Date :=
  fun i => ([Z.of_nat i; 200; 36; 255; 0; 90; 61; 18], morning).

(** A table whose only row has the id of the first draw. *)
Definition firstTaken : list Server.Row :=
  [{| Server.participant_id := JString (candidate draws 0);
      Server.treatment_group := JString "1";
      Server.response_data := "{}";
      Server.conversation_log := JString "[]" |}].

End Ident.

(** ** The participant's metadata: [public/script.js], continued *)

Module Metadata.
Import Js Client.

(** What [fetchMetadataFromServer] gets: the two fields it reads off the
    parsed body ([JUndefined] for a field the body does not have), or
    nothing, when [fetch] or [response.json()] throws. *)
Inductive Answer : Type :=
| Body (participantId treatmentGroup : JsValue)
| NoAnswer.

(** How [getMetadata] settles, and whether it asked the server. *)
Inductive Loaded : Type :=
| Stored (s : State) (asked : bool)
| Failed.

(** [sessionStorage.getItem(k)] is truthy: the item is there and not the
    empty string. *)
Definition stored (k : string) (s : State) : bool :=
  match items (sessionStorage s) !! k with
  | Some v => nonEmpty v
  | None => false
  end.

(** [sessionStorage.getItem(k) || other]. *)
Definition itemOr (k : string) (other : JsValue) (s : State) : JsValue :=
  match items (sessionStorage s) !! k with
  | Some v => if nonEmpty v then JString v else other
  | None => other
  end.

Section Conversions.

(** The conversions [Number(v)] and [String(v)] of the language. *)
Variable Number : JsValue -> JsNum.
Variable String_ : JsValue -> string.

(** [getMetadata()]; [answer] is what a request to /generateSurveyData
    gives if it is made, [low] the outcome of [Math.random() < 0.5]. *)
Definition getMetadata (answer : Answer) (low : bool) (s : State) : Loaded :=
  let asked := negb (stored "participantId" s) || negb (stored "treatmentGroup" s) in
  match (if asked then answer else Body JUndefined JUndefined) with
  | NoAnswer => Failed
  | Body surveyParticipantId surveyTreatmentGroup =>
      let participantId := itemOr "participantId" surveyParticipantId s in
      let treatmentGroup := itemOr "treatmentGroup" surveyTreatmentGroup s in
      let treatmentGroup := Number treatmentGroup in
      let treatmentGroup :=
        if negb (strictEq treatmentGroup (Num 0) || strictEq treatmentGroup (Num 1))
        then (if low then Num 0 else Num 1)
        else treatmentGroup in
      let s := setItem "participantId" (String_ participantId) s in
      let s := setItem "treatmentGroup" (toString treatmentGroup) s in
      Stored s asked
  end.

End Conversions.

(** The body of the answer of /generateSurveyData as the client reads it:
    the error body has neither field. *)
Definition answerOf (json : Ident.SurveyJson) : Answer :=
  match json with
  | Ident.SurveyData participantId treatmentGroup =>
      Body (JString participantId) (JNumber (Num treatmentGroup))
  | Ident.SurveyError => Body JUndefined JUndefined
  end.

(** An instance of the two conversions.  [stringOf] is [String(v)], with a
    plain object for [JObject]; [numberOf] is [Number(v)] on everything but
    strings, and on the strings that are made of decimal digits. *)
Definition numberOf (v : JsValue) : JsNum :=
  match v with
  | JUndefined => NaN
  | JNull => Num 0
  | JBool b => if b then Num 1 else Num 0
  | JNumber n => n
  | JString s => parseInt10 s
  | JObject => NaN
  end.

Definition stringOf (v : JsValue) : string :=
  match v with
  | JUndefined => "undefined"
  | JNull => "null"
  | JBool b => if b then "true" else "false"
  | JNumber n => toString n
  | JString s => s
  | JObject => "[object Object]"
  end.

End Metadata.

(** ** The final page and the end of the dialogue: [public/script.js] and
    [server.js], continued *)

Module Final.
Import Js.

Definition emailCollection : bool := true.
Definition textareaReplacement : bool := true.

(** What the e-mail form and the end of the dialogue read and write: the
    value of [#emailInput], the two flags, the elements that have the class
    [hidden], the notifications whose [style.display] is [block], the
    scroll offset and the session storage. *)
Record State : Type := {
  emailInput : string;
  emailSent : bool;
  dialogueFinished : bool;
  hidden : gset string;
  shown : gset string;
  scrollY : Z;
  scrollHeight : Z;
  sessionStorage : gmap string string
}.



Definition set_hidden (v : gset string) (s : State) : State :=
  {| emailInput := emailInput s; emailSent := emailSent s;
     dialogueFinished := dialogueFinished s; hidden := v; shown := shown s;
     scrollY := scrollY s; scrollHeight := scrollHeight s;
     sessionStorage := sessionStorage s |}.

Definition set_shown (v : gset string) (s : State) : State :=
  {| emailInput := emailInput s; emailSent := emailSent s;
     dialogueFinished := dialogueFinished s; hidden := hidden s; shown := v;
     scrollY := scrollY s; scrollHeight := scrollHeight s;
     sessionStorage := sessionStorage s |}.

Definition set_scrollY (v : Z) (s : State) : State :=
  {| emailInput := emailInput s; emailSent := emailSent s;
     dialogueFinished := dialogueFinished s; hidden := hidden s; shown := shown s;
     scrollY := v; scrollHeight := scrollHeight s;
     sessionStorage := sessionStorage s |}.

Definition setItem (k v : string) (s : State) : State :=
  {| emailInput := emailInput s; emailSent := emailSent s;
     dialogueFinished := dialogueFinished s; hidden := hidden s; shown := shown s;
     scrollY := scrollY s; scrollHeight := scrollHeight s;
     sessionStorage := <[k := v]> (sessionStorage s) |}.

(** [element.classList.add('hidden')] and [.remove('hidden')]. *)
Definition addHidden (elementId : string) (s : State) : State :=
  set_hidden ({[elementId]} ∪ hidden s) s.
Definition removeHidden (elementId : string) (s : State) : State :=
  set_hidden (hidden s ∖ {[elementId]}) s.

Definition toggleNotification (show : bool) (elementId : string) (s : State) : State :=
  set_shown (if show then {[elementId]} ∪ shown s else shown s ∖ {[elementId]}) s.

Definition scrollToBottom (s : State) : State := set_scrollY (scrollHeight s) s.


Definition setThankyouPageState (s : State) : State :=
  if negb emailCollection then
    addHidden "emailInfoSection" (addHidden "emailSuccessSection" s)
  else if negb (emailSent s) then
    removeHidden "emailInfoSection" (addHidden "emailSuccessSection" s)
  else
    removeHidden "emailSuccessSection" (addHidden "emailInfoSection" s).

Definition setFinishedDialogueState (s : State) : State :=
  if negb textareaReplacement then
    removeHidden "input-container" (addHidden "finished-dialogue-container" s)
  else if negb (dialogueFinished s) then
    removeHidden "input-container" (addHidden "finished-dialogue-container" s)
  else
    removeHidden "finished-dialogue-container" (addHidden "input-container" s).




(** What [submitEmail] does to the outside, in order. *)
Inductive Effect : Type :=
| Fetch (email : string)
| Wait (ms : Z).




(** The script is loaded on a fresh document whose elements with the class
    [hidden] are [markup] and whose e-mail field holds [typed]: the two
    flags are read from the session storage, and [restoreState] sets the two
    views. *)
Definition reload (markup : gset string) (typed : string) (height : Z) (s : State)
    : State :=
  let s := {| emailInput := typed;
              emailSent := bool_decide (sessionStorage s !! "emailSent" = Some "true");
              dialogueFinished :=
                bool_decide (sessionStorage s !! "dialogueFinished" = Some "true");
              hidden := markup; shown := ∅; scrollY := 0; scrollHeight := height;
              sessionStorage := sessionStorage s |} in
  let s := setFinishedDialogueState s in
  setThankyouPageState s.

(** The handler of POST /submit-email on the table [emails]; [queryOk]
    tells whether [pool.query] succeeds. *)
Definition submitEmailHandler (email : JsValue) (queryOk : bool) (emails : list JsValue)
    : Z * list JsValue :=
  if negb (truthy email) then (400, emails)
  else if queryOk then (200, (emails ++ [email])%list)
  else (500, emails).

(** The network when every request reaches the server; an attempt that is
    not answered with 200 leaves the table as it is. *)
Definition served (email : string) (queryOk : nat -> bool) (emails : list JsValue)
    : nat -> Client.FetchResult :=
  fun i => Client.Responded (fst (submitEmailHandler (JString email) (queryOk i) emails)).

(** The effects of [k] failed attempts in a row. *)
Fixpoint failures (email : string) (k : nat) : list Effect :=
  match k with
  | O => []
  | S k' => Fetch email :: Wait 500 :: failures email k'
  end.

(** The final page of a participant who typed an address. *)
Definition typed : State :=
  {| emailInput := "  ada@example.org "; emailSent := false; dialogueFinished := true;
     hidden := {["emailSuccessSection"; "input-container"]}; shown := ∅;
     scrollY := 0; scrollHeight := 1000;
     sessionStorage := {["dialogueFinished" := "true"]} |}.


End Final.
(** * Properties *)

Import Js Client View.

(** ** Numbers *)

Lemma strictEq_Num (a : JsNum) (z : Z) : strictEq a (Num z) = true <-> a = Num z.
Proof.
  destruct a as [x|]; simpl; [|split; discriminate].
  rewrite Z.eqb_eq. split; congruence.
Qed.

Lemma strictEq_Num_false (a : JsNum) (z : Z) : strictEq a (Num z) = false <-> a <> Num z.
Proof.
  rewrite <- strictEq_Num. destruct (strictEq a (Num z)); split; congruence.
Qed.

Lemma digitPrefix_string_of_uint (d : uint) :
  digitPrefix (NilEmpty.string_of_uint d) = d.
Proof. induction d; simpl; congruence. Qed.

Lemma string_of_uint_nonnil (d : uint) :
  d <> Nil -> NilZero.string_of_uint d = NilEmpty.string_of_uint d.
Proof. destruct d; simpl; congruence. Qed.

Lemma parseInt10_uint (d : uint) :
  d <> Nil -> parseInt10 (NilEmpty.string_of_uint d) = Num (Z.of_uint d).
Proof.
  intros Hd. unfold parseInt10.
  destruct d; try congruence; simpl; rewrite digitPrefix_string_of_uint; reflexivity.
Qed.

Lemma parseInt10_neg_uint (d : uint) :
  d <> Nil ->
  parseInt10 (String "-" (NilEmpty.string_of_uint d)) = Num (- Z.of_uint d).
Proof.
  intros Hd. unfold parseInt10. simpl.
  rewrite digitPrefix_string_of_uint. destruct d; congruence.
Qed.

Example parseInt10_examples :
  parseInt10 "7" = Num 7 /\ parseInt10 " 12px" = Num 12 /\ parseInt10 "-3" = Num (-3)
  /\ parseInt10 "abc" = NaN /\ parseInt10 "" = NaN /\ parseInt10 "0x1f" = Num 0.
Proof. repeat split; reflexivity. Qed.

Example toString_examples :
  toString (Num 9) = "9" /\ toString (Num 0) = "0" /\ toString (Num (-12)) = "-12"
  /\ toString NaN = "NaN".
Proof. repeat split; reflexivity. Qed.

(** What [saveNavigationState] writes under ['currentPage'] is read back by
    [parseInt] as the same page. *)
Lemma parseInt10_toString (z : Z) : parseInt10 (toString (Num z)) = Num z.
Proof.
  destruct z as [|p|p]; [reflexivity| |];
    pose proof (DecimalPos.Unsigned.to_uint_nonnil p) as Hn;
    pose proof (DecimalPos.Unsigned.of_to p) as Hp; simpl.
  - rewrite string_of_uint_nonnil, parseInt10_uint by assumption.
    unfold Z.of_uint. now rewrite Hp.
  - rewrite string_of_uint_nonnil, parseInt10_neg_uint by assumption.
    unfold Z.of_uint. now rewrite Hp.
Qed.

Lemma nonEmpty_toString (z : Z) : nonEmpty (toString (Num z)) = true.
Proof.
  destruct z as [|p|p]; [reflexivity| |]; simpl.
  - pose proof (DecimalPos.Unsigned.to_uint_nonnil p) as Hn.
    destruct (Pos.to_uint p); try congruence; reflexivity.
  - reflexivity.
Qed.

(** ** What the display and storage helpers leave alone *)

Lemma nav_set_scrollQueued v s : nav (set_scrollQueued v s) = nav s.
Proof. reflexivity. Qed.
Lemma nav_set_activePage v s : nav (set_activePage v s) = nav s.
Proof. reflexivity. Qed.
Lemma nav_set_scrollY v s : nav (set_scrollY v s) = nav s.
Proof. reflexivity. Qed.
Lemma nav_set_shown v s : nav (set_shown v s) = nav s.
Proof. reflexivity. Qed.
Lemma nav_setItem k v s : nav (setItem k v s) = nav s.
Proof. reflexivity. Qed.
Lemma nav_removeItem k s : nav (removeItem k s) = nav s.
Proof. reflexivity. Qed.
Lemma nav_dispatchEvent e s : nav (dispatchEvent e s) = nav s.
Proof. reflexivity. Qed.

Lemma nav_applyChatbotViewState s : nav (applyChatbotViewState s) = nav s.
Proof. unfold applyChatbotViewState. destruct (strictEq _ _); reflexivity. Qed.

Lemma nav_trackChatbotArrival s : nav (trackChatbotArrival s) = nav s.
Proof. unfold trackChatbotArrival. destruct (negb _); reflexivity. Qed.

Lemma nav_toggleNotification b e s : nav (toggleNotification b e s) = nav s.
Proof. reflexivity. Qed.

Lemma nav_scrollToBottom s : nav (scrollToBottom s) = nav s.
Proof. reflexivity. Qed.

Create Rewrite HintDb nav.
#[local] Hint Rewrite nav_set_scrollQueued nav_set_activePage nav_set_scrollY
  nav_set_shown nav_setItem nav_removeItem nav_dispatchEvent
  nav_applyChatbotViewState nav_trackChatbotArrival nav_toggleNotification
  nav_scrollToBottom : nav.

Ltac nav_cases :=
  repeat first
    [ progress autorewrite with nav
    | match goal with
      | |- nav (if ?b then _ else _) = _ => destruct b
      | |- nav (match ?x with Some _ => _ | None => _ end) = _ => destruct x
      end ].

(** [showPage] touches the display only. *)
Lemma nav_showPage (p : JsNum) (s : State) : nav (showPage p s) = nav s.
Proof.
  unfold showPage, cancelScrollDelays. cbv zeta. nav_cases; reflexivity.
Qed.

Lemma currentPage_showPage p s : currentPage (showPage p s) = currentPage s.
Proof. exact (f_equal nav_currentPage (nav_showPage p s)). Qed.

Lemma historyStates_showPage p s : historyStates (showPage p s) = historyStates s.
Proof. exact (f_equal nav_historyStates (nav_showPage p s)). Qed.

Lemma entries_showPage p s : entries (showPage p s) = entries s.
Proof. exact (f_equal nav_entries (nav_showPage p s)). Qed.

Lemma cursor_showPage p s : cursor (showPage p s) = cursor s.
Proof. exact (f_equal nav_cursor (nav_showPage p s)). Qed.

Lemma storedPage_showPage p s :
  item_currentPage (sessionStorage (showPage p s)) = item_currentPage (sessionStorage s).
Proof. exact (f_equal nav_storedPage (nav_showPage p s)). Qed.

Lemma storedHistory_showPage p s :
  item_historyStates (sessionStorage (showPage p s))
  = item_historyStates (sessionStorage s).
Proof. exact (f_equal nav_storedHistory (nav_showPage p s)). Qed.

Lemma currentPage_saveScrollPositions p s :
  currentPage (saveScrollPositions p s) = currentPage s.
Proof. unfold saveScrollPositions. destruct (negb _); reflexivity. Qed.

Lemma historyStates_saveScrollPositions p s :
  historyStates (saveScrollPositions p s) = historyStates s.
Proof. unfold saveScrollPositions. destruct (negb _); reflexivity. Qed.

Lemma entries_saveScrollPositions p s : entries (saveScrollPositions p s) = entries s.
Proof. unfold saveScrollPositions. destruct (negb _); reflexivity. Qed.

Lemma cursor_saveScrollPositions p s : cursor (saveScrollPositions p s) = cursor s.
Proof. unfold saveScrollPositions. destruct (negb _); reflexivity. Qed.

Lemma storedPage_saveScrollPositions p s :
  item_currentPage (sessionStorage (saveScrollPositions p s))
  = item_currentPage (sessionStorage s).
Proof. unfold saveScrollPositions. destruct (negb _); reflexivity. Qed.

Lemma storedHistory_saveScrollPositions p s :
  item_historyStates (sessionStorage (saveScrollPositions p s))
  = item_historyStates (sessionStorage s).
Proof. unfold saveScrollPositions. destruct (negb _); reflexivity. Qed.

#[local] Arguments showPage : simpl never.
#[local] Arguments saveScrollPositions : simpl never.

Create Rewrite HintDb frame.

Ltac frame := repeat (progress (cbn; autorewrite with frame)); try reflexivity.

#[local] Hint Rewrite currentPage_showPage historyStates_showPage entries_showPage
  cursor_showPage storedPage_showPage storedHistory_showPage
  currentPage_saveScrollPositions historyStates_saveScrollPositions
  entries_saveScrollPositions cursor_saveScrollPositions
  storedPage_saveScrollPositions storedHistory_saveScrollPositions : frame.

(** ** The popstate handler *)

Lemma handlePopState_suppressed (event : PopStateEvent) (s : State) :
  bypassPopState s = true ->
  handlePopState event s = (Returned, set_bypassPopState false s).
Proof. intros H. unfold handlePopState. rewrite H. reflexivity. Qed.

Lemma handlePopState_clear (event : PopStateEvent) (s : State) :
  bypassPopState s = false ->
  handlePopState event s = handleNavigation event s.
Proof. intros H. unfold handlePopState. rewrite H. reflexivity. Qed.

(** Case (a) of the handler, reached when neither (b) nor (c) applies. *)
Lemma handleNavigation_default (event : PopStateEvent) (st : HistoryEntry) (s : State) :
  state event = Some st ->
  strictEq (currentPage s) (Num 1) && strictEq (page st) (Num 2)
    && negb (consentChecked s) = false ->
  strictEq (currentPage s) totalPages = false ->
  let target := if lt (page st) (currentPage s) then decr (currentPage s)
                else incr (currentPage s) in
  handleNavigation event s =
    (Returned,
     saveNavigationState
       (showPage target (set_currentPage target (saveScrollPositions (currentPage s) s)))).
Proof.
  intros Hst Hconsent Hterm. unfold handleNavigation.
  rewrite Hst, Hterm.
  destruct (strictEq (currentPage s) (Num 1)) eqn:H1; cbn in Hconsent.
  - rewrite Hconsent. destruct (lt (page st) (currentPage s)); reflexivity.
  - destruct (lt (page st) (currentPage s)); reflexivity.
Qed.






(** C3: when [bypassPopState] is set, the next [popstate] notification only
    clears the flag: the handler returns the state with the flag cleared and
    nothing else changed (in particular [currentPage], [historyStates],
    [scrollPositions], the active page, the session storage and the browser
    history); the flag is consumed by that one notification, so the
    notification after it runs the navigation cases of the handler. *)
Theorem C3_suppressed_popstate_only_clears_flag
    (s : State) (event next : PopStateEvent) :
  bypassPopState s = true ->
  let s1 := snd (handlePopState event s) in
  handlePopState event s = (Returned, set_bypassPopState false s)
  /\ currentPage s1 = currentPage s
  /\ historyStates s1 = historyStates s
  /\ scrollPositions s1 = scrollPositions s
  /\ activePage s1 = activePage s
  /\ sessionStorage s1 = sessionStorage s
  /\ (entries s1, cursor s1, traversals s1) = (entries s, cursor s, traversals s)
  /\ bypassPopState s1 = false
  /\ handlePopState next s1 = handleNavigation next s1.
Proof.
  intros Hflag s1. subst s1.
  rewrite (handlePopState_suppressed event s Hflag). cbn [snd].
  repeat split.
Qed.

Lemma C3_witness :
  bypassPopState (backButtonLogic (Scenario.advanced 2)) = true
  /\ handlePopState {| state := Some {| page := Num 2 |} |}
       (backButtonLogic (Scenario.advanced 2))
     = (Returned, set_bypassPopState false (backButtonLogic (Scenario.advanced 2))).
Proof.
  assert (H : bypassPopState (backButtonLogic (Scenario.advanced 2)) = true)
    by (vm_compute; reflexivity).
  split; [exact H|].
  exact (proj1 (C3_suppressed_popstate_only_clears_flag
                  (backButtonLogic (Scenario.advanced 2))
                  {| state := Some {| page := Num 2 |} |}
                  {| state := Some {| page := Num 1 |} |} H)).
Defined.

(** C4: with the flag clear, outside the consent case and the terminal case,
    a notification whose destination page is smaller than [currentPage]
    lowers [currentPage] by exactly one, one whose destination page is larger
    raises it by exactly one; in both cases nothing is appended to
    [historyStates] and no history entry is pushed. *)
Theorem C4_popstate_moves_one_step
    (s : State) (event : PopStateEvent) (st : HistoryEntry) :
  bypassPopState s = false ->
  state event = Some st ->
  ~ (currentPage s = Num 1 /\ page st = Num 2 /\ consentChecked s = false) ->
  currentPage s <> totalPages ->
  let s' := snd (handlePopState event s) in
  fst (handlePopState event s) = Returned
  /\ (lt (page st) (currentPage s) = true ->
      exists c, currentPage s = Num c /\ currentPage s' = Num (c - 1))
  /\ (gt (page st) (currentPage s) = true ->
      exists c, currentPage s = Num c /\ currentPage s' = Num (c + 1))
  /\ historyStates s' = historyStates s
  /\ entries s' = entries s
  /\ cursor s' = cursor s.
Proof.
  intros Hflag Hst Hconsent Hterm s'. subst s'.
  rewrite (handlePopState_clear event s Hflag).
  rewrite (handleNavigation_default event st s Hst).
  - cbn [fst snd]. unfold saveNavigationState. cbn.
    autorewrite with frame. cbn. autorewrite with frame.
    repeat split.
    + intros Hlt. rewrite Hlt. destruct (currentPage s) as [c|] eqn:Hc.
      * exists c. split; reflexivity.
      * destruct (page st); discriminate.
    + unfold gt. intros Hgt. destruct (currentPage s) as [c|] eqn:Hc.
      * exists c. split; [reflexivity|].
        destruct (page st) as [d|]; [|discriminate]. cbn in *.
        apply Z.ltb_lt in Hgt. destruct (d <? c) eqn:Hd; [|reflexivity].
        apply Z.ltb_lt in Hd. lia.
      * discriminate.
  - destruct (strictEq (currentPage s) (Num 1)) eqn:H1; [|reflexivity].
    destruct (strictEq (page st) (Num 2)) eqn:H2; [|reflexivity].
    destruct (consentChecked s) eqn:H3; [reflexivity|].
    exfalso. apply Hconsent. now rewrite <- !strictEq_Num.
  - now apply strictEq_Num_false.
Qed.

Lemma C4_witness :
  currentPage (snd (handlePopState {| state := Some {| page := Num 4 |} |}
                      (Scenario.advanced 4))) = Num 4.
Proof.
  destruct (C4_popstate_moves_one_step (Scenario.advanced 4)
              {| state := Some {| page := Num 4 |} |} {| page := Num 4 |})
    as (_ & Hback & _).
  - vm_compute; reflexivity.
  - reflexivity.
  - intros (H & _). vm_compute in H. discriminate.
  - intros H. vm_compute in H. discriminate.
  - destruct (Hback ltac:(vm_compute; reflexivity)) as (c & Hc & Hs).
    vm_compute in Hc. injection Hc as <-. exact Hs.
Defined.




(** ** The page buttons at the boundaries *)

Lemma app_singleton_neq {A : Type} (l : list A) (x : A) : (l ++ [x])%list <> l.
Proof.
  intros H. apply (f_equal (@length A)) in H. rewrite length_app in H.
  simpl in H. lia.
Qed.

(** At the first page the back button does nothing at all. *)
Lemma backButtonLogic_first_page (s : State) :
  currentPage s = Num 1 -> backButtonLogic s = s.
Proof. intros H. unfold backButtonLogic. rewrite H. reflexivity. Qed.

(** At the final page the guarded block of [nextButtonLogic] is skipped, but
    the block that synchronises the history is not guarded and runs. *)
Lemma nextButtonLogic_final_page (s : State) :
  currentPage s = totalPages ->
  nextButtonLogic s =
    if hasPage totalPages (historyStates s)
    then historyForward (set_bypassPopState true s)
    else pushPageToHistory totalPages s.
Proof.
  intros H. unfold nextButtonLogic. rewrite H. cbn [lt totalPages].
  rewrite Z.ltb_irrefl. rewrite H.
  destruct (hasPage totalPages (historyStates s)); reflexivity.
Qed.

(** C1: at [currentPage = 1] the back button leaves the whole state
    unchanged; at [currentPage = totalPages] the next button does not: when
    the final page is in [historyStates] it sets [bypassPopState] and
    requests a forward traversal, otherwise it pushes a history entry, and in
    both cases the state after differs from the state before. *)
Theorem C1_boundary_buttons (s : State) :
  (currentPage s = Num 1 -> backButtonLogic s = s)
  /\ (currentPage s = totalPages ->
      nextButtonLogic s =
        (if hasPage totalPages (historyStates s)
         then historyForward (set_bypassPopState true s)
         else pushPageToHistory totalPages s)
      /\ currentPage (nextButtonLogic s) = currentPage s
      /\ scrollPositions (nextButtonLogic s) = scrollPositions s
      /\ nextButtonLogic s <> s).
Proof.
  split; [apply backButtonLogic_first_page|].
  intros H. rewrite (nextButtonLogic_final_page s H).
  split; [reflexivity|].
  destruct (hasPage totalPages (historyStates s)).
  - repeat split. intros E. apply (f_equal traversals) in E. cbn in E.
    now apply app_singleton_neq in E.
  - repeat split. intros E. apply (f_equal historyStates) in E. cbn in E.
    now apply app_singleton_neq in E.
Qed.

Lemma C1_witness :
  pages (historyStates Scenario.submitted)
  = [Num 1; Num 2; Num 3; Num 4; Num 5; Num 6; Num 7; Num 8; Num 9]
  /\ bypassPopState Scenario.submitted = false
  /\ traversals Scenario.submitted = []
  /\ nextButtonLogic Scenario.submitted
     = historyForward (set_bypassPopState true Scenario.submitted)
  /\ bypassPopState (nextButtonLogic Scenario.submitted) = true
  /\ traversals (nextButtonLogic Scenario.submitted) = [1]
  /\ backButtonLogic (Client.firstLoad 1000) = Client.firstLoad 1000.
Proof.
  assert (Hlast : currentPage Scenario.submitted = totalPages)
    by (vm_compute; reflexivity).
  assert (Hfirst : currentPage (Client.firstLoad 1000) = Num 1)
    by (vm_compute; reflexivity).
  assert (Hin : hasPage totalPages (historyStates Scenario.submitted) = true)
    by (vm_compute; reflexivity).
  pose proof (proj1 (proj2 (C1_boundary_buttons Scenario.submitted) Hlast)) as E.
  rewrite Hin in E.
  split; [vm_compute; reflexivity|].
  split; [vm_compute; reflexivity|].
  split; [vm_compute; reflexivity|].
  split; [exact E|].
  split; [vm_compute; reflexivity|].
  split; [vm_compute; reflexivity|].
  exact (proj1 (C1_boundary_buttons (Client.firstLoad 1000)) Hfirst).
Defined.

(** ** The shadow stack *)

Lemma hasPage_false (z : Z) (hs : list HistoryEntry) :
  hasPage (Num z) hs = false -> Num z ∉ pages hs.
Proof.
  unfold hasPage, pages. induction hs as [|e hs IH]; simpl; intros H.
  - apply not_elem_of_nil.
  - apply orb_false_iff in H as [He Hhs]. apply not_elem_of_cons. split.
    + intros E. symmetry in E. apply strictEq_Num in E. congruence.
    + now apply IH.
Qed.

Lemma NoDup_pages_snoc (z : Z) (hs : list HistoryEntry) :
  NoDup (pages hs) -> hasPage (Num z) hs = false ->
  NoDup (pages (hs ++ [{| page := Num z |}])).
Proof.
  intros Hnd Hno. unfold pages. rewrite map_app. simpl.
  apply NoDup_app. split; [exact Hnd|]. split.
  - intros x Hx Hx'. apply list_elem_of_singleton in Hx'. subst x.
    now apply (hasPage_false z hs).
  - apply NoDup_singleton.
Qed.

Lemma distinct_NoDup (l : list JsNum) : NoDup l -> distinct l = length l.
Proof.
  induction 1 as [|x l Hx Hl IH]; simpl; [reflexivity|].
  destruct (decide (x ∈ l)); [contradiction|]. now rewrite IH.
Qed.

Lemma distinct_le (l : list JsNum) : (distinct l <= length l)%nat.
Proof. induction l as [|x l IH]; simpl; [lia|]. destruct (decide _); lia. Qed.

Lemma distinct_length_NoDup (l : list JsNum) : distinct l = length l -> NoDup l.
Proof.
  induction l as [|x l IH]; simpl; intros H; [constructor|].
  pose proof (distinct_le l). destruct (decide (x ∈ l)); [lia|].
  constructor; [assumption|]. apply IH. lia.
Qed.

(** [saveNavigationState] re-establishes the invariant whenever the globals
    satisfy their part of it. *)
Lemma consistent_saveNavigationState (s : State) :
  (exists z, currentPage s = Num z) ->
  NoDup (pages (historyStates s)) ->
  consistent (saveNavigationState s).
Proof. intros Hz Hnd. repeat split; assumption. Qed.

(** The invariant reads four things off a state. *)
Lemma consistent_same (s s' : State) :
  currentPage s' = currentPage s ->
  historyStates s' = historyStates s ->
  item_currentPage (sessionStorage s') = item_currentPage (sessionStorage s) ->
  item_historyStates (sessionStorage s') = item_historyStates (sessionStorage s) ->
  consistent s -> consistent s'.
Proof.
  intros E1 E2 E3 E4 (Hz & Hnd & Hp & Hh). unfold consistent.
  rewrite E1, E2, E3, E4. auto.
Qed.

Ltac same_core := apply consistent_same; reflexivity.

(** A move to the page [Num z] as the handlers make it. *)
Lemma consistent_move (z : Z) (p : JsNum) (s : State) :
  consistent s ->
  consistent
    (saveNavigationState
       (showPage (Num z) (set_currentPage (Num z) (saveScrollPositions p s)))).
Proof.
  intros (_ & Hnd & _). apply consistent_saveNavigationState.
  - exists z. now autorewrite with frame.
  - autorewrite with frame. cbn. now autorewrite with frame.
Qed.

(** The block that synchronises the browser history after a move: it
    appends the current page only when no entry has it. *)
Lemma consistent_sync (s : State) :
  consistent s ->
  consistent
    (if negb (hasPage (currentPage s) (historyStates s))
     then pushPageToHistory (currentPage s) s
     else historyForward (set_bypassPopState true s)).
Proof.
  intros Hs. destruct (hasPage _ _) eqn:Hhas; simpl.
  - revert Hs. same_core.
  - destruct Hs as ((z & Hz) & Hnd & _). rewrite Hz in *.
    apply consistent_saveNavigationState.
    + exists z. exact Hz.
    + cbn. now apply NoDup_pages_snoc.
Qed.

Lemma incr_Num (a : JsNum) : (exists z, a = Num z) -> exists z, incr a = Num z.
Proof. intros (z & ->). now exists (z + 1). Qed.

Lemma decr_Num (a : JsNum) : (exists z, a = Num z) -> exists z, decr a = Num z.
Proof. intros (z & ->). now exists (z - 1). Qed.

Lemma consistent_nextButtonLogic (s : State) :
  consistent s -> consistent (nextButtonLogic s).
Proof.
  intros Hs. unfold nextButtonLogic. cbv zeta.
  apply consistent_sync.
  destruct (lt (currentPage s) totalPages); [|exact Hs].
  rewrite currentPage_saveScrollPositions. cbn [currentPage set_currentPage].
  destruct (incr_Num (currentPage s) (proj1 Hs)) as (z & ->).
  now apply consistent_move.
Qed.

Lemma consistent_moveToFinalPage (s : State) :
  consistent s -> consistent (moveToFinalPage s).
Proof.
  intros Hs. unfold moveToFinalPage. cbv zeta.
  apply consistent_sync.
  destruct (lt (currentPage s) totalPages); [|exact Hs].
  cbn [currentPage set_currentPage]. now apply consistent_move.
Qed.

Lemma consistent_backButtonLogic (s : State) :
  consistent s -> consistent (backButtonLogic s).
Proof.
  intros Hs. unfold backButtonLogic. cbv zeta.
  destruct (_ && _); [|exact Hs].
  rewrite currentPage_saveScrollPositions. cbn [currentPage set_currentPage].
  destruct (decr_Num (currentPage s) (proj1 Hs)) as (z & ->).
  generalize (consistent_move z (currentPage s) s Hs). same_core.
Qed.

Lemma consistent_handlePopState (event : PopStateEvent) (s : State) :
  consistent s -> consistent (snd (handlePopState event s)).
Proof.
  intros Hs. unfold handlePopState.
  destruct (bypassPopState s).
  { revert Hs. same_core. }
  unfold handleNavigation. cbv zeta.
  destruct (if strictEq (currentPage s) (Num 1) then _ else _) as [[|]|];
    [| |exact Hs].
  { revert Hs. same_core. }
  destruct (strictEq (currentPage s) totalPages).
  { revert Hs. same_core. }
  destruct (state event) as [st|]; [|exact Hs]. cbn [snd].
  destruct (lt (page st) (currentPage s)).
  - cbn [currentPage set_currentPage].
    destruct (decr_Num (currentPage s) (proj1 Hs)) as (z & ->).
    now apply consistent_move.
  - cbn [currentPage set_currentPage].
    destruct (incr_Num (currentPage s) (proj1 Hs)) as (z & ->).
    now apply consistent_move.
Qed.

Lemma consistent_traverse (delta : Z) (s : State) :
  consistent s -> consistent (traverse delta s).
Proof.
  intros Hs. unfold traverse. destruct (_ && _); [|exact Hs]. cbv zeta.
  assert (Hc : consistent (set_cursor (Z.to_nat (Z.of_nat (cursor s) + delta)) s)).
  { revert Hs. same_core. }
  destruct (popstateListener _); [|exact Hc].
  now apply consistent_handlePopState.
Qed.

Lemma consistent_performRequested (s : State) :
  consistent s -> consistent (performRequested s).
Proof.
  intros Hs. unfold performRequested. destruct (traversals s) as [|d r]; [exact Hs|].
  apply consistent_traverse. revert Hs. same_core.
Qed.

Lemma consistent_clearState (s : State) : consistent s -> consistent (clearState s).
Proof. same_core. Qed.

Lemma consistent_submitSucceeded (s : State) :
  consistent s -> consistent (submitSucceeded s).
Proof.
  intros Hs. unfold submitSucceeded. cbv zeta.
  apply consistent_clearState, consistent_moveToFinalPage.
  revert Hs. same_core.
Qed.

Lemma consistent_beforeUnload (s : State) : consistent s -> consistent (beforeUnload s).
Proof.
  apply consistent_same; unfold beforeUnload; now autorewrite with frame.
Qed.

(** ** Restoring a session *)

(** What [restoreState] yields, field by field. *)
Lemma restoreState_fields (s : State) :
  currentPage (restoreState s)
  = match item_currentPage (sessionStorage s) with
    | Some savedPage => if nonEmpty savedPage then parseInt10 savedPage else currentPage s
    | None => currentPage s
    end
  /\ historyStates (restoreState s)
     = default (historyStates s) (item_historyStates (sessionStorage s))
  /\ scrollPositions (restoreState s)
     = default (scrollPositions s) (item_scrollPositions (sessionStorage s))
  /\ sessionStorage (restoreState s) = sessionStorage s
  /\ bypassPopState (restoreState s) = bypassPopState s.
Proof.
  destruct s as [cp hs sp bp co sq cc ap cv sh sy sH di st en cu tr pl].
  destruct st as [[p|] [l|] [m|] [[|]|] it]; unfold restoreState; cbn;
    try destruct (nonEmpty p); repeat split; reflexivity.
Qed.

Lemma consistent_initializeHistory (s : State) :
  (exists z, currentPage s = Num z) ->
  NoDup (pages (historyStates s)) ->
  consistent (initializeHistory (currentPage s) s).
Proof.
  intros (z & Hz) Hnd. unfold initializeHistory. cbv zeta.
  apply consistent_saveNavigationState.
  - exists z. destruct (negb _); exact Hz.
  - destruct (hasPage _ _) eqn:Hhas; cbn; [exact Hnd|].
    rewrite Hz in *. now apply NoDup_pages_snoc.
Qed.

(** Loading the page on a storage that is empty or was left by a consistent
    state yields a consistent state. *)
Lemma consistent_initializePage (s : State) :
  (exists z,
     match item_currentPage (sessionStorage s) with
     | Some savedPage => if nonEmpty savedPage then parseInt10 savedPage else currentPage s
     | None => currentPage s
     end = Num z) ->
  NoDup (pages (default (historyStates s) (item_historyStates (sessionStorage s)))) ->
  consistent (initializePage s).
Proof.
  intros Hz Hnd. unfold initializePage. cbv zeta.
  set (s1 := restoreState (referenceElements s)).
  destruct (restoreState_fields (referenceElements s)) as (Hp & Hh & _).
  fold s1 in Hp, Hh. cbn in Hp, Hh.
  assert (Hc : consistent (initializeHistory (currentPage s1) s1)).
  { apply consistent_initializeHistory; [rewrite Hp|rewrite Hh]; assumption. }
  revert Hc. apply consistent_same; cbn; now autorewrite with frame.
Qed.

Lemma consistent_reload (s : State) : consistent s -> consistent (reload s).
Proof.
  intros Hs. apply consistent_beforeUnload in Hs. unfold reload. cbv zeta.
  destruct Hs as ((z & Hz) & Hnd & Hp & Hh). apply consistent_initializePage; cbn.
  - exists z. rewrite Hp, Hz, nonEmpty_toString. apply parseInt10_toString.
  - rewrite Hh. exact Hnd.
Qed.

Lemma consistent_firstLoad (height : Z) : consistent (firstLoad height).
Proof.
  apply consistent_initializePage; cbn.
  - now exists 1.
  - constructor.
Qed.

Lemma consistent_step (s s' : State) : step s s' -> consistent s -> consistent s'.
Proof.
  destruct 1; intros Hs.
  - now apply consistent_nextButtonLogic.
  - now apply consistent_backButtonLogic.
  - revert Hs. same_core.
  - revert Hs. same_core.
  - now apply consistent_submitSucceeded.
  - revert Hs. same_core.
  - revert Hs. same_core.
  - now apply consistent_traverse.
  - now apply consistent_performRequested.
  - now apply consistent_reload.
Qed.

Lemma consistent_steps (s s' : State) : rtc step s s' -> consistent s -> consistent s'.
Proof. induction 1 as [|s1 s2 s3 Hstep _ IH]; eauto using consistent_step. Qed.

Lemma consistent_reachable (s : State) : reachable s -> consistent s.
Proof.
  intros (height & Hsteps).
  exact (consistent_steps _ _ Hsteps (consistent_firstLoad height)).
Qed.


(** ** The final page is final *)

Lemma currentPage_initializeHistory (p : JsNum) (s : State) :
  currentPage (initializeHistory p s) = currentPage s.
Proof. unfold initializeHistory. destruct (negb _); reflexivity. Qed.

Lemma currentPage_initializePage (s : State) :
  currentPage (initializePage s) = currentPage (restoreState (referenceElements s)).
Proof.
  unfold initializePage. cbv zeta. cbn.
  now rewrite currentPage_showPage, currentPage_initializeHistory.
Qed.


Lemma currentPage_reload (s : State) :
  consistent s -> currentPage (reload s) = currentPage s.
Proof.
  intros Hs. apply consistent_beforeUnload in Hs.
  destruct Hs as ((z & Hz) & _ & Hp & _).
  unfold reload. cbv zeta. rewrite currentPage_initializePage.
  match goal with
  | |- currentPage (restoreState ?x) = _ =>
      destruct (restoreState_fields x) as (E & _); rewrite E
  end.
  cbn. rewrite Hp, Hz, nonEmpty_toString, parseInt10_toString.
  unfold beforeUnload in Hz. now rewrite currentPage_saveScrollPositions in Hz.
Qed.





(** Which operations append to [historyStates], and when. *)
Lemma historyStates_sync (s : State) :
  historyStates
    (if negb (hasPage (currentPage s) (historyStates s))
     then pushPageToHistory (currentPage s) s
     else historyForward (set_bypassPopState true s))
  = if hasPage (currentPage s) (historyStates s) then historyStates s
    else (historyStates s ++ [{| page := currentPage s |}])%list.
Proof. destruct (hasPage _ _); reflexivity. Qed.

Lemma historyStates_nextButtonLogic (s : State) :
  exists p,
    historyStates (nextButtonLogic s)
    = if hasPage p (historyStates s) then historyStates s
      else (historyStates s ++ [{| page := p |}])%list.
Proof.
  unfold nextButtonLogic. cbv zeta.
  match goal with
  | |- context [negb (hasPage (currentPage ?x) (historyStates ?x))] => set (s1 := x)
  end.
  exists (currentPage s1). rewrite (historyStates_sync s1).
  assert (E : historyStates s1 = historyStates s).
  { subst s1. destruct (lt _ _); [|reflexivity]. frame. }
  now rewrite E.
Qed.

Lemma historyStates_moveToFinalPage (s : State) :
  exists p,
    historyStates (moveToFinalPage s)
    = if hasPage p (historyStates s) then historyStates s
      else (historyStates s ++ [{| page := p |}])%list.
Proof.
  unfold moveToFinalPage. cbv zeta.
  match goal with
  | |- context [negb (hasPage (currentPage ?x) (historyStates ?x))] => set (s1 := x)
  end.
  exists (currentPage s1). rewrite (historyStates_sync s1).
  assert (E : historyStates s1 = historyStates s).
  { subst s1. destruct (lt _ _); [|reflexivity]. frame. }
  now rewrite E.
Qed.

Lemma historyStates_initializeHistory (s : State) :
  historyStates (initializeHistory (currentPage s) s)
  = if hasPage (currentPage s) (historyStates s) then historyStates s
    else (historyStates s ++ [{| page := currentPage s |}])%list.
Proof. unfold initializeHistory. destruct (hasPage _ _); reflexivity. Qed.

Lemma historyStates_backButtonLogic (s : State) :
  historyStates (backButtonLogic s) = historyStates s.
Proof.
  unfold backButtonLogic. destruct (_ && _); [|reflexivity]. frame.
Qed.

Lemma historyStates_handlePopState (event : PopStateEvent) (s : State) :
  historyStates (snd (handlePopState event s)) = historyStates s.
Proof.
  unfold handlePopState. destruct (bypassPopState s); [reflexivity|].
  unfold handleNavigation. cbv zeta.
  destruct (if strictEq (currentPage s) (Num 1) then _ else _) as [[|]|];
    try reflexivity.
  destruct (strictEq (currentPage s) totalPages); [reflexivity|].
  destruct (state event) as [st|]; [|reflexivity].
  destruct (lt (page st) (currentPage s)); frame.
Qed.

Lemma historyStates_traverse (delta : Z) (s : State) :
  historyStates (traverse delta s) = historyStates s.
Proof.
  unfold traverse. destruct (_ && _); [|reflexivity]. cbv zeta.
  destruct (popstateListener _); [|reflexivity].
  now rewrite historyStates_handlePopState.
Qed.

(** C7: in every reachable state no page value occurs twice in
    [historyStates], that is, the number of distinct page values is the
    length of the stack.  [nextButtonLogic], [moveToFinalPage] and
    [initializeHistory] leave the stack as it is or append one entry whose
    page no entry has; the back button, the popstate handler, a traversal of
    the browser history and the consent box never change it. *)
Theorem C7_shadow_stack_has_no_duplicate_page (s : State) :
  (reachable s ->
   NoDup (pages (historyStates s))
   /\ distinct (pages (historyStates s)) = length (historyStates s))
  /\ (exists p,
        historyStates (nextButtonLogic s)
        = if hasPage p (historyStates s) then historyStates s
          else (historyStates s ++ [{| page := p |}])%list)
  /\ (exists p,
        historyStates (moveToFinalPage s)
        = if hasPage p (historyStates s) then historyStates s
          else (historyStates s ++ [{| page := p |}])%list)
  /\ historyStates (initializeHistory (currentPage s) s)
     = (if hasPage (currentPage s) (historyStates s) then historyStates s
        else (historyStates s ++ [{| page := currentPage s |}])%list)
  /\ historyStates (backButtonLogic s) = historyStates s
  /\ (forall event, historyStates (snd (handlePopState event s)) = historyStates s)
  /\ (forall delta, historyStates (traverse delta s) = historyStates s)
  /\ (forall checked, historyStates (consentCheckboxLogic checked s) = historyStates s).
Proof.
  split; [|split; [|split; [|split; [|split; [|split; [|split]]]]]].
  - intros Hs. destruct (consistent_reachable s Hs) as (_ & Hnd & _).
    split; [exact Hnd|]. rewrite (distinct_NoDup _ Hnd). apply length_map.
  - apply historyStates_nextButtonLogic.
  - apply historyStates_moveToFinalPage.
  - apply historyStates_initializeHistory.
  - apply historyStates_backButtonLogic.
  - intros event. apply historyStates_handlePopState.
  - intros delta. apply historyStates_traverse.
  - reflexivity.
Qed.

Lemma C7_witness :
  reachable (Scenario.advanced 2)
  /\ NoDup (pages (historyStates (Scenario.advanced 2))).
Proof.
  assert (Hr : reachable (Scenario.advanced 2)).
  { exists 1000.
    change (Scenario.advanced 2)
      with (nextButtonLogic (nextButtonLogic (consentCheckboxLogic true (firstLoad 1000)))).
    eapply rtc_l; [apply (step_consent true)|].
    eapply rtc_l; [apply step_next|].
    eapply rtc_l; [apply step_next|].
    apply rtc_refl. }
  split; [exact Hr|].
  exact (proj1 (proj1 (C7_shadow_stack_has_no_duplicate_page (Scenario.advanced 2)) Hr)).
Defined.

(** ** Submission with retries *)

Import Retry.

Lemma fetches_failures (data : SubmitData) (k : nat) : fetches (failures data k) = k.
Proof. induction k; simpl; congruence. Qed.

Lemma fetches_app (t u : list Effect) : fetches (t ++ u) = (fetches t + fetches u)%nat.
Proof. induction t as [|[b|ms] t IH]; simpl; congruence. Qed.

(** When every attempt that is left fails, the loop makes them all, waits
    500 ms after each, and throws the error of the last one. *)
Lemma submitLoop_exhausted (net : nat -> FetchResult) (data : SubmitData)
    (n i : nat) (lastError : option JsError) :
  (forall j, (i <= j < i + n)%nat -> errorOf (net j) <> None) ->
  submitLoop net data n i lastError
  = (Thrown (match n with O => lastError | S m => errorOf (net (i + m)%nat) end),
     failures data n).
Proof.
  revert i lastError. induction n as [|n IH]; intros i lastError Hfail; [reflexivity|].
  assert (Hi : errorOf (net i) <> None) by (apply Hfail; lia).
  assert (Hrest : forall j, (S i <= j < S i + n)%nat -> errorOf (net j) <> None)
    by (intros j Hj; apply Hfail; lia).
  simpl. destruct (net i) as [reason|status] eqn:E.
  - rewrite (IH (S i) _ Hrest). simpl. f_equal. f_equal.
    destruct n as [|m]; [now rewrite Nat.add_0_r, E|].
    now replace (i + S m)%nat with (S i + m)%nat by lia.
  - unfold errorOf in Hi. destruct (ok status) eqn:Hok; [congruence|].
    rewrite (IH (S i) _ Hrest). simpl. f_equal. f_equal.
    destruct n as [|m]; [now rewrite Nat.add_0_r, E; simpl; rewrite Hok|].
    now replace (i + S m)%nat with (S i + m)%nat by lia.
Qed.

(** When attempt [i + k] is the first to succeed and is within the budget,
    the loop makes [k] failed attempts, each followed by a wait of 500 ms,
    then the successful one, and returns its response. *)
Lemma submitLoop_first_success (net : nat -> FetchResult) (data : SubmitData)
    (n i k : nat) (status : Z) (lastError : option JsError) :
  (k < n)%nat ->
  (forall j, (i <= j < i + k)%nat -> errorOf (net j) <> None) ->
  net (i + k)%nat = Responded status ->
  ok status = true ->
  submitLoop net data n i lastError
  = (Resolved status, (failures data k ++ [Fetch data])%list).
Proof.
  revert n i lastError. induction k as [|k IH]; intros n i lastError Hk Hfail Hnet Hok.
  - destruct n; [lia|]. simpl. rewrite Nat.add_0_r in Hnet. now rewrite Hnet, Hok.
  - destruct n; [lia|].
    assert (Hi : errorOf (net i) <> None) by (apply Hfail; lia).
    assert (Hrest : forall j, (S i <= j < S i + k)%nat -> errorOf (net j) <> None)
      by (intros j Hj; apply Hfail; lia).
    assert (Hnet' : net (S i + k)%nat = Responded status)
      by (rewrite <- Hnet; f_equal; lia).
    simpl. unfold errorOf in Hi.
    destruct (net i) as [reason|st].
    + rewrite (IH n (S i) _ ltac:(lia) Hrest Hnet' Hok). reflexivity.
    + destruct (ok st); [congruence|].
      rewrite (IH n (S i) _ ltac:(lia) Hrest Hnet' Hok). reflexivity.
Qed.

(** The loop never makes more attempts than it has iterations. *)
Lemma submitLoop_fetches (net : nat -> FetchResult) (data : SubmitData)
    (n i : nat) (lastError : option JsError) :
  (fetches (snd (submitLoop net data n i lastError)) <= n)%nat.
Proof.
  revert i lastError. induction n as [|n IH]; intros i lastError; simpl; [lia|].
  destruct (net i) as [reason|status].
  - specialize (IH (S i) (Some (FetchError reason))).
    destruct (submitLoop _ _ _ _ _); simpl in *. lia.
  - destruct (ok status); simpl; [lia|].
    specialize (IH (S i) (Some (ServerReturned status))).
    destruct (submitLoop _ _ _ _ _); simpl in *. lia.
Qed.

(** C8: [submitData(data, retries)], with [retries] defaulting to 4, makes
    at most [retries] [fetch] calls; it returns the response of the first
    attempt that succeeds, after one wait of 500 ms for every failed attempt
    before it; when all attempts fail it throws the error of the last one,
    having waited 500 ms after each.  When the four attempts of
    [submitButtonLogic] fail, the error notification is shown, and
    [currentPage], [historyStates], the active page and the session storage
    are as before: neither [moveToFinalPage] nor [clearState] has run. *)
Theorem C8_submit_retries_then_surfaces_failure
    (net : nat -> FetchResult) (data : SubmitData) (retries : option Z) (s : State) :
  let n := Z.to_nat (default 4 retries) in
  submitData net data None = submitData net data (Some 4)
  /\ (fetches (snd (submitData net data retries)) <= n)%nat
  /\ (forall k status,
        (k < n)%nat ->
        (forall j, (j < k)%nat -> errorOf (net j) <> None) ->
        net k = Responded status -> ok status = true ->
        submitData net data retries
        = (Resolved status, (failures data k ++ [Fetch data])%list))
  /\ ((forall j, (j < n)%nat -> errorOf (net j) <> None) ->
      submitData net data retries
      = (Thrown (match n with O => None | S m => errorOf (net m) end),
         failures data n))
  /\ ((forall j, (j < 4)%nat -> errorOf (net j) <> None) ->
      let s' := fst (submitButtonLogic net s) in
      snd (submitButtonLogic net s) = failures (collectData s) 4
      /\ "submit-error-message" ∈ shown s'
      /\ ("submit-data-notification" ∉ shown s')
      /\ currentPage s' = currentPage s
      /\ historyStates s' = historyStates s
      /\ activePage s' = activePage s
      /\ sessionStorage s' = sessionStorage s
      /\ nav s' = nav s).
Proof.
  intros n. split; [reflexivity|]. split; [apply submitLoop_fetches|].
  split; [|split].
  - intros k status Hk Hfail Hnet Hok. unfold submitData. fold n.
    apply submitLoop_first_success with (k := k); try assumption.
    intros j Hj. apply Hfail. lia.
  - intros Hfail. unfold submitData. fold n.
    rewrite submitLoop_exhausted by (intros j Hj; apply Hfail; lia).
    reflexivity.
  - intros Hfail s'. subst s'. unfold submitButtonLogic, submitStarted, submitFailed.
    cbv zeta. unfold submitData. change (Z.to_nat (default 4 (Some 4))) with 4%nat.
    rewrite submitLoop_exhausted by (intros j Hj; apply Hfail; lia).
    cbn [fst snd]. split; [reflexivity|].
    split; [|split; [|repeat split]].
    + cbn. apply elem_of_union. left. now apply elem_of_singleton.
    + cbn. intros [H|H]%elem_of_union.
      * apply elem_of_singleton in H. discriminate.
      * apply elem_of_difference in H as [_ H]. apply H. now apply elem_of_singleton.
Qed.

Lemma C8_witness :
  submitData unavailable (collectData (Scenario.advanced 7)) None
  = (Thrown (Some (ServerReturned 503)),
     failures (collectData (Scenario.advanced 7)) 4)
  /\ currentPage (fst (submitButtonLogic unavailable (Scenario.advanced 7)))
     = currentPage (Scenario.advanced 7)
  /\ submitData flaky (collectData (Scenario.advanced 7)) (Some 4)
     = (Resolved 200,
        (failures (collectData (Scenario.advanced 7)) 2
           ++ [Fetch (collectData (Scenario.advanced 7))])%list).
Proof.
  assert (Hdown : forall j, (j < 4)%nat -> errorOf (unavailable j) <> None)
    by (intros j _; discriminate).
  assert (Hflaky : forall j, (j < 2)%nat -> errorOf (flaky j) <> None).
  { intros j Hj. unfold flaky. apply Nat.ltb_lt in Hj. rewrite Hj. discriminate. }
  destruct (C8_submit_retries_then_surfaces_failure unavailable
              (collectData (Scenario.advanced 7)) None (Scenario.advanced 7))
    as (_ & _ & _ & Hthrown & Hbutton).
  destruct (C8_submit_retries_then_surfaces_failure flaky
              (collectData (Scenario.advanced 7)) (Some 4) (Scenario.advanced 7))
    as (_ & _ & Hfirst & _).
  split; [exact (Hthrown Hdown)|]. split.
  - exact (proj1 (proj2 (proj2 (proj2 (Hbutton Hdown))))).
  - apply (Hfirst 2%nat 200); [simpl; lia|exact Hflaky|reflexivity|reflexivity].
Defined.

(** ** Restoring the saved state *)





(** * The server *)

Import Server.

(** ** The relay's table of processed messages *)

Lemma sendmessage_hit (req : SendRequest) (e : DedupEntry) (directLine : PostResult)
    (now : Z) (r : Relay) :
  processedMessages r !! messageKey req = Some e ->
  sendmessage req directLine now r = (Duplicate (id e), r).
Proof. intros H. unfold sendmessage. now rewrite H. Qed.

Lemma sendmessage_miss (req : SendRequest) (directLine : PostResult) (now : Z)
    (r : Relay) :
  processedMessages r !! messageKey req = None ->
  sendmessage req directLine now r
  = match directLine with
    | Posted dataId =>
        (Data dataId,
         {| processedMessages :=
              <[messageKey req := {| timestamp := now; id := dataId |}]>
                (processedMessages r);
            outbound := (outbound r ++ [activityOf req])%list |})
    | PostFailed details =>
        (Error500 details,
         {| processedMessages := processedMessages r;
            outbound := (outbound r ++ [activityOf req])%list |})
    end.
Proof. intros H. unfold sendmessage. now rewrite H. Qed.

(** A request never removes or overwrites an entry. *)
Lemma sendmessage_keeps (k : string) (e : DedupEntry) (req : SendRequest)
    (directLine : PostResult) (now : Z) (r : Relay) :
  processedMessages r !! k = Some e ->
  processedMessages (snd (sendmessage req directLine now r)) !! k = Some e.
Proof.
  intros Hk. unfold sendmessage.
  destruct (processedMessages r !! messageKey req) eqn:Hreq; [exact Hk|].
  destruct directLine; cbn; [|exact Hk].
  rewrite lookup_insert_ne; [exact Hk|]. congruence.
Qed.

(** A sweep keeps the entries that are at most one hour old. *)
Lemma sweep_keeps (k : string) (e : DedupEntry) (now : Z) (r : Relay) :
  processedMessages r !! k = Some e ->
  now - timestamp e <= oneHour ->
  processedMessages (sweep now r) !! k = Some e.
Proof.
  intros Hk Hage. unfold sweep. cbn.
  apply map_lookup_filter_Some. split; [exact Hk|]. cbn. lia.
Qed.

(** A sweep removes the entries that are older than one hour. *)
Lemma sweep_drops (k : string) (e : DedupEntry) (now : Z) (r : Relay) :
  processedMessages r !! k = Some e ->
  now - timestamp e > oneHour ->
  processedMessages (sweep now r) !! k = None.
Proof.
  intros Hk Hage. unfold sweep. cbn.
  apply map_lookup_filter_None. right. intros e' He'. cbn.
  rewrite Hk in He'. injection He' as <-. tauto.
Qed.

Lemma run_keeps (k : string) (e : DedupEntry) (es : list Event) (r : Relay) :
  processedMessages r !! k = Some e ->
  Forall (keeps (timestamp e)) es ->
  processedMessages (run es r) !! k = Some e.
Proof.
  intros Hk Hes. revert r Hk. unfold run.
  induction Hes as [|ev es Hev _ IH]; intros r Hk; [exact Hk|].
  simpl. apply IH. destruct ev as [req directLine now|now]; simpl.
  - now apply sendmessage_keeps.
  - now apply sweep_keeps.
Qed.

(** C2, as the code has it: a request whose key has an entry is answered
    with the stored id and makes no call to the Direct Line API, and leaves
    the relay as it is.  A successful send on a key without an entry records
    the returned id; from then on, as long as no sweep finds the entry older
    than one hour, every request with the same key, whatever happens in
    between, gets that id back without a call: two sends in a row give the
    same id and one call.  A sweep that finds an entry older than one hour
    removes it.  A failed send records nothing, so the next request with the
    same key calls the Direct Line API again. *)
Theorem C2_retained_entry_makes_send_idempotent
    (r : Relay) (req again : SendRequest) :
  messageKey again = messageKey req ->
  (forall e directLine now,
      processedMessages r !! messageKey req = Some e ->
      sendmessage again directLine now r = (Duplicate (id e), r))
  /\ (forall dataId now,
        processedMessages r !! messageKey req = None ->
        let r1 := snd (sendmessage req (Posted dataId) now r) in
        fst (sendmessage req (Posted dataId) now r) = Data dataId
        /\ outbound r1 = (outbound r ++ [activityOf req])%list
        /\ (forall directLine now',
              sendmessage again directLine now' r1 = (Duplicate dataId, r1))
        /\ (forall es directLine now',
              Forall (keeps now) es ->
              sendmessage again directLine now' (run es r1)
              = (Duplicate dataId, run es r1)))
  /\ (forall e now,
        processedMessages r !! messageKey req = Some e ->
        now - timestamp e > oneHour ->
        processedMessages (sweep now r) !! messageKey req = None)
  /\ (forall details now,
        processedMessages r !! messageKey req = None ->
        let r1 := snd (sendmessage req (PostFailed details) now r) in
        fst (sendmessage req (PostFailed details) now r) = Error500 details
        /\ processedMessages r1 = processedMessages r
        /\ (forall directLine now',
              outbound (snd (sendmessage again directLine now' r1))
              = (outbound r1 ++ [activityOf again])%list)).
Proof.
  intros Hkey. split; [|split; [|split]].
  - intros e directLine now He. apply sendmessage_hit. now rewrite Hkey.
  - intros dataId now Hnone r1. subst r1.
    rewrite (sendmessage_miss req (Posted dataId) now r Hnone). cbn [fst snd].
    set (r1 := {| processedMessages := _; outbound := _ |}).
    assert (Hr1 : processedMessages r1 !! messageKey again
                  = Some {| timestamp := now; id := dataId |}).
    { rewrite Hkey. subst r1. cbn. apply lookup_insert_eq. }
    split; [reflexivity|]. split; [reflexivity|]. split.
    + intros directLine now'. exact (sendmessage_hit again _ directLine now' r1 Hr1).
    + intros es directLine now' Hes.
      apply (sendmessage_hit again {| timestamp := now; id := dataId |}).
      now apply run_keeps.
  - intros e now He Hage. now apply (sweep_drops _ e).
  - intros details now Hnone r1. subst r1.
    rewrite (sendmessage_miss req (PostFailed details) now r Hnone). cbn [fst snd].
    split; [reflexivity|]. split; [reflexivity|].
    intros directLine now'. rewrite sendmessage_miss by (cbn; now rewrite Hkey).
    destruct directLine; reflexivity.
Qed.

Lemma C2_witness :
  sendmessage Example.hi (Posted "B") 20
    (run [Sweep 3600005]
       (snd (sendmessage Example.hi (Posted "A") 10 start)))
  = (Duplicate "A",
     run [Sweep 3600005] (snd (sendmessage Example.hi (Posted "A") 10 start))).
Proof.
  destruct (C2_retained_entry_makes_send_idempotent start Example.hi Example.hi eq_refl)
    as (_ & Hsent & _).
  destruct (Hsent "A" 10 eq_refl) as (_ & _ & _ & Hlater).
  apply Hlater. repeat constructor. vm_compute. discriminate.
Defined.

(** C2 as stated fails: after the sweep has found the entry older than one
    hour, a request with the same key is posted to the Direct Line API again
    and is answered with the new id. *)
Lemma C2_counterexample :
  let r1 := snd (sendmessage Example.hi (Posted "A") 0 start) in
  let r2 := sweep 7200000 r1 in
  fst (sendmessage Example.hi (Posted "A") 0 start) = Data "A"
  /\ processedMessages r1 !! messageKey Example.hi
     = Some {| timestamp := 0; id := "A" |}
  /\ fst (sendmessage Example.hi (Posted "B") 7200001 r2) = Data "B"
  /\ outbound (snd (sendmessage Example.hi (Posted "B") 7200001 r2))
     = [activityOf Example.hi; activityOf Example.hi].
Proof. vm_compute. repeat split; reflexivity. Qed.

(** ** POST /submit *)

Lemma submit_falsy (body : SubmitBody) (queryOk : bool) (db : list Row) :
  truthy (participantId body) = false
  \/ truthy (treatmentGroup body) = false
  \/ truthy (conversationLog body) = false ->
  submit body queryOk db = (400, db).
Proof.
  intros H. unfold submit.
  destruct (truthy (participantId body)), (truthy (treatmentGroup body)),
    (truthy (conversationLog body)); try reflexivity.
  destruct H as [H|[H|H]]; discriminate.
Qed.

(** C10: a POST /submit whose [treatmentGroup] is the number 0, a value
    [assignGroup] issues, is answered with status 400 and nothing is
    inserted; so is one whose [conversationLog] is the empty string, and any
    one in which one of the three named fields is falsy. *)
Theorem C10_submit_rejects_group_zero
    (body : SubmitBody) (queryOk : bool) (db : list Row) :
  (treatmentGroup body = JNumber (Num 0) -> submit body queryOk db = (400, db))
  /\ (conversationLog body = JString "" -> submit body queryOk db = (400, db))
  /\ (truthy (participantId body) = false
      \/ truthy (treatmentGroup body) = false
      \/ truthy (conversationLog body) = false ->
      submit body queryOk db = (400, db))
  /\ JNumber (Num (assignGroup true)) = JNumber (Num 0).
Proof.
  split; [|split; [|split]].
  - intros H. apply submit_falsy. right. left. now rewrite H.
  - intros H. apply submit_falsy. right. right. now rewrite H.
  - apply submit_falsy.
  - reflexivity.
Qed.

Lemma C10_witness :
  submit Example.groupZero true [] = (400, [])
  /\ submit Example.emptyLog true [] = (400, []).
Proof.
  split.
  - exact (proj1 (C10_submit_rejects_group_zero Example.groupZero true []) eq_refl).
  - exact (proj1 (proj2 (C10_submit_rejects_group_zero Example.emptyLog true []))
             eq_refl).
Defined.

(** * More about the client *)

Import Session.

(** ** How the handlers are built *)

Lemma nextButtonLogic_eq (s : State) :
  nextButtonLogic s
  = synchronise (if lt (currentPage s) totalPages
                 then move (incr (currentPage s)) s else s).
Proof.
  unfold nextButtonLogic, synchronise, move. cbv zeta.
  destruct (lt (currentPage s) totalPages); [|reflexivity].
  now rewrite !currentPage_saveScrollPositions.
Qed.

Lemma moveToFinalPage_eq (s : State) :
  moveToFinalPage s
  = synchronise (if lt (currentPage s) totalPages then move totalPages s else s).
Proof.
  unfold moveToFinalPage, synchronise, move. cbv zeta.
  destruct (lt (currentPage s) totalPages); reflexivity.
Qed.

Lemma backButtonLogic_eq (s : State) :
  backButtonLogic s
  = if gt (currentPage s) (Num 1) && lt (currentPage s) totalPages
    then historyBack (set_bypassPopState true (move (decr (currentPage s)) s))
    else s.
Proof.
  unfold backButtonLogic, move. cbv zeta.
  destruct (_ && _); [|reflexivity].
  now rewrite !currentPage_saveScrollPositions.
Qed.

(** The navigation cases of the popstate handler, in terms of [move]. *)
Lemma handleNavigation_eq (event : PopStateEvent) (s : State) :
  handleNavigation event s
  = match (if strictEq (currentPage s) (Num 1) then
             match state event with
             | Some st => Some (strictEq (page st) (Num 2) && negb (consentChecked s))
             | None => None
             end
           else Some false) with
    | None => (TypeError, s)
    | Some true => (Returned, historyBack (set_bypassPopState true s))
    | Some false =>
        if strictEq (currentPage s) totalPages
        then (Returned, historyBack (set_popstateListener false s))
        else match state event with
             | None => (TypeError, s)
             | Some st =>
                 (Returned,
                  move (if lt (page st) (currentPage s) then decr (currentPage s)
                        else incr (currentPage s)) s)
             end
    end.
Proof.
  unfold handleNavigation, move. cbv zeta.
  destruct (if strictEq (currentPage s) (Num 1) then _ else _) as [[|]|]; try reflexivity.
  destruct (strictEq (currentPage s) totalPages); [reflexivity|].
  destruct (state event) as [st|]; [|reflexivity].
  destruct (lt (page st) (currentPage s));
    now rewrite ?currentPage_saveScrollPositions.
Qed.

Lemma nav_saveNavigationState (a b : State) :
  nav a = nav b -> nav (saveNavigationState a) = nav (saveNavigationState b).
Proof.
  intros E. injection E as E1 E2 E3 E4 E5 E6 E7 E8 E9 E10 E11 E12 E13.
  unfold nav, saveNavigationState. cbn. congruence.
Qed.

(** For navigation, [move] is: save the scroll offset, set [currentPage],
    save the navigation state. *)
Lemma nav_move (target : JsNum) (s : State) :
  nav (move target s)
  = nav (saveNavigationState (set_currentPage target (saveScrollPositions (currentPage s) s))).
Proof. unfold move. apply nav_saveNavigationState, nav_showPage. Qed.

(** ** Pages stay in range *)

Lemma inRange_spec (p : JsNum) :
  inRange p = true <-> exists c, p = Num c /\ 1 <= c <= 9.
Proof.
  unfold inRange. destruct p as [c|]; cbn.
  - rewrite andb_true_iff, !Z.leb_le. split.
    + intros H. exists c. split; [reflexivity|lia].
    + intros (c' & E & H). injection E as <-. lia.
  - split; [discriminate|]. intros (c & E & _). discriminate.
Qed.

Lemma inRange_incr (p : JsNum) :
  inRange p = true -> strictEq p totalPages = false -> inRange (incr p) = true.
Proof.
  intros (c & -> & H)%inRange_spec Hne. cbn in Hne. apply Z.eqb_neq in Hne.
  apply inRange_spec. exists (c + 1). split; [reflexivity|lia].
Qed.

Lemma inRange_incr_lt (p : JsNum) :
  inRange p = true -> lt p totalPages = true -> inRange (incr p) = true.
Proof.
  intros (c & -> & H)%inRange_spec Hlt. cbn in Hlt. apply Z.ltb_lt in Hlt.
  apply inRange_spec. exists (c + 1). split; [reflexivity|lia].
Qed.

Lemma inRange_decr (p q : JsNum) :
  inRange p = true -> inRange q = true -> lt q p = true -> inRange (decr p) = true.
Proof.
  intros (c & -> & H)%inRange_spec (d & -> & Hd)%inRange_spec Hlt.
  cbn in Hlt. apply Z.ltb_lt in Hlt.
  apply inRange_spec. exists (c - 1). split; [reflexivity|lia].
Qed.

Lemma bounded_move (target : JsNum) (s : State) :
  inRange target = true -> bounded (nav s) -> bounded (nav (move target s)).
Proof.
  intros Ht (_ & Hh & He & Hc). rewrite nav_move. unfold bounded. cbn.
  autorewrite with frame. auto.
Qed.

Lemma bounded_synchronise (s : State) :
  bounded (nav s) -> bounded (nav (synchronise s)).
Proof.
  intros (Hp & Hh & He & Hc). unfold synchronise.
  destruct (hasPage _ _); cbn; [repeat split; assumption|].
  cbn in Hp, Hh, He, Hc. repeat split; cbn.
  - exact Hp.
  - apply Forall_app. split; [exact Hh|]. now repeat constructor.
  - apply Forall_app. split; [now apply Forall_take|]. now repeat constructor.
  - rewrite length_app, length_take. change (length [_]) with 1%nat. lia.
Qed.

(** Changes that navigation does not see, or that touch only the flag, the
    listener and the queue of traversals. *)
Lemma bounded_same (s s' : State) :
  currentPage s' = currentPage s ->
  historyStates s' = historyStates s ->
  entries s' = entries s ->
  cursor s' = cursor s ->
  bounded (nav s) -> bounded (nav s').
Proof. unfold bounded. cbn. intros -> -> -> ->. auto. Qed.

Ltac same_bounds := apply bounded_same; reflexivity.

Lemma bounded_nextButtonLogic (s : State) :
  bounded (nav s) -> bounded (nav (nextButtonLogic s)).
Proof.
  intros Hs. rewrite nextButtonLogic_eq. apply bounded_synchronise.
  destruct (lt (currentPage s) totalPages) eqn:Hlt; [|exact Hs].
  apply bounded_move; [|exact Hs]. apply inRange_incr_lt; [apply Hs|exact Hlt].
Qed.

Lemma bounded_moveToFinalPage (s : State) :
  bounded (nav s) -> bounded (nav (moveToFinalPage s)).
Proof.
  intros Hs. rewrite moveToFinalPage_eq. apply bounded_synchronise.
  destruct (lt (currentPage s) totalPages); [|exact Hs].
  now apply bounded_move.
Qed.

Lemma bounded_backButtonLogic (s : State) :
  bounded (nav s) -> bounded (nav (backButtonLogic s)).
Proof.
  intros Hs. rewrite backButtonLogic_eq.
  destruct (gt (currentPage s) (Num 1)) eqn:Hgt; [|exact Hs].
  destruct (lt (currentPage s) totalPages); [|exact Hs]. cbn [andb].
  assert (Hm : bounded (nav (move (decr (currentPage s)) s))).
  { apply bounded_move; [|exact Hs].
    apply (inRange_decr _ (Num 1)); [apply Hs|reflexivity|exact Hgt]. }
  revert Hm. same_bounds.
Qed.

(** The handler keeps the bounds when the event carries a page in range, as
    the events of the browser history do. *)
Lemma bounded_handlePopState (event : PopStateEvent) (s : State) :
  match state event with Some st => inRange (page st) = true | None => True end ->
  bounded (nav s) -> bounded (nav (snd (handlePopState event s))).
Proof.
  intros Hev Hs. unfold handlePopState.
  destruct (bypassPopState s); [revert Hs; same_bounds|].
  rewrite handleNavigation_eq.
  destruct (if strictEq (currentPage s) (Num 1) then _ else _) as [[|]|];
    [revert Hs; same_bounds| |exact Hs].
  destruct (strictEq (currentPage s) totalPages) eqn:Hlast; [revert Hs; same_bounds|].
  destruct (state event) as [st|]; [|exact Hs]. cbn [snd].
  apply bounded_move; [|exact Hs].
  destruct (lt (page st) (currentPage s)) eqn:Hlt.
  - apply (inRange_decr _ (page st)); [apply Hs|exact Hev|exact Hlt].
  - apply inRange_incr; [apply Hs|exact Hlast].
Qed.

Lemma bounded_traverse (delta : Z) (s : State) :
  bounded (nav s) -> bounded (nav (traverse delta s)).
Proof.
  intros Hs. unfold traverse.
  destruct (_ && _) eqn:Hin; [|exact Hs]. cbv zeta.
  apply andb_true_iff in Hin as [Hin Hlt]. apply andb_true_iff in Hin as [_ Hge].
  apply Z.leb_le in Hge. apply Z.ltb_lt in Hlt.
  set (target := Z.to_nat (Z.of_nat (cursor s) + delta)).
  assert (Htarget : (target < length (entries s))%nat) by (subst target; lia).
  assert (Hc : bounded (nav (set_cursor target s))).
  { destruct Hs as (Hp & Hh & He & _). repeat split; assumption. }
  destruct (popstateListener _); [|exact Hc].
  apply bounded_handlePopState; [|exact Hc]. cbn.
  destruct Hs as (_ & _ & He & _). cbn in He.
  destruct (entries s !! target) as [o|] eqn:Ho; [|exact I].
  rewrite Forall_forall in He. specialize (He o (list_elem_of_lookup_2 _ _ _ Ho)).
  destruct o as [st|]; [exact He|exact I].
Qed.

Lemma bounded_performRequested (s : State) :
  bounded (nav s) -> bounded (nav (performRequested s)).
Proof.
  intros Hs. unfold performRequested. destruct (traversals s); [exact Hs|].
  apply bounded_traverse. revert Hs. same_bounds.
Qed.

(** [initializeHistory] overwrites the state object of the current entry,
    so that entry need not carry one before. *)
Lemma bounded_initializeHistory (s : State) :
  inRange (currentPage s) = true ->
  Forall (fun e => inRange (page e) = true) (historyStates s) ->
  Forall (fun o => entryInRange o = true)
    (<[cursor s := Some {| page := currentPage s |}]> (entries s)) ->
  (cursor s < length (entries s))%nat ->
  bounded (nav (initializeHistory (currentPage s) s)).
Proof.
  intros Hp Hh He Hc.
  unfold initializeHistory. cbv zeta. unfold bounded. cbn.
  destruct (negb _); cbn; repeat split; try assumption.
  - apply Forall_app. split; [exact Hh|]. now repeat constructor.
  - now rewrite length_insert.
  - now rewrite length_insert.
Qed.

Lemma restoreState_browser (s : State) :
  entries (restoreState s) = entries s
  /\ cursor (restoreState s) = cursor s
  /\ traversals (restoreState s) = traversals s
  /\ popstateListener (restoreState s) = popstateListener s
  /\ consentChecked (restoreState s)
     = match item_formConsent (sessionStorage s) with
       | Some true => true
       | _ => consentChecked s
       end.
Proof.
  destruct s as [cp hs sp bp co sq cc ap cv sh sy sH di st en cu tr pl].
  destruct st as [[p|] [l|] [m|] [[|]|] it]; unfold restoreState; cbn;
    try destruct (nonEmpty p); repeat split; reflexivity.
Qed.

Lemma bounded_initializePage (s : State) (p : JsNum) (hs : list HistoryEntry) :
  currentPage (restoreState (referenceElements s)) = p ->
  historyStates (restoreState (referenceElements s)) = hs ->
  inRange p = true ->
  Forall (fun e => inRange (page e) = true) hs ->
  Forall (fun o => entryInRange o = true)
    (<[cursor s := Some {| page := p |}]> (entries s)) ->
  (cursor s < length (entries s))%nat ->
  bounded (nav (initializePage s)).
Proof.
  intros Ep Eh Hp Hh He Hc.
  set (s0 := restoreState (referenceElements s)) in *.
  destruct (restoreState_browser (referenceElements s)) as (Ee & Ec & _).
  fold s0 in Ee, Ec. cbn in Ee, Ec.
  assert (Hr : bounded (nav (initializeHistory (currentPage s0) s0))).
  { apply bounded_initializeHistory; rewrite ?Ee, ?Ec, ?Ep, ?Eh; assumption. }
  revert Hr. unfold initializePage. cbv zeta. fold s0.
  apply bounded_same; cbn; now autorewrite with frame.
Qed.

Lemma bounded_reload (s : State) :
  consistent s -> bounded (nav s) -> bounded (nav (reload s)).
Proof.
  intros Hs Hb.
  assert (Hp : currentPage (reload s) = currentPage s) by now apply currentPage_reload.
  apply consistent_beforeUnload in Hs. destruct Hs as (_ & _ & _ & Hh).
  unfold reload in *. cbv zeta in *.
  set (s1 := loadScript _ _ _ _) in *.
  rewrite currentPage_initializePage in Hp.
  destruct (restoreState_fields (referenceElements s1)) as (_ & Eh & _).
  assert (Eh' : historyStates (restoreState (referenceElements s1)) = historyStates s).
  { rewrite Eh. subst s1. cbn. rewrite Hh. cbn.
    unfold beforeUnload. now autorewrite with frame. }
  destruct Hb as (Hbp & Hbh & Hbe & Hbc). cbn in Hbp, Hbh, Hbe, Hbc.
  apply (bounded_initializePage s1 (currentPage s) (historyStates s) Hp Eh' Hbp Hbh).
  - subst s1. cbn. unfold beforeUnload. autorewrite with frame.
    now apply Forall_insert.
  - subst s1. cbn. unfold beforeUnload. now autorewrite with frame.
Qed.

Lemma bounded_firstLoad (height : Z) : bounded (nav (firstLoad height)).
Proof.
  apply (bounded_initializePage _ (Num 1) []); try reflexivity; repeat constructor.
Qed.

(** The invariant of sessions used below: the one of the shadow stack
    together with the bounds. *)
Lemma bounded_step (s s' : State) :
  step s s' -> consistent s -> bounded (nav s) -> bounded (nav s').
Proof.
  destruct 1; intros Hs Hb.
  - now apply bounded_nextButtonLogic.
  - now apply bounded_backButtonLogic.
  - revert Hb. same_bounds.
  - revert Hb. same_bounds.
  - unfold submitSucceeded. cbv zeta.
    generalize (bounded_moveToFinalPage
                  (toggleNotification false "submit-data-notification" s) Hb).
    same_bounds.
  - revert Hb. same_bounds.
  - revert Hb. same_bounds.
  - now apply bounded_traverse.
  - now apply bounded_performRequested.
  - now apply bounded_reload.
Qed.

Lemma bounded_steps (s s' : State) :
  rtc step s s' ->
  consistent s /\ bounded (nav s) -> consistent s' /\ bounded (nav s').
Proof.
  induction 1 as [|s1 s2 s3 Hstep _ IH]; [auto|].
  intros (Hc & Hb). apply IH. split.
  - exact (consistent_step _ _ Hstep Hc).
  - exact (bounded_step _ _ Hstep Hc Hb).
Qed.

Lemma bounded_reachable (s : State) : reachable s -> bounded (nav s).
Proof.
  intros (height & Hsteps). apply (bounded_steps _ _ Hsteps). split.
  - apply consistent_firstLoad.
  - apply bounded_firstLoad.
Qed.

(** Pressing the next button on a state of a session gives a state of a
    session, and so on. *)
Lemma reachable_step (s s' : State) : reachable s -> step s s' -> reachable s'.
Proof.
  intros (height & Hsteps) Hstep. exists height.
  eapply rtc_r; [exact Hsteps|exact Hstep].
Qed.

Lemma reachable_firstLoad (height : Z) : reachable (firstLoad height).
Proof. exists height. apply rtc_refl. Qed.

Lemma reachable_advanced (n : nat) : reachable (Scenario.advanced n).
Proof.
  induction n as [|n IH].
  - apply (reachable_step (firstLoad 1000)); [apply reachable_firstLoad|].
    apply (step_consent true).
  - apply (reachable_step (Scenario.advanced n)); [exact IH|]. apply step_next.
Qed.

(** X1: in every reachable state [currentPage] is an integer between 1 and
    [totalPages], and so is every page in [historyStates] and in the state
    object of every browser history entry; every entry carries a state
    object, and the cursor points at an entry. *)
Theorem X1_pages_stay_in_range (s : State) :
  reachable s ->
  (exists c, currentPage s = Num c /\ 1 <= c <= 9)
  /\ (forall e, e ∈ historyStates s -> exists c, page e = Num c /\ 1 <= c <= 9)
  /\ (forall o, o ∈ entries s ->
      exists st c, o = Some st /\ page st = Num c /\ 1 <= c <= 9)
  /\ (cursor s < length (entries s))%nat.
Proof.
  intros Hs. destruct (bounded_reachable s Hs) as (Hp & Hh & He & Hc).
  cbn in Hp, Hh, He, Hc. rewrite Forall_forall in Hh. rewrite Forall_forall in He.
  split; [now apply inRange_spec|]. split; [|split].
  - intros e Hin. apply inRange_spec. now apply Hh.
  - intros o Hin. specialize (He o Hin). destruct o as [st|]; [|discriminate].
    apply inRange_spec in He as (c & Hc' & H). now exists st, c.
  - exact Hc.
Qed.

Lemma X1_witness :
  reachable (traverse (-2) (Scenario.advanced 4))
  /\ exists c, currentPage (traverse (-2) (Scenario.advanced 4)) = Num c
              /\ 1 <= c <= 9.
Proof.
  assert (Hr : reachable (traverse (-2) (Scenario.advanced 4))).
  { apply (reachable_step (Scenario.advanced 4)); [apply reachable_advanced|].
    apply step_traverse. }
  split; [exact Hr|].
  exact (proj1 (X1_pages_stay_in_range _ Hr)).
Defined.

(** ** The page displayed *)

Lemma activePage_showPage (p : JsNum) (s : State) :
  activePage (showPage p s) = Some (elementOf p).
Proof.
  unfold showPage, cancelScrollDelays, applyChatbotViewState, trackChatbotArrival,
    elementOf.
  cbv zeta.
  repeat match goal with
         | |- context [if ?b then _ else _] => destruct b
         | |- context [match ?x with Some _ => _ | None => _ end] => destruct x
         end; reflexivity.
Qed.

Lemma displayed_move (target : JsNum) (s : State) : displayed (move target s).
Proof.
  unfold displayed, move. cbn. rewrite activePage_showPage.
  now autorewrite with frame.
Qed.












(** ** Scroll positions *)

Lemma parseInt10_toString_any (p : JsNum) : parseInt10 (toString p) = p.
Proof. destruct p as [z|]; [apply parseInt10_toString|reflexivity]. Qed.

(** Two pages have the same property name only when they are the same. *)
Lemma toString_inj (p q : JsNum) : toString p = toString q -> p = q.
Proof.
  intros E. rewrite <- (parseInt10_toString_any p), <- (parseInt10_toString_any q).
  now rewrite E.
Qed.

Lemma scrollPositions_showPage p s : scrollPositions (showPage p s) = scrollPositions s.
Proof. exact (f_equal nav_scrollPositions (nav_showPage p s)). Qed.

Lemma storedScroll_showPage p s :
  item_scrollPositions (sessionStorage (showPage p s))
  = item_scrollPositions (sessionStorage s).
Proof. exact (f_equal nav_storedScroll (nav_showPage p s)). Qed.

Lemma scrollPositions_initializeHistory p s :
  scrollPositions (initializeHistory p s) = scrollPositions s.
Proof. unfold initializeHistory. destruct (negb _); reflexivity. Qed.

Lemma storedScroll_initializeHistory p s :
  item_scrollPositions (sessionStorage (initializeHistory p s))
  = item_scrollPositions (sessionStorage s).
Proof. unfold initializeHistory. destruct (negb _); reflexivity. Qed.

#[local] Hint Rewrite scrollPositions_showPage storedScroll_showPage
  scrollPositions_initializeHistory storedScroll_initializeHistory : frame.

(** What [showPage] does to the scroll offset, by cases: on the chatbot page
    nothing is scrolled; on another page the saved offset is queued, and
    without a saved offset the window goes to the top. *)
Lemma showPage_scroll (p : JsNum) (s : State) :
  (scrollQueued (showPage p s), scrollY (showPage p s))
  = if strictEq p chatbotPage then (None, scrollY s)
    else match scrollPositions s !! toString p with
         | Some y => (Some y, scrollY s)
         | None => (None, 0)
         end.
Proof.
  unfold showPage, cancelScrollDelays, applyChatbotViewState, trackChatbotArrival.
  cbv zeta.
  destruct (strictEq p chatbotPage); cbn [negb];
    repeat match goal with
           | |- context [if ?b then _ else _] => destruct b
           end; cbn; try reflexivity;
    destruct (scrollPositions s !! toString p); reflexivity.
Qed.

Lemma saveScrollPositions_scroll (p : JsNum) (s : State) :
  scrollPositions (saveScrollPositions p s)
  = if strictEq (currentPage s) chatbotPage then scrollPositions s
    else <[toString p := scrollY s]> (scrollPositions s).
Proof. unfold saveScrollPositions. destruct (strictEq _ _); reflexivity. Qed.














(** ** Going forward and coming back *)

Lemma currentPage_move t s : currentPage (move t s) = t.
Proof. exact (f_equal nav_currentPage (nav_move t s)). Qed.

Lemma scrollPositions_move t s :
  scrollPositions (move t s) = scrollPositions (saveScrollPositions (currentPage s) s).
Proof. exact (f_equal nav_scrollPositions (nav_move t s)). Qed.

Lemma historyStates_move t s : historyStates (move t s) = historyStates s.
Proof.
  etransitivity; [exact (f_equal nav_historyStates (nav_move t s))|].
  apply historyStates_saveScrollPositions.
Qed.

Lemma traversals_move t s : traversals (move t s) = traversals s.
Proof.
  etransitivity; [exact (f_equal nav_traversals (nav_move t s))|].
  unfold saveScrollPositions. destruct (negb _); reflexivity.
Qed.

Lemma scroll_move t s :
  (scrollQueued (move t s), scrollY (move t s))
  = if strictEq t chatbotPage then (None, scrollY s)
    else match scrollPositions (saveScrollPositions (currentPage s) s) !! toString t with
         | Some y => (Some y, scrollY s)
         | None => (None, 0)
         end.
Proof.
  unfold move. cbn [scrollQueued scrollY saveNavigationState set_sessionStorage].
  rewrite showPage_scroll. cbn [scrollPositions scrollY set_currentPage].
  unfold saveScrollPositions at 1 3. destruct (negb _); reflexivity.
Qed.

Lemma synchronise_fields (s : State) :
  currentPage (synchronise s) = currentPage s
  /\ scrollPositions (synchronise s) = scrollPositions s
  /\ scrollQueued (synchronise s) = scrollQueued s
  /\ scrollY (synchronise s) = scrollY s
  /\ activePage (synchronise s) = activePage s.
Proof. unfold synchronise. destruct (negb _); repeat split; reflexivity. Qed.

(** X4: from a page [c] between 1 and 7, pressing next and then back (with
    any scrolling in between) shows page [c] again: [currentPage] is [c],
    the element of page [c] is active, no entry is added to [historyStates]
    on the way back, one backward traversal is requested with the flag set,
    and the offset page [c] had when it was left is queued for restoration;
    from the chatbot page, whose offset is never saved, nothing is queued. *)
Theorem X4_next_then_back_restores_the_page (s : State) (c y : Z) :
  currentPage s = Num c ->
  1 <= c <= 7 ->
  let s1 := nextButtonLogic s in
  let s2 := backButtonLogic (set_scrollY y s1) in
  currentPage s1 = Num (c + 1)
  /\ currentPage s2 = Num c
  /\ activePage s2 = Some (PageElement (Num c))
  /\ historyStates s2 = historyStates s1
  /\ traversals s2 = (traversals s1 ++ [-1])%list
  /\ bypassPopState s2 = true
  /\ scrollQueued s2 = if c =? 4 then None else Some (scrollY s).
Proof.
  intros Hc Hrange s1 s2.
  assert (Hlt : lt (currentPage s) totalPages = true)
    by (rewrite Hc; cbn; apply Z.ltb_lt; lia).
  assert (E1 : s1 = synchronise (move (Num (c + 1)) s)).
  { subst s1. rewrite nextButtonLogic_eq, Hlt, Hc. reflexivity. }
  destruct (synchronise_fields (move (Num (c + 1)) s)) as (Hp1 & Hs1 & _).
  rewrite <- E1 in Hp1, Hs1. rewrite currentPage_move in Hp1.
  rewrite scrollPositions_move, saveScrollPositions_scroll, Hc in Hs1.
  assert (E2 : s2 = historyBack (set_bypassPopState true
                                   (move (Num c) (set_scrollY y s1)))).
  { subst s2. rewrite backButtonLogic_eq. cbn [currentPage set_scrollY].
    rewrite Hp1. cbn [gt lt totalPages decr].
    replace (1 <? c + 1) with true by (symmetry; apply Z.ltb_lt; lia).
    replace (c + 1 <? 9) with true by (symmetry; apply Z.ltb_lt; lia).
    replace (c + 1 - 1) with c by lia. reflexivity. }
  split; [exact Hp1|]. rewrite E2.
  cbn [currentPage activePage historyStates traversals bypassPopState scrollQueued
       historyBack set_bypassPopState set_traversals].
  split; [apply currentPage_move|].
  split.
  { generalize (displayed_move (Num c) (set_scrollY y s1)). unfold displayed.
    rewrite currentPage_move. intros ->. unfold elementOf. cbn.
    replace (c =? 9) with false by (symmetry; apply Z.eqb_neq; lia). reflexivity. }
  split; [now rewrite historyStates_move|].
  split; [now rewrite traversals_move|].
  split; [reflexivity|].
  pose proof (scroll_move (Num c) (set_scrollY y s1)) as Hq.
  apply (f_equal fst) in Hq. cbn [fst] in Hq. rewrite Hq. clear Hq.
  cbn [strictEq chatbotPage]. destruct (c =? 4) eqn:H4; [reflexivity|].
  rewrite saveScrollPositions_scroll. cbn [currentPage scrollPositions scrollY set_scrollY].
  rewrite Hp1, Hs1. cbn [strictEq chatbotPage]. rewrite H4.
  assert (Hne : toString (Num (c + 1)) <> toString (Num c)).
  { intros E. apply toString_inj in E. injection E. lia. }
  destruct (c + 1 =? 4).
  - now rewrite lookup_insert_eq.
  - rewrite lookup_insert_ne by exact Hne. now rewrite lookup_insert_eq.
Qed.

Lemma X4_witness :
  currentPage (backButtonLogic (set_scrollY 0 (nextButtonLogic (Scenario.advanced 1))))
  = Num 2
  /\ scrollQueued
       (backButtonLogic (set_scrollY 0 (nextButtonLogic (Scenario.advanced 1))))
     = Some (scrollY (Scenario.advanced 1)).
Proof.
  assert (Hc : currentPage (Scenario.advanced 1) = Num 2) by (vm_compute; reflexivity).
  destruct (X4_next_then_back_restores_the_page (Scenario.advanced 1) 2 0 Hc
              ltac:(lia)) as (_ & Hp & _ & _ & _ & _ & Hq).
  split; [exact Hp|exact Hq].
Defined.

(** ** The first arrival at the chatbot *)

Lemma arrivals_dispatchEvent (name : string) (s : State) :
  arrivals (dispatchEvent name s)
  = (arrivals s + if decide (name = "userArrivedAtChatbot") then 1 else 0)%nat.
Proof.
  unfold arrivals, dispatchEvent. cbn. rewrite filter_app, length_app. f_equal.
  cbn. destruct (decide _); reflexivity.
Qed.

Lemma tracking_applyChatbotViewState s :
  tracking (applyChatbotViewState s) = tracking s.
Proof.
  unfold applyChatbotViewState. destruct (strictEq _ _); [|reflexivity].
  unfold tracking. rewrite arrivals_dispatchEvent.
  rewrite decide_False by discriminate. now rewrite Nat.add_0_r.
Qed.

Lemma tracking_trackChatbotArrival s :
  tracking (trackChatbotArrival s) = tracked (tracking s).
Proof.
  unfold trackChatbotArrival, tracking, tracked.
  destruct (chatbotAlreadyOpened s) eqn:E; cbn [negb]; [now rewrite E|].
  rewrite arrivals_dispatchEvent. cbn. rewrite lookup_insert_eq.
  rewrite decide_True by reflexivity. f_equal. f_equal. unfold arrivals. lia.
Qed.

Lemma tracking_set_scrollQueued v s : tracking (set_scrollQueued v s) = tracking s.
Proof. reflexivity. Qed.
Lemma tracking_set_activePage v s : tracking (set_activePage v s) = tracking s.
Proof. reflexivity. Qed.
Lemma tracking_set_scrollY v s : tracking (set_scrollY v s) = tracking s.
Proof. reflexivity. Qed.

Create Rewrite HintDb tracking.
#[local] Hint Rewrite tracking_applyChatbotViewState tracking_trackChatbotArrival
  tracking_set_scrollQueued tracking_set_activePage tracking_set_scrollY : tracking.

Ltac tracking_cases :=
  repeat first
    [ progress autorewrite with tracking
    | match goal with
      | |- context [tracking (if ?b then _ else _)] => destruct b
      | |- context [tracking (match ?x with Some _ => _ | None => _ end)] => destruct x
      end ].

(** What [showPage] does to the tracking: on the chatbot page it runs
    [trackChatbotArrival], on any other page nothing. *)
Lemma tracking_showPage (p : JsNum) (s : State) :
  tracking (showPage p s)
  = if strictEq p chatbotPage then tracked (tracking s) else tracking s.
Proof.
  unfold showPage, cancelScrollDelays. cbv zeta.
  destruct (strictEq p chatbotPage); cbn [negb]; tracking_cases; reflexivity.
Qed.

Lemma tracking_saveScrollPositions p s :
  tracking (saveScrollPositions p s) = tracking s.
Proof. unfold saveScrollPositions. destruct (negb _); reflexivity. Qed.

Lemma tracking_move (t : JsNum) (s : State) :
  tracking (move t s)
  = if strictEq t chatbotPage then tracked (tracking s) else tracking s.
Proof.
  unfold move.
  change (tracking (saveNavigationState ?x)) with (tracking x).
  rewrite tracking_showPage.
  change (tracking (set_currentPage ?v ?x)) with (tracking x).
  now rewrite tracking_saveScrollPositions.
Qed.

Lemma tracking_synchronise s : tracking (synchronise s) = tracking s.
Proof. unfold synchronise. destruct (negb _); reflexivity. Qed.

Lemma tracking_clearState s :
  tracking (clearState s) = tracking s.
Proof.
  unfold tracking, clearState, removeItem. cbn.
  now rewrite !lookup_delete_ne by done.
Qed.

Lemma arrivalTracked_intro (x : State) (f : bool) (n : nat) (i : option string) :
  tracking x = (f, n, i) ->
  i = Some (if f then "true" else "false") ->
  (n <= if f then 1 else 0)%nat ->
  arrivalTracked x.
Proof.
  unfold tracking, arrivalTracked. intros E. injection E as E1 E2 E3.
  subst f n i. auto.
Qed.

Lemma tracking_flag (x : State) (f : bool) (n : nat) (i : option string) :
  tracking x = (f, n, i) -> chatbotAlreadyOpened x = f /\ arrivals x = n.
Proof. unfold tracking. intros E. now injection E as E1 E2 E3. Qed.

Lemma arrivalTracked_tracked (s s' : State) :
  tracking s' = tracked (tracking s) -> arrivalTracked s -> arrivalTracked s'.
Proof.
  intros E (Hi & Hn). unfold tracking, tracked in E. unfold arrivalTracked.
  destruct (chatbotAlreadyOpened s); cbn [negb] in E;
    injection E as E1 E2 E3; rewrite E1, E2, E3; split;
    first [assumption | reflexivity | lia].
Qed.

Lemma arrivalTracked_same (s s' : State) :
  tracking s' = tracking s -> arrivalTracked s -> arrivalTracked s'.
Proof.
  unfold arrivalTracked, tracking. intros E. injection E as E1 E2 E3.
  now rewrite E1, E2, E3.
Qed.

(** Once the flag is set, tracking does nothing. *)
Lemma tracked_opened (s : State) :
  chatbotAlreadyOpened s = true -> tracked (tracking s) = tracking s.
Proof. unfold tracked, tracking. now intros ->. Qed.

Lemma tracking_handlePopState (event : PopStateEvent) (s : State) :
  tracking (snd (handlePopState event s)) = tracking s
  \/ tracking (snd (handlePopState event s)) = tracked (tracking s).
Proof.
  unfold handlePopState. destruct (bypassPopState s); [now left|].
  rewrite handleNavigation_eq.
  destruct (if strictEq (currentPage s) (Num 1) then _ else _) as [[|]|];
    [now left| |now left].
  destruct (strictEq (currentPage s) totalPages); [now left|].
  destruct (state event) as [st|]; [|now left]. cbn [snd].
  rewrite tracking_move. destruct (strictEq _ chatbotPage); [now right|now left].
Qed.

Lemma tracking_traverse (delta : Z) (s : State) :
  tracking (traverse delta s) = tracking s
  \/ tracking (traverse delta s) = tracked (tracking s).
Proof.
  unfold traverse. destruct (_ && _); [|now left]. cbv zeta.
  destruct (popstateListener _); [|now left].
  apply (tracking_handlePopState _ (set_cursor _ s)).
Qed.

Lemma tracking_restoreState (s : State) : tracking (restoreState s) = tracking s.
Proof.
  destruct s as [cp hs sp bp co sq cc ap cv sh sy sH di st en cu tr pl].
  destruct st as [[p|] [l|] [m|] [[|]|] it]; unfold restoreState; cbn;
    try destruct (nonEmpty p); reflexivity.
Qed.

Lemma tracking_initializeHistory p s : tracking (initializeHistory p s) = tracking s.
Proof. unfold initializeHistory. destruct (negb _); reflexivity. Qed.

(** Loading the page: the flag is read from the storage and written back,
    no arrival event has been dispatched yet, and showing the current page
    tracks the arrival if that page is the chatbot page. *)
Lemma tracking_initializePage (s : State) :
  let base := (chatbotAlreadyOpened s, arrivals s,
               Some (if chatbotAlreadyOpened s then "true" else "false")) in
  tracking (initializePage s) = base \/ tracking (initializePage s) = tracked base.
Proof.
  intros base. unfold initializePage. cbv zeta.
  set (s1 := initializeHistory _ _).
  assert (E1 : tracking s1 = base).
  { subst s1. rewrite tracking_initializeHistory, tracking_restoreState.
    unfold tracking, referenceElements. cbn. now rewrite lookup_insert_eq. }
  assert (E : forall x, tracking (dispatchEvent "surveyDataInitialized"
                                    (attachEventListeners x)) = tracking x).
  { intros x. unfold tracking. rewrite arrivals_dispatchEvent.
    rewrite decide_False by discriminate. now rewrite Nat.add_0_r. }
  rewrite E, tracking_showPage, E1. destruct (strictEq _ _); [now right|now left].
Qed.

Lemma arrivalTracked_initializePage (s : State) :
  arrivals s = 0%nat -> arrivalTracked (initializePage s).
Proof.
  intros Hn.
  destruct (tracking_initializePage s) as [E|E]; rewrite Hn in E.
  - apply (arrivalTracked_intro _ _ _ _ E); [reflexivity|].
    destruct (chatbotAlreadyOpened s); lia.
  - unfold tracked in E. destruct (chatbotAlreadyOpened s); cbn [negb] in E;
      apply (arrivalTracked_intro _ _ _ _ E); first [reflexivity | lia].
Qed.

(** What one step does to the tracking: nothing, or it tracks the arrival,
    or (a reload) it starts a document with the flag as stored. *)
Lemma tracking_step (s s' : State) :
  step s s' ->
  arrivalTracked s ->
  arrivalTracked s'
  /\ (chatbotAlreadyOpened s = true ->
      chatbotAlreadyOpened s' = true /\ (arrivals s' <= arrivals s)%nat).
Proof.
  intros Hstep Hs.
  assert (Hcase : tracking s' = tracking s \/ tracking s' = tracked (tracking s)
                  \/ exists s0, s' = initializePage s0 /\ arrivals s0 = 0%nat
                                /\ chatbotAlreadyOpened s0 = chatbotAlreadyOpened s).
  { destruct Hstep.
    - rewrite nextButtonLogic_eq, tracking_synchronise.
      destruct (lt _ _); [|now left]. rewrite tracking_move.
      destruct (strictEq _ _); [right; now left|now left].
    - rewrite backButtonLogic_eq. destruct (_ && _); [|now left].
      change (tracking (historyBack (set_bypassPopState true ?x))) with (tracking x).
      rewrite tracking_move. destruct (strictEq _ _); [right; now left|now left].
    - now left.
    - now left.
    - unfold submitSucceeded. cbv zeta.
      rewrite tracking_clearState, moveToFinalPage_eq, tracking_synchronise.
      destruct (lt _ _); [|now left]. rewrite tracking_move. now left.
    - now left.
    - now left.
    - destruct (tracking_traverse delta s) as [E|E]; [now left|right; now left].
    - unfold performRequested. destruct (traversals s); [now left|].
      destruct (tracking_traverse z (set_traversals l s)) as [E|E];
        [now left|right; now left].
    - right. right. eexists. split; [reflexivity|]. split; [reflexivity|].
      cbn. destruct Hs as (Hi & _). unfold beforeUnload.
      replace (items (sessionStorage (saveScrollPositions (currentPage s) s)))
        with (items (sessionStorage s))
        by (unfold saveScrollPositions; destruct (negb _); reflexivity).
      rewrite Hi. now destruct (chatbotAlreadyOpened s). }
  destruct Hcase as [E|[E|(s0 & -> & Hn & Hf)]].
  - split; [exact (arrivalTracked_same _ _ E Hs)|].
    apply tracking_flag in E as (E1 & E2). rewrite E1, E2. auto.
  - split; [exact (arrivalTracked_tracked _ _ E Hs)|].
    intros Hopen. rewrite (tracked_opened s Hopen) in E.
    apply tracking_flag in E as (E1 & E2). rewrite E1, E2. auto.
  - split; [now apply arrivalTracked_initializePage|].
    intros Hopen. rewrite Hopen in Hf.
    destruct (tracking_initializePage s0) as [E|E];
      unfold tracked in E; rewrite Hf, Hn in E; cbn [negb] in E;
      apply tracking_flag in E as (E1 & E2); rewrite E1, E2; split;
      first [reflexivity | lia].
Qed.

Lemma tracking_steps (s s' : State) :
  rtc step s s' ->
  arrivalTracked s ->
  arrivalTracked s'
  /\ (chatbotAlreadyOpened s = true ->
      chatbotAlreadyOpened s' = true /\ (arrivals s' <= arrivals s)%nat).
Proof.
  induction 1 as [|s1 s2 s3 Hstep _ IH]; intros Hs; [auto|].
  destruct (tracking_step _ _ Hstep Hs) as (Hs2 & H12).
  destruct (IH Hs2) as (Hs3 & H23). split; [exact Hs3|].
  intros Hopen. destruct (H12 Hopen) as (Hopen2 & Hn2).
  destruct (H23 Hopen2) as (Hopen3 & Hn3). split; [exact Hopen3|lia].
Qed.

(** X5: the event ['userArrivedAtChatbot'] is dispatched at most once.
    Showing the chatbot page with the flag [chatbotAlreadyOpened] unset sets
    the flag, stores it and dispatches the event; showing any page with the
    flag set dispatches nothing.  In every reachable state the event was
    dispatched at most once in the document and only with the flag set, and
    the stored flag agrees with the flag; from a reachable state with the
    flag set, whatever happens, reloads included, the flag stays set and no
    further arrival event is dispatched. *)
Theorem X5_arrival_at_the_chatbot_is_signalled_once (s s' : State) (p : JsNum) :
  (chatbotAlreadyOpened s = false ->
   chatbotAlreadyOpened (showPage chatbotPage s) = true
   /\ arrivals (showPage chatbotPage s) = S (arrivals s)
   /\ items (sessionStorage (showPage chatbotPage s)) !! "chatbotAlreadyOpened"
      = Some "true")
  /\ (chatbotAlreadyOpened s = true -> arrivals (showPage p s) = arrivals s)
  /\ (reachable s ->
      (arrivals s <= 1)%nat
      /\ (arrivals s = 1%nat -> chatbotAlreadyOpened s = true)
      /\ items (sessionStorage s) !! "chatbotAlreadyOpened"
         = Some (if chatbotAlreadyOpened s then "true" else "false")
      /\ (chatbotAlreadyOpened s = true -> rtc step s s' ->
          chatbotAlreadyOpened s' = true /\ (arrivals s' <= arrivals s)%nat)).
Proof.
  split; [|split].
  - intros Hf. pose proof (tracking_showPage chatbotPage s) as E.
    unfold tracked, tracking at 2 in E. rewrite Hf in E.
    cbn [strictEq chatbotPage negb] in E. rewrite Z.eqb_refl in E.
    unfold tracking in E. injection E as E1 E2 E3. auto.
  - intros Hf. pose proof (tracking_showPage p s) as E.
    rewrite (tracked_opened s Hf) in E.
    assert (E' : tracking (showPage p s) = tracking s)
      by (destruct (strictEq _ _); exact E).
    now apply tracking_flag in E'.
  - intros (height & Hsteps).
    assert (Hs : arrivalTracked s).
    { apply (tracking_steps _ _ Hsteps). now apply arrivalTracked_initializePage. }
    destruct Hs as (Hi & Hn). split; [|split; [|split]].
    + destruct (chatbotAlreadyOpened s); lia.
    + destruct (chatbotAlreadyOpened s); [reflexivity|lia].
    + exact Hi.
    + intros Hopen Hsteps'. now apply (tracking_steps _ _ Hsteps').
Qed.

Lemma X5_witness :
  reachable (Scenario.advanced 3)
  /\ arrivals (Scenario.advanced 3) = 1%nat
  /\ (arrivals (reload (nextButtonLogic (Scenario.pageBack (Scenario.advanced 3))))
      <= arrivals (Scenario.advanced 3))%nat.
Proof.
  assert (Hopen : chatbotAlreadyOpened (Scenario.advanced 3) = true)
    by (vm_compute; reflexivity).
  split; [apply reachable_advanced|]. split; [vm_compute; reflexivity|].
  apply (proj2 (proj2 (X5_arrival_at_the_chatbot_is_signalled_once
                  (Scenario.advanced 3)
                  (reload (nextButtonLogic (Scenario.pageBack (Scenario.advanced 3))))
                  (Num 1))) (reachable_advanced 3)); [exact Hopen|].
  unfold Scenario.pageBack.
  eapply rtc_l; [apply step_back|]. eapply rtc_l; [apply step_requested|].
  eapply rtc_l; [apply step_next|]. eapply rtc_l; [apply step_reload|].
  apply rtc_refl.
Defined.

(** ** The chatbot view *)

Lemma chatbotView_showPage (p : JsNum) (s : State) :
  chatbotView (showPage p s)
  = if ge p (decr chatbotPage) && le p (incr chatbotPage)
    then strictEq (currentPage s) chatbotPage
    else chatbotView s.
Proof.
  unfold showPage, cancelScrollDelays, applyChatbotViewState, trackChatbotArrival.
  cbv zeta.
  destruct (ge p (decr chatbotPage) && le p (incr chatbotPage));
    cbn [currentPage set_activePage set_scrollQueued];
    destruct (strictEq (currentPage s) chatbotPage);
    repeat match goal with
           | |- context [if ?b then _ else _] => destruct b
           | |- context [match ?x with Some _ => _ | None => _ end] => destruct x
           end; reflexivity.
Qed.

Lemma chatbotView_move (t : JsNum) (s : State) :
  chatbotView (move t s)
  = if ge t (decr chatbotPage) && le t (incr chatbotPage)
    then strictEq t chatbotPage
    else chatbotView s.
Proof.
  unfold move. cbn [chatbotView saveNavigationState set_sessionStorage].
  rewrite chatbotView_showPage. cbn [currentPage chatbotView set_currentPage].
  unfold saveScrollPositions. destruct (negb _); reflexivity.
Qed.

(** A move by one page keeps the view in line with the page. *)
Lemma viewFollows_move_one (s : State) (c t : Z) :
  currentPage s = Num c -> t = c + 1 \/ t = c - 1 ->
  viewFollows s -> viewFollows (move (Num t) s).
Proof.
  unfold viewFollows. intros Hc Ht Hv.
  rewrite chatbotView_move, currentPage_move, Hv, Hc. cbn.
  destruct (Z.leb_spec (4 - 1) t), (Z.leb_spec t (4 + 1)); cbn; try reflexivity;
    destruct (Z.eqb_spec c 4), (Z.eqb_spec t 4); try reflexivity; lia.
Qed.

Lemma viewFollows_same (s s' : State) :
  chatbotView s' = chatbotView s -> currentPage s' = currentPage s ->
  viewFollows s -> viewFollows s'.
Proof. unfold viewFollows. now intros -> ->. Qed.

Ltac same_view := apply viewFollows_same; reflexivity.

Lemma viewFollows_synchronise (s : State) : viewFollows s -> viewFollows (synchronise s).
Proof. unfold synchronise. destruct (negb _); same_view. Qed.

Lemma viewFollows_handlePopState (event : PopStateEvent) (s : State) (c : Z) :
  currentPage s = Num c ->
  viewFollows s -> viewFollows (snd (handlePopState event s)).
Proof.
  intros Hc Hs. unfold handlePopState.
  destruct (bypassPopState s); [revert Hs; same_view|].
  rewrite handleNavigation_eq.
  destruct (if strictEq (currentPage s) (Num 1) then _ else _) as [[|]|];
    [revert Hs; same_view| |exact Hs].
  destruct (strictEq (currentPage s) totalPages); [revert Hs; same_view|].
  destruct (state event) as [st|]; [|exact Hs]. cbn [snd]. rewrite Hc.
  destruct (lt (page st) (Num c)); cbn [incr decr];
    apply (viewFollows_move_one s c); auto.
Qed.

(** X6: [showPage] applies the chatbot view state only on the chatbot page
    and the two pages next to it.  The handlers that move by one page (the
    next and back buttons, the popstate handler, a traversal of the browser
    history) therefore keep the chatbot view applied exactly when the current
    page is the chatbot page; [moveToFinalPage] does so only when it does not
    start on the chatbot page, since the final page is not next to it. *)
Theorem X6_chatbot_view_follows_one_step_moves
    (s : State) (c : Z) (event : PopStateEvent) (delta : Z) :
  currentPage s = Num c ->
  chatbotView s = (c =? 4) ->
  chatbotView (nextButtonLogic s) = strictEq (currentPage (nextButtonLogic s)) chatbotPage
  /\ chatbotView (backButtonLogic s)
     = strictEq (currentPage (backButtonLogic s)) chatbotPage
  /\ chatbotView (snd (handlePopState event s))
     = strictEq (currentPage (snd (handlePopState event s))) chatbotPage
  /\ chatbotView (traverse delta s) = strictEq (currentPage (traverse delta s)) chatbotPage
  /\ (c < 9 -> chatbotView (moveToFinalPage s) = (c =? 4)).
Proof.
  intros Hc Hv.
  assert (Hs : viewFollows s) by (unfold viewFollows; now rewrite Hv, Hc).
  split; [|split; [|split; [|split]]].
  - change (viewFollows (nextButtonLogic s)). rewrite nextButtonLogic_eq.
    apply viewFollows_synchronise. destruct (lt _ _); [|exact Hs].
    rewrite Hc. apply (viewFollows_move_one s c); auto.
  - change (viewFollows (backButtonLogic s)). rewrite backButtonLogic_eq.
    destruct (_ && _); [|exact Hs]. rewrite Hc.
    generalize (viewFollows_move_one s c (c - 1) Hc (or_intror eq_refl) Hs).
    same_view.
  - now apply (viewFollows_handlePopState event s c).
  - change (viewFollows (traverse delta s)). unfold traverse.
    destruct (_ && _); [|exact Hs]. cbv zeta.
    destruct (popstateListener _); [|revert Hs; same_view].
    apply (viewFollows_handlePopState _ _ c); [exact Hc|]. revert Hs. same_view.
  - intros Hlt. rewrite moveToFinalPage_eq, Hc. cbn [lt totalPages].
    replace (c <? 9) with true by (symmetry; apply Z.ltb_lt; lia).
    unfold synchronise. destruct (negb _);
      cbn [chatbotView pushPageToHistory saveNavigationState pushState set_cursor
           set_entries set_historyStates set_sessionStorage historyForward
           set_traversals set_bypassPopState];
      rewrite chatbotView_move; exact Hv.
Qed.

Lemma X6_witness :
  chatbotView (nextButtonLogic (Scenario.advanced 2)) = true
  /\ chatbotView (nextButtonLogic (Scenario.advanced 3)) = false
  /\ chatbotView (moveToFinalPage (Scenario.advanced 3)) = true.
Proof.
  destruct (X6_chatbot_view_follows_one_step_moves (Scenario.advanced 2) 3
              {| state := None |} 0 ltac:(vm_compute; reflexivity)
              ltac:(vm_compute; reflexivity)) as (H2 & _).
  destruct (X6_chatbot_view_follows_one_step_moves (Scenario.advanced 3) 4
              {| state := None |} 0 ltac:(vm_compute; reflexivity)
              ltac:(vm_compute; reflexivity)) as (H3 & _ & _ & _ & Hfinal).
  split; [|split].
  - rewrite H2. vm_compute. reflexivity.
  - rewrite H3. vm_compute. reflexivity.
  - apply Hfinal. lia.
Defined.

(** ** Reloading the page *)





(** ** The shadow stack only grows *)






(** * More about the server *)

Import Wire Ledger.

(** ** POST /submit *)

Lemma submit_accepted (body : SubmitBody) (queryOk : bool) (db : list Row) :
  submit body queryOk db
  = (if truthy (participantId body) && truthy (treatmentGroup body)
        && truthy (conversationLog body)
     then if queryOk then 200 else 500 else 400,
     if accepted (body, queryOk) then (db ++ [rowOf body])%list else db).
Proof.
  unfold submit, accepted. cbn [fst snd].
  destruct (truthy (participantId body)), (truthy (treatmentGroup body)),
    (truthy (conversationLog body)), queryOk; reflexivity.
Qed.

Lemma submitAll_table (requests : list (SubmitBody * bool)) (db : list Row) :
  snd (submitAll requests db)
  = (db ++ map (fun request => rowOf (fst request)) (filter accepted requests))%list
  /\ fst (submitAll requests db)
     = map (fun request => fst (submit (fst request) (snd request) [])) requests.
Proof.
  revert db. induction requests as [|[body queryOk] rest IH]; intros db.
  - cbn. now rewrite app_nil_r.
  - cbn [submitAll]. rewrite (submit_accepted body queryOk db).
    rewrite filter_cons.
    destruct (decide (accepted (body, queryOk))) as [Ha|Ha].
    + apply Is_true_true in Ha. rewrite Ha.
      destruct (IH (db ++ [rowOf body])%list) as (Htable & Hstatuses).
      destruct (submitAll rest _) as [statuses db']. cbn [fst snd] in *.
      split.
      * rewrite Htable. cbn [map fst]. now rewrite <- app_assoc.
      * rewrite Hstatuses. cbn [map fst snd]. f_equal.
        rewrite !submit_accepted. cbn [fst]. reflexivity.
    + apply Is_true_false in Ha. rewrite Ha.
      destruct (IH db) as (Htable & Hstatuses).
      destruct (submitAll rest _) as [statuses db']. cbn [fst snd] in *.
      split; [exact Htable|].
      rewrite Hstatuses. cbn [map fst snd]. f_equal.
      rewrite !submit_accepted. cbn [fst]. reflexivity.
Qed.

(** X9: what /submit leaves in the table.  The handler answers 200 exactly
    when it appended the row of the request: with the three named fields
    truthy and a query that succeeds; it answers 400 when a field is falsy
    and 500 when the query failed, and then the table is left as it is.
    After any requests handled one after the other the table is the table
    from before followed by the rows of the requests that were answered
    200, in the order of the requests: no other request leaves a trace, and
    no row is changed or removed. *)
Theorem X9_submit_inserts_a_row_exactly_when_it_answers_200
    (body : SubmitBody) (queryOk : bool) (db : list Row)
    (requests : list (SubmitBody * bool)) :
  (fst (submit body queryOk db) = 200
   <-> snd (submit body queryOk db) = (db ++ [rowOf body])%list)
  /\ (fst (submit body queryOk db) <> 200 -> snd (submit body queryOk db) = db)
  /\ (fst (submit body queryOk db) = 200 <-> accepted (body, queryOk) = true)
  /\ snd (submitAll requests db)
     = (db ++ map (fun request => rowOf (fst request)) (filter accepted requests))%list
  /\ (forall i request status,
        requests !! i = Some request ->
        fst (submitAll requests db) !! i = Some status ->
        (status = 200 <-> accepted request = true))
  /\ db `prefix_of` snd (submitAll requests db).
Proof.
  split; [|split; [|split; [|split; [|split]]]].
  - rewrite submit_accepted. cbn [fst snd]. unfold accepted. cbn [fst snd].
    destruct (truthy (participantId body)), (truthy (treatmentGroup body)),
      (truthy (conversationLog body)), queryOk; cbn;
      split; try discriminate; try reflexivity; intros E;
      exfalso; symmetry in E; revert E; apply app_singleton_neq.
  - rewrite submit_accepted. cbn [fst snd]. unfold accepted. cbn [fst snd].
    destruct (truthy (participantId body)), (truthy (treatmentGroup body)),
      (truthy (conversationLog body)), queryOk; cbn; intros H;
      try reflexivity; now destruct H.
  - rewrite submit_accepted. cbn [fst snd]. unfold accepted. cbn [fst snd].
    destruct (truthy (participantId body)), (truthy (treatmentGroup body)),
      (truthy (conversationLog body)), queryOk; cbn; split; try discriminate;
      reflexivity.
  - apply submitAll_table.
  - intros i [body' queryOk'] status Hi Hstatus.
    rewrite (proj2 (submitAll_table requests db)) in Hstatus.
    rewrite list_lookup_fmap, Hi in Hstatus. cbn in Hstatus.
    injection Hstatus as <-. rewrite submit_accepted. cbn [fst snd].
    unfold accepted. cbn [fst snd].
    destruct (truthy (participantId body')), (truthy (treatmentGroup body')),
      (truthy (conversationLog body')), queryOk'; cbn; split; try discriminate;
      reflexivity.
  - rewrite (proj1 (submitAll_table requests db)). now apply prefix_app_r.
Qed.

Lemma X9_witness :
  snd (submit Example.groupZero true []) = []
  /\ snd (submitAll [(Example.groupZero, true); (Example.emptyLog, true)] []) = [].
Proof.
  destruct (X9_submit_inserts_a_row_exactly_when_it_answers_200 Example.groupZero true []
              [(Example.groupZero, true); (Example.emptyLog, true)])
    as (_ & Hrejected & _ & Htable & _).
  assert (H : fst (submit Example.groupZero true []) <> 200)
    by (vm_compute; discriminate).
  split; [exact (Hrejected H)|exact Htable].
Defined.

(** ** The client's submission against the server *)

Lemma submit_truthy (body : SubmitBody) (db : list Row) :
  truthy (participantId body) = true ->
  truthy (treatmentGroup body) = true ->
  truthy (conversationLog body) = true ->
  submit body true db = (200, (db ++ [rowOf body])%list).
Proof. intros H1 H2 H3. unfold submit. now rewrite H1, H2, H3. Qed.

(** X10: the submit button against the server.  When the session storage
    has no conversation (or an empty one), or no participant id, or no
    treatment group, every attempt is answered 400, nothing is inserted,
    and after four attempts the button shows the error and stays on the
    page.  When the three items are there and not empty and the query
    succeeds, the first attempt is answered 200, the row is inserted with
    the values of the storage (the group as the string the client stored,
    ["0"] included), and the client goes to the final page. *)
Theorem X10_submit_button_against_the_server
    (s : State) (answers : string) (queryOk : nat -> bool) (db : list Row) :
  let data := collectData s in
  let body := toBody data answers in
  let net := served body queryOk db in
  ((Client.conversationLog data = "" \/ Client.participantId data = None
    \/ Client.treatmentGroup data = None) ->
   (forall q, submit body q db = (400, db))
   /\ submitButtonLogic net s
      = (submitFailed (submitStarted s), failures data 4))
  /\ (forall pid group,
        Client.participantId data = Some pid -> pid <> "" ->
        Client.treatmentGroup data = Some group -> group <> "" ->
        Client.conversationLog data <> "" ->
        queryOk 0%nat = true ->
        submit body true db = (200, (db ++ [rowOf body])%list)
        /\ treatment_group (rowOf body) = JString group
        /\ submitButtonLogic net s = (submitSucceeded (submitStarted s), [Fetch data])).
Proof.
  intros data body net.
  assert (Hdata : collectData (submitStarted s) = data) by reflexivity.
  clearbody data. split.
  - intros Hmissing.
    assert (Hrej : forall q, submit body q db = (400, db)).
    { intros q. apply submit_falsy. subst body. unfold toBody. cbn.
      destruct Hmissing as [E|[E|E]]; rewrite E; auto. }
    split; [exact Hrej|].
    unfold submitButtonLogic. cbv zeta.
    rewrite Hdata.
    unfold submitData. change (Z.to_nat (default 4 (Some 4))) with 4%nat.
    rewrite submitLoop_exhausted; [reflexivity|].
    intros j _. subst net. unfold served. now rewrite Hrej.
  - intros pid group Hpid Hpid' Hgroup Hgroup' Hlog Hq.
    assert (Hok : submit body true db = (200, (db ++ [rowOf body])%list)).
    { apply submit_truthy; subst body; unfold toBody; cbn;
        rewrite ?Hpid, ?Hgroup; cbn; unfold nonEmpty.
      - now destruct pid.
      - now destruct group.
      - now destruct (Client.conversationLog data). }
    split; [exact Hok|]. split; [subst body; cbn; now rewrite Hgroup|].
    unfold submitButtonLogic. cbv zeta.
    rewrite Hdata.
    unfold submitData. change (Z.to_nat (default 4 (Some 4))) with 4%nat.
    rewrite (submitLoop_first_success net data 4 0 0 200 None);
      [reflexivity|lia|intros j Hj; lia| |reflexivity].
    subst net. unfold served. cbn. now rewrite Hq, Hok.
Qed.

Lemma X10_witness :
  snd (submitButtonLogic
         (served (toBody (collectData (Scenario.advanced 7)) "{}") (fun _ => true) [])
         (Scenario.advanced 7))
  = failures (collectData (Scenario.advanced 7)) 4
  /\ treatment_group (rowOf (toBody (collectData participant) "{}")) = JString "0"
  /\ snd (submitButtonLogic
            (served (toBody (collectData participant) "{}") (fun _ => true) [])
            participant)
     = [Fetch (collectData participant)].
Proof.
  destruct (X10_submit_button_against_the_server (Scenario.advanced 7) "{}"
              (fun _ => true) []) as (Hmissing & _).
  assert (H : Client.conversationLog (collectData (Scenario.advanced 7)) = "")
    by (vm_compute; reflexivity).
  destruct (Hmissing (or_introl H)) as (_ & Efail).
  destruct (X10_submit_button_against_the_server participant "{}"
              (fun _ => true) []) as (_ & Hcomplete).
  assert (Hpid : Client.participantId (collectData participant)
                 = Some "ID-K7QZ02MBK7QZ02M1102093015250")
    by (vm_compute; reflexivity).
  assert (Hgroup : Client.treatmentGroup (collectData participant) = Some "0")
    by (vm_compute; reflexivity).
  assert (Hlog : Client.conversationLog (collectData participant) <> "")
    by (vm_compute; discriminate).
  destruct (Hcomplete _ _ Hpid ltac:(discriminate) Hgroup ltac:(discriminate)
              Hlog eq_refl) as (_ & Erow & Eok).
  split; [|split].
  - exact (f_equal snd Efail).
  - exact Erow.
  - exact (f_equal snd Eok).
Defined.

(** ** A submission that succeeds *)

Lemma shown_showPage (p : JsNum) (s : State) : shown (showPage p s) = shown s.
Proof.
  unfold showPage, cancelScrollDelays, applyChatbotViewState, trackChatbotArrival.
  cbv zeta.
  repeat match goal with
         | |- context [if ?b then _ else _] => destruct b
         | |- context [match ?x with Some _ => _ | None => _ end] => destruct x
         end; reflexivity.
Qed.

Lemma shown_move (t : JsNum) (s : State) : shown (move t s) = shown s.
Proof.
  unfold move. cbn [shown saveNavigationState set_sessionStorage].
  rewrite shown_showPage. unfold saveScrollPositions.
  destruct (negb _); reflexivity.
Qed.

Lemma stored_synchronise (s : State) (z : Z) :
  currentPage s = Num z ->
  item_currentPage (sessionStorage s) = Some (toString (currentPage s)) ->
  item_currentPage (sessionStorage (synchronise s)) = Some (toString (currentPage s))
  /\ shown (synchronise s) = shown s
  /\ hasPage (currentPage s) (historyStates (synchronise s)) = true.
Proof.
  intros Hz Hp. unfold synchronise. destruct (hasPage _ _) eqn:Hhas; cbn.
  - auto.
  - split; [reflexivity|]. split; [reflexivity|].
    unfold hasPage. rewrite existsb_app. cbn. rewrite Hz.
    rewrite (proj2 (strictEq_Num (Num z) z) eq_refl). now rewrite orb_true_r.
Qed.

Lemma submitSucceeded_fields (s : State) (c : Z) :
  currentPage s = Num c -> c < 9 ->
  let s' := submitSucceeded s in
  currentPage s' = totalPages
  /\ activePage s' = Some ThankYou
  /\ shown s' = shown s ∖ {["submit-data-notification"]}
  /\ item_currentPage (sessionStorage s') = Some "9"
  /\ hasPage totalPages (historyStates s') = true
  /\ item_formConsent (sessionStorage s') = None
  /\ items (sessionStorage s') !! "participantId" = None
  /\ items (sessionStorage s') !! "treatmentGroup" = None
  /\ items (sessionStorage s') !! "conversation" = None.
Proof.
  intros Hc Hlt s'. subst s'. unfold submitSucceeded. cbv zeta.
  rewrite moveToFinalPage_eq.
  change (currentPage (toggleNotification false "submit-data-notification" s))
    with (currentPage s).
  rewrite Hc.
  assert (Hl : lt (Num c) totalPages = true) by (apply Z.ltb_lt; exact Hlt).
  rewrite Hl.
  set (s1 := move totalPages _).
  assert (H1 : currentPage s1 = totalPages) by apply currentPage_move.
  assert (Hstored : item_currentPage (sessionStorage s1)
                    = Some (toString (currentPage s1))).
  { rewrite H1. subst s1. unfold move.
    cbn [sessionStorage item_currentPage saveNavigationState set_sessionStorage
         setItem_historyStates setItem_currentPage].
    now rewrite currentPage_showPage. }
  assert (Hact1 : activePage s1 = Some ThankYou).
  { subst s1. unfold move. cbn [activePage saveNavigationState set_sessionStorage].
    now rewrite activePage_showPage. }
  assert (Hshown1 : shown s1 = shown s ∖ {["submit-data-notification"]}).
  { subst s1. now rewrite shown_move. }
  clearbody s1.
  destruct (stored_synchronise s1 9 H1 Hstored) as (Hp & Hshown & Hhas).
  destruct (synchronise_fields s1) as (Hcur & _ & _ & _ & Hactive).
  rewrite H1 in Hp, Hhas. rewrite H1 in Hcur. rewrite Hact1 in Hactive.
  rewrite Hshown1 in Hshown.
  generalize dependent (synchronise s1). intros s2 Hp Hshown Hhas Hcur Hactive.
  repeat split; try assumption.
  - unfold clearState, removeItem. cbn.
    rewrite !lookup_delete_ne by done. apply lookup_delete_eq.
  - unfold clearState, removeItem. cbn.
    rewrite lookup_delete_ne by done. apply lookup_delete_eq.
  - unfold clearState, removeItem. cbn. apply lookup_delete_eq.
Qed.

(** X11: a submission that succeeds.  When the attempt number [k] (below 4)
    is the first that is answered with an ok status, [submitButtonLogic],
    started on a page below the final one, has made [k + 1] requests with a
    wait of 500 ms after each failed one, and ends on the final page: the
    thank-you element is active, neither notification is shown, the page
    saved in the session storage is 9 and [historyStates] has the final
    page, and the participant id, the treatment group, the conversation and
    the form data are removed from the session storage, so that the data
    collected from it again would be empty. *)
Theorem X11_successful_submission_ends_on_the_final_page
    (net : nat -> FetchResult) (s : State) (c : Z) (k : nat) (status : Z) :
  currentPage s = Num c -> c < 9 ->
  (k < 4)%nat ->
  (forall j, (j < k)%nat -> errorOf (net j) <> None) ->
  net k = Responded status -> ok status = true ->
  let s' := fst (submitButtonLogic net s) in
  snd (submitButtonLogic net s)
  = (failures (collectData s) k ++ [Fetch (collectData s)])%list
  /\ currentPage s' = totalPages
  /\ activePage s' = Some ThankYou
  /\ ("submit-data-notification" ∉ shown s')
  /\ ("submit-error-message" ∉ shown s')
  /\ item_currentPage (sessionStorage s') = Some "9"
  /\ hasPage totalPages (historyStates s') = true
  /\ item_formConsent (sessionStorage s') = None
  /\ collectData s'
     = {| Client.participantId := None; Client.treatmentGroup := None;
          Client.conversationLog := "" |}.
Proof.
  intros Hc Hlt Hk Hfail Hnet Hok s'. subst s'.
  unfold submitButtonLogic. cbv zeta. unfold submitData.
  change (Z.to_nat (default 4 (Some 4))) with 4%nat.
  rewrite (submitLoop_first_success net _ 4 0 k status None Hk)
    by (try assumption; intros j Hj; apply Hfail; lia).
  cbn [fst snd].
  assert (Hc' : currentPage (submitStarted s) = Num c) by exact Hc.
  destruct (submitSucceeded_fields (submitStarted s) c Hc' Hlt)
    as (Hcur & Hactive & Hshown & Hp & Hhas & Hform & Hpid & Hgroup & Hconv).
  split; [reflexivity|].
  split; [exact Hcur|]. split; [exact Hactive|].
  split; [|split; [|split; [exact Hp|split; [exact Hhas|split; [exact Hform|]]]]].
  - rewrite Hshown. intros [_ H]%elem_of_difference.
    apply H. now apply elem_of_singleton.
  - rewrite Hshown. unfold submitStarted, scrollToBottom, toggleNotification. cbn.
    intros [[H|H]%elem_of_union _]%elem_of_difference.
    + apply elem_of_singleton in H. discriminate.
    + apply elem_of_difference in H as [_ H]. apply H. now apply elem_of_singleton.
  - unfold collectData. now rewrite Hpid, Hgroup, Hconv.
Qed.

Lemma X11_witness :
  currentPage (fst (submitButtonLogic flaky (Scenario.advanced 7))) = totalPages
  /\ collectData (fst (submitButtonLogic flaky (Scenario.advanced 7)))
     = {| Client.participantId := None; Client.treatmentGroup := None;
          Client.conversationLog := "" |}.
Proof.
  assert (Hc : currentPage (Scenario.advanced 7) = Num 8) by (vm_compute; reflexivity).
  assert (Hflaky : forall j, (j < 2)%nat -> errorOf (flaky j) <> None).
  { intros j Hj. unfold flaky. apply Nat.ltb_lt in Hj. rewrite Hj. discriminate. }
  destruct (X11_successful_submission_ends_on_the_final_page flaky
              (Scenario.advanced 7) 8 2 200 Hc ltac:(lia) ltac:(lia) Hflaky
              eq_refl eq_refl)
    as (_ & Hcur & _ & _ & _ & _ & _ & _ & Hdata).
  split; [exact Hcur|exact Hdata].
Defined.

(** ** The key of a message *)

Lemma hasColon_app_key (c m : string) :
  hasColon c = false ->
  forall c' m', hasColon c' = false ->
  (c ++ "::" ++ m)%string = (c' ++ "::" ++ m')%string ->
  c = c' /\ m = m'.
Proof.
  induction c as [|x c IH]; intros Hc c' m' Hc' E.
  - destruct c' as [|x' c']; cbn in E.
    + split; [reflexivity|]. now injection E.
    + injection E as <- _. cbn in Hc'. discriminate.
  - destruct c' as [|x' c']; cbn in E.
    + injection E as -> _. cbn in Hc. discriminate.
    + injection E as <- E. cbn in Hc, Hc'.
      apply orb_false_iff in Hc as [_ Hc]. apply orb_false_iff in Hc' as [_ Hc'].
      destruct (IH Hc c' m' Hc' E) as [-> ->]. split; reflexivity.
Qed.

Lemma key_assoc (x y z : string) :
  ((x ++ "::" ++ y) ++ "::" ++ z)%string = (x ++ "::" ++ (y ++ "::" ++ z))%string.
Proof.
  induction x as [|a x IH]; [reflexivity|].
  exact (f_equal (String a) IH).
Qed.

(** X12: the key [`${conversationId}::${clientSideMsgId}`] under which a
    message is remembered.  Two requests whose conversation ids contain no
    colon have the same key only when they have the same conversation id and
    the same client-side message id, so that a request is answered as a
    duplicate only for a message of its own conversation.  Without that the
    key does not tell the two parts apart: the message [z] of the
    conversation [x::y] and the message [y::z] of the conversation [x] share
    a key, and once the first is sent the second is answered as its
    duplicate, with the id of the first, and is not posted. *)
Theorem X12_message_key_separates_conversations_without_colon :
  (forall a b : SendRequest,
      hasColon (conversationId a) = false ->
      hasColon (conversationId b) = false ->
      messageKey a = messageKey b ->
      conversationId a = conversationId b /\ clientSideMsgId a = clientSideMsgId b)
  /\ (forall (x y z t1 t2 : string) (g1 g2 : JsValue) (dataId : string)
        (now now' : Z) (directLine : PostResult) (r : Relay),
        let first := {| conversationId := (x ++ "::" ++ y)%string; text := t1;
                        channelGroup := g1; clientSideMsgId := z |} in
        let second := {| conversationId := x; text := t2;
                         channelGroup := g2;
                         clientSideMsgId := (y ++ "::" ++ z)%string |} in
        processedMessages r !! messageKey first = None ->
        let r1 := snd (sendmessage first (Posted dataId) now r) in
        sendmessage second directLine now' r1 = (Duplicate dataId, r1)).
Proof.
  split.
  - intros a b Ha Hb E. unfold messageKey in E.
    exact (hasColon_app_key _ _ Ha _ _ Hb E).
  - intros x y z t1 t2 g1 g2 dataId now now' directLine r first second Hnone r1.
    subst r1. rewrite (sendmessage_miss first (Posted dataId) now r Hnone).
    cbn [snd].
    apply (sendmessage_hit second {| timestamp := now; id := dataId |}).
    cbn [processedMessages].
    replace (messageKey second) with (messageKey first)
      by (unfold messageKey, first, second; cbn; apply key_assoc).
    apply lookup_insert_eq.
Qed.

Lemma X12_witness :
  (conversationId Example.hi = conversationId Example.hi
   /\ clientSideMsgId Example.hi = clientSideMsgId Example.hi)
  /\ fst (sendmessage
            {| conversationId := "conv1"; text := "second";
               channelGroup := JNumber (Num 1); clientSideMsgId := "m::1" |}
            (Posted "B") 20
            (snd (sendmessage
                    {| conversationId := "conv1::m"; text := "first";
                       channelGroup := JNumber (Num 1); clientSideMsgId := "1" |}
                    (Posted "A") 10 start)))
     = Duplicate "A".
Proof.
  destruct X12_message_key_separates_conversations_without_colon as (Hinj & Hshared).
  split.
  - exact (Hinj Example.hi Example.hi eq_refl eq_refl eq_refl).
  - exact (f_equal fst
             (Hshared "conv1" "m" "1" "first" "second" (JNumber (Num 1))
                (JNumber (Num 1)) "A" 10 20 (Posted "B") start eq_refl)).
Defined.

(** ** What the relay has done *)

Lemma run_snoc (es : list Event) (e : Event) (r : Relay) :
  run (es ++ [e])%list r = handle (run es r) e.
Proof. unfold run. now rewrite foldl_app. Qed.

Lemma accounted_start : accounted [] start.
Proof.
  split; [|split].
  - intros k e H. cbn in H. now rewrite lookup_empty in H.
  - intros a H. cbn in H. now apply elem_of_nil in H.
  - cbn. rewrite map_size_empty. lia.
Qed.

Lemma accounted_handle (es : list Event) (r : Relay) (ev : Event) :
  accounted es r -> accounted (es ++ [ev])%list (handle r ev).
Proof.
  intros (Hentries & Hposts & Hsize).
  assert (Hold : forall k e, processedMessages r !! k = Some e ->
            forall extra,
            exists req0, Send req0 (Posted (id e)) (timestamp e) ∈ (es ++ [ev])%list
                         /\ messageKey req0 = k
                         /\ activityOf req0 ∈ (outbound r ++ extra)%list).
  { intros k e H extra. destruct (Hentries k e H) as (req0 & Hin & Hk & Ha).
    exists req0. split; [apply elem_of_app; now left|].
    split; [exact Hk|]. apply elem_of_app. now left. }
  assert (Hposted : forall a, a ∈ outbound r ->
            exists req0 directLine now0,
              Send req0 directLine now0 ∈ (es ++ [ev])%list /\ a = activityOf req0).
  { intros a H. destruct (Hposts a H) as (req0 & d & n & Hin & ->).
    exists req0, d, n. split; [apply elem_of_app; now left|reflexivity]. }
  destruct ev as [req directLine now|now]; cbn [handle].
  - unfold sendmessage.
    destruct (processedMessages r !! messageKey req) as [stored|] eqn:Hreq;
      cbn [snd].
    + split; [|split].
      * intros k e H. destruct (Hold k e H []) as (req0 & ? & ? & Ha).
        rewrite app_nil_r in Ha. eauto.
      * intros a H. exact (Hposted a H).
      * rewrite length_app. cbn. lia.
    + assert (Hnew : forall a, a ∈ (outbound r ++ [activityOf req])%list ->
                exists req0 d n,
                  Send req0 d n ∈ (es ++ [Send req directLine now])%list
                  /\ a = activityOf req0).
      { intros a [H| ->%list_elem_of_singleton]%elem_of_app.
        - exact (Hposted a H).
        - exists req, directLine, now. split; [|reflexivity].
          apply elem_of_app. right. now apply list_elem_of_singleton. }
      destruct directLine as [dataId|details]; cbn [snd].
      * split; [|split].
        -- intros k e H. cbn [processedMessages outbound] in *.
           destruct (decide (k = messageKey req)) as [->|Hne].
           ++ rewrite lookup_insert_eq in H. injection H as <-.
              exists req. cbn. split; [|split; [reflexivity|]].
              ** apply elem_of_app. right. now apply list_elem_of_singleton.
              ** apply elem_of_app. right. now apply list_elem_of_singleton.
           ++ rewrite lookup_insert_ne in H by congruence.
              exact (Hold k e H _).
        -- exact Hnew.
        -- cbn [processedMessages outbound].
           rewrite map_size_insert_None by exact Hreq.
           rewrite !length_app. cbn. lia.
      * split; [|split].
        -- intros k e H. cbn [processedMessages outbound] in *.
           exact (Hold k e H _).
        -- exact Hnew.
        -- cbn [processedMessages outbound]. rewrite !length_app. cbn. lia.
  - unfold sweep. split; [|split]; cbn [processedMessages outbound].
    + intros k e H. apply map_lookup_filter_Some in H as [H _].
      destruct (Hold k e H []) as (req0 & ? & ? & Ha).
      rewrite app_nil_r in Ha. eauto.
    + intros a H. exact (Hposted a H).
    + pose proof (map_subseteq_size _ _
                    (map_filter_subseteq
                       (fun kv : string * DedupEntry =>
                          ¬ (now - timestamp kv.2 > oneHour))
                       (processedMessages r))) as Hle.
      rewrite length_app. cbn. lia.
Qed.

Lemma accounted_run (es : list Event) : accounted es (run es start).
Proof.
  induction es as [|ev es IH] using rev_ind.
  - apply accounted_start.
  - rewrite run_snoc. now apply accounted_handle.
Qed.

(** X13: what a relay that started empty has done, after any requests and
    sweeps.  Every entry of the table of processed messages was written by
    a request of that key whose POST to the Direct Line API returned the
    stored id at the stored time, and that POST is among those made; so a
    request that is answered as a duplicate gets an id that the Direct Line
    API returned for its key.  Every POST made belongs to a request, at most
    one per request, and the table never has more entries than POSTs were
    made. *)
Theorem X13_entries_and_duplicates_come_from_posts (es : list Event) :
  let r := run es start in
  (forall k e, processedMessages r !! k = Some e ->
      exists req0, Send req0 (Posted (id e)) (timestamp e) ∈ es
                   /\ messageKey req0 = k
                   /\ activityOf req0 ∈ outbound r)
  /\ (forall req directLine now i,
        fst (sendmessage req directLine now r) = Duplicate i ->
        exists req0 now0,
          Send req0 (Posted i) now0 ∈ es /\ messageKey req0 = messageKey req)
  /\ (forall a, a ∈ outbound r ->
        exists req0 directLine now0,
          Send req0 directLine now0 ∈ es /\ a = activityOf req0)
  /\ (size (processedMessages r) <= length (outbound r) <= length es)%nat.
Proof.
  intros r. destruct (accounted_run es) as (Hentries & Hposts & Hsize).
  fold r in Hentries, Hposts, Hsize.
  split; [exact Hentries|]. split; [|split; assumption].
  intros req directLine now i. unfold sendmessage.
  destruct (processedMessages r !! messageKey req) as [stored|] eqn:Hreq.
  - cbn. intros [= <-]. destruct (Hentries _ _ Hreq) as (req0 & Hin & Hk & _).
    eauto.
  - destruct directLine; cbn; discriminate.
Qed.

Lemma X13_witness :
  exists req0 now0,
    Send req0 (Posted "A") now0
      ∈ [Send Example.hi (Posted "A") 10; Sweep 20; Send Example.hi (Posted "B") 30]
    /\ messageKey req0 = messageKey Example.hi.
Proof.
  destruct (X13_entries_and_duplicates_come_from_posts
              [Send Example.hi (Posted "A") 10; Sweep 20;
               Send Example.hi (Posted "B") 30]) as (_ & Hduplicate & _).
  assert (H : fst (sendmessage Example.hi (Posted "C") 40
                     (run [Send Example.hi (Posted "A") 10; Sweep 20;
                           Send Example.hi (Posted "B") 30] start))
              = Duplicate "A") by (vm_compute; reflexivity).
  exact (Hduplicate Example.hi (Posted "C") 40 "A" H).
Defined.

(** ** The hourly sweep *)

Lemma sweep_sweep (now later : Z) (r : Relay) :
  now <= later -> sweep later (sweep now r) = sweep later r.
Proof.
  intros Hle. unfold sweep. cbn [processedMessages outbound]. f_equal.
  apply map_eq. intros k. apply option_eq. intros e.
  rewrite !map_lookup_filter_Some. cbn. intuition lia.
Qed.

(** X14: the sweep of the table of processed messages.  After a sweep at
    time [now] every entry left is at most one hour old and was there
    before, with the same id, and the POSTs made are untouched.  Sweeps
    accumulate: a sweep after an earlier one leaves what it alone would have
    left, so a tick that is skipped or late loses nothing, a repeated tick
    changes nothing, and the order of two sweeps does not matter. *)
Theorem X14_sweeps_accumulate (r : Relay) (now later : Z) :
  (forall k e, processedMessages (sweep now r) !! k = Some e ->
      now - timestamp e <= oneHour /\ processedMessages r !! k = Some e)
  /\ outbound (sweep now r) = outbound r
  /\ sweep now (sweep now r) = sweep now r
  /\ sweep now (sweep later r) = sweep later (sweep now r)
  /\ (now <= later -> sweep later (sweep now r) = sweep later r).
Proof.
  split; [|split; [reflexivity|split; [|split]]].
  - intros k e H. unfold sweep in H. cbn in H.
    apply map_lookup_filter_Some in H as [H Hage]. cbn in Hage. split; [lia|exact H].
  - apply sweep_sweep. lia.
  - destruct (Z.le_ge_cases now later) as [Hle|Hle].
    + rewrite (sweep_sweep now later r Hle).
      unfold sweep. cbn [processedMessages outbound]. f_equal.
      apply map_eq. intros k. apply option_eq. intros e.
      rewrite !map_lookup_filter_Some. cbn. intuition lia.
    + rewrite (sweep_sweep later now r Hle).
      unfold sweep. cbn [processedMessages outbound]. f_equal.
      apply map_eq. intros k. apply option_eq. intros e.
      rewrite !map_lookup_filter_Some. cbn. intuition lia.
  - apply sweep_sweep.
Qed.

Lemma X14_witness :
  sweep 7200020 (sweep 3600005 (snd (sendmessage Example.hi (Posted "A") 10 start)))
  = sweep 7200020 (snd (sendmessage Example.hi (Posted "A") 10 start)).
Proof.
  destruct (X14_sweeps_accumulate
              (snd (sendmessage Example.hi (Posted "A") 10 start)) 3600005 7200020)
    as (_ & _ & _ & _ & H).
  apply H. lia.
Defined.

(** * The order of the questions *)

Import Shuffle.

Lemma insert_Permutation {B : Type} (l : list B) (j : nat) (x y : B) :
  l !! j = Some y -> y :: <[j := x]> l ≡ₚ x :: l.
Proof.
  revert j. induction l as [|a l IH]; intros [|j] H; try discriminate.
  - injection H as ->. apply perm_swap.
  - cbn in H. cbn [insert list_insert].
    etransitivity; [apply perm_swap|]. etransitivity; [|apply perm_swap].
    apply perm_skip. now apply IH.
Qed.

Lemma swap_Permutation {B : Type} (l : list B) (i j : nat) (x y : B) :
  l !! i = Some x -> l !! j = Some y -> <[j := x]> (<[i := y]> l) ≡ₚ l.
Proof.
  revert i j. induction l as [|a l IH]; intros [|i] [|j] Hi Hj; try discriminate.
  - injection Hi as ->. injection Hj as ->. reflexivity.
  - injection Hi as ->. cbn in Hj. cbn [insert list_insert].
    now apply insert_Permutation.
  - injection Hj as ->. cbn in Hi. cbn [insert list_insert].
    now apply insert_Permutation.
  - cbn in Hi, Hj. cbn [insert list_insert]. apply perm_skip. now apply IH.
Qed.

Lemma swap_in_range {A : Type} (array : list (option A)) (i j : nat) :
  (i < length array)%nat -> (j < length array)%nat ->
  swap i j array ≡ₚ array /\ length (swap i j array) = length array.
Proof.
  intros Hi Hj. unfold swap, assign, read. cbn [fst snd].
  destruct (decide (i < length array)%nat) as [_|Hn]; [|contradiction].
  destruct (decide _) as [_|Hn];
    [|exfalso; apply Hn; rewrite length_insert; exact Hj].
  destruct (lookup_lt_is_Some_2 array i Hi) as (x & Hx).
  destruct (lookup_lt_is_Some_2 array j Hj) as (y & Hy).
  rewrite Hx, Hy. cbn [mjoin option_join].
  split; [now apply swap_Permutation|]. now rewrite !length_insert.
Qed.

Lemma shuffleFrom_Permutation {A : Type} (random : nat -> nat) (i : nat)
    (array : list (option A)) :
  (forall k, random k <= k)%nat ->
  (i < length array \/ i = 0)%nat ->
  shuffleFrom random i array ≡ₚ array.
Proof.
  intros Hrandom. revert array. induction i as [|i IH]; intros array Hi; [reflexivity|].
  destruct Hi as [Hi|Hi]; [|discriminate]. cbn [shuffleFrom].
  pose proof (Hrandom (S i)) as Hj.
  destruct (swap_in_range array (S i) (random (S i)) Hi ltac:(lia)) as (Hp & Hl).
  etransitivity; [apply IH|exact Hp]. left. lia.
Qed.

Lemma newOrder_keys {A : Type} (l : list A) :
  newOrder (keys (length l)) (Some <$> l) = Some <$> l.
Proof.
  unfold newOrder, keys. rewrite <- list_fmap_compose.
  apply list_eq. intros i. rewrite !list_lookup_fmap.
  destruct (decide (i < length l)%nat) as [Hi|Hi].
  - rewrite lookup_seq_lt by exact Hi. cbn. unfold read.
    rewrite list_lookup_fmap.
    destruct (lookup_lt_is_Some_2 l i Hi) as (x & ->). reflexivity.
  - rewrite lookup_seq_ge by lia. rewrite lookup_ge_None_2 by lia. reflexivity.
Qed.

(** X15: [shuffleArray] only rearranges.  Since
    [Math.floor(Math.random() * (i + 1))] is one of 0, ..., [i], every swap
    of the loop stays inside the array, and the result has the elements of
    the argument, each as often as before; the order that
    [randomizeQuestionOrder] draws on a first load therefore lists every
    question exactly as often as it was found: none is lost and none comes
    twice. *)
Theorem X15_shuffleArray_rearranges
    (A : Type) (random : nat -> nat) (array : list (option A)) (questions : list A) :
  (forall i, random i <= i)%nat ->
  shuffleArray random array ≡ₚ array
  /\ length (shuffleArray random array) = length array
  /\ newOrder (shuffleArray random (keys (length questions))) (Some <$> questions)
     ≡ₚ Some <$> questions.
Proof.
  intros Hrandom.
  assert (Hshuffle : forall B (a : list (option B)), shuffleArray random a ≡ₚ a).
  { intros B a. unfold shuffleArray. apply shuffleFrom_Permutation; [exact Hrandom|].
    destruct a; cbn; lia. }
  split; [apply Hshuffle|]. split; [now rewrite (Hshuffle A array)|].
  rewrite <- (newOrder_keys questions) at 2. unfold newOrder.
  apply fmap_Permutation, Hshuffle.
Qed.

Lemma X15_witness :
  @shuffleArray nat (fun i => i / 2)%nat (keys 5) ≡ₚ keys 5.
Proof.
  assert (H : forall i, (i / 2 <= i)%nat)
    by (intros i; apply Nat.Div0.div_le_upper_bound; lia).
  exact (proj1 (X15_shuffleArray_rearranges nat (fun i => i / 2)%nat (keys 5) [] H)).
Defined.

(** * Participant ids *)

Import Ident.

Lemma randomChar_single (byte : Z) :
  exists a, randomChar byte = String a "" /\ occurs a chars = true.
Proof.
  unfold randomChar. change (Z.of_nat (String.length chars)) with 36.
  pose proof (Z.mod_pos_bound byte 36 ltac:(lia)) as Hb.
  assert (Hn : (Z.to_nat (byte mod 36) < 36)%nat) by lia.
  generalize dependent (Z.to_nat (byte mod 36)). intros n Hn.
  do 36 (destruct n as [|n]; [eexists; split; reflexivity|]).
  lia.
Qed.

Lemma randomLoop_eight (b0 b1 b2 b3 b4 b5 b6 b7 : Z) :
  randomLoop [b0; b1; b2; b3; b4; b5; b6; b7] 15 0 ""
  = (
    ((((((((((((((("" ++ randomChar b0) ++ randomChar b1) ++ randomChar b2)
      ++ randomChar b3) ++ randomChar b4) ++ randomChar b5) ++ randomChar
      b6) ++ randomChar b7) ++ randomChar b0) ++ randomChar b1) ++
      randomChar b2) ++ randomChar b3) ++ randomChar b4) ++ randomChar b5)
      ++ randomChar b6))%string.
Proof. reflexivity. Qed.

Lemma padStart_digits (width : nat) (n : Z) :
  (width = 2%nat /\ 0 <= n <= 99) \/ (width = 3%nat /\ 0 <= n <= 999) ->
  String.length (padStart width (toString (Num n))) = width
  /\ allOf "0123456789" (padStart width (toString (Num n))) = true.
Proof.
  assert (H2 : forallb (fun k => Nat.eqb (String.length
                                            (padStart 2 (toString (Num (Z.of_nat k))))) 2
                                 && allOf "0123456789"
                                      (padStart 2 (toString (Num (Z.of_nat k)))))
                 (seq 0 100) = true) by (vm_compute; reflexivity).
  assert (H3 : forallb (fun k => Nat.eqb (String.length
                                            (padStart 3 (toString (Num (Z.of_nat k))))) 3
                                 && allOf "0123456789"
                                      (padStart 3 (toString (Num (Z.of_nat k)))))
                 (seq 0 1000) = true) by (vm_compute; reflexivity).
  rewrite forallb_forall in H2, H3.
  intros [[-> Hn]|[-> Hn]].
  - specialize (H2 (Z.to_nat n)). rewrite Z2Nat.id in H2 by lia.
    apply andb_true_iff in H2 as [Hl Ha]; [|apply in_seq; lia].
    apply Nat.eqb_eq in Hl. now split.
  - specialize (H3 (Z.to_nat n)). rewrite Z2Nat.id in H3 by lia.
    apply andb_true_iff in H3 as [Hl Ha]; [|apply in_seq; lia].
    apply Nat.eqb_eq in Hl. now split.
Qed.

Lemma string_length_append (a b : string) :
  String.length (a ++ b) = (String.length a + String.length b)%nat.
Proof. induction a as [|c a IH]; [reflexivity|]. exact (f_equal S IH). Qed.

Lemma allOf_append (alphabet a b : string) :
  allOf alphabet (a ++ b) = allOf alphabet a && allOf alphabet b.
Proof.
  induction a as [|c a IH]; [reflexivity|].
  change (allOf alphabet (String c a ++ b))
    with (occurs c alphabet && allOf alphabet (a ++ b)).
  rewrite IH. cbn [allOf]. now rewrite andb_assoc.
Qed.

Lemma substring_all (t : string) : substring 0 (String.length t) t = t.
Proof. induction t as [|c t IH]; [reflexivity|]. cbn. now rewrite IH. Qed.

(** X16: the ids of [createParticipantId].  With the eight bytes of
    [crypto.randomBytes(8)] and a date of the calendar the id has 31
    characters: [ID-], fifteen characters of [A-Z0-9] and thirteen digits
    for month, day, hour, minute, second and millisecond.  The loop reads the
    buffer at [i % 8], so the last seven of the fifteen characters repeat
    the first seven: an id carries the randomness of eight characters. *)
Theorem X16_participant_id_format (randomBytes : list Z) (now : Date) :
  length randomBytes = 8%nat ->
  inCalendar now ->
  let id := createParticipantId randomBytes now in
  String.length id = 31%nat
  /\ substring 0 3 id = "ID-"
  /\ allOf chars (substring 3 15 id) = true
  /\ substring 11 7 id = substring 3 7 id
  /\ allOf "0123456789" (substring 18 13 id) = true.
Proof.
  intros Hlen (Hm & Hd & Hh & Hmi & Hs & Hms) id. subst id.
  destruct randomBytes as [|b0 [|b1 [|b2 [|b3 [|b4 [|b5 [|b6 [|b7 [|]]]]]]]]];
    try discriminate.
  unfold createParticipantId. cbv zeta. rewrite randomLoop_eight.
  destruct (randomChar_single b0) as (a0 & -> & H0).
  destruct (randomChar_single b1) as (a1 & -> & H1).
  destruct (randomChar_single b2) as (a2 & -> & H2).
  destruct (randomChar_single b3) as (a3 & -> & H3).
  destruct (randomChar_single b4) as (a4 & -> & H4).
  destruct (randomChar_single b5) as (a5 & -> & H5).
  destruct (randomChar_single b6) as (a6 & -> & H6).
  destruct (randomChar_single b7) as (a7 & -> & H7).
  destruct (padStart_digits 2 (getMonth now + 1)) as (Lmonth & Amonth);
    [left; split; [reflexivity|lia]|].
  destruct (padStart_digits 2 (getDate now)) as (Lday & Aday);
    [left; split; [reflexivity|lia]|].
  destruct (padStart_digits 2 (getHours now)) as (Lhour & Ahour);
    [left; split; [reflexivity|lia]|].
  destruct (padStart_digits 2 (getMinutes now)) as (Lminute & Aminute);
    [left; split; [reflexivity|lia]|].
  destruct (padStart_digits 2 (getSeconds now)) as (Lsecond & Asecond);
    [left; split; [reflexivity|lia]|].
  destruct (padStart_digits 3 (getMilliseconds now)) as (Lms & Ams);
    [right; split; [reflexivity|lia]|].
  set (ts := (padStart 2 _ ++ _)%string).
  assert (Lts : String.length ts = 13%nat).
  { subst ts. rewrite !string_length_append.
    rewrite Lmonth, Lday, Lhour, Lminute, Lsecond, Lms. reflexivity. }
  assert (Ats : allOf "0123456789" ts = true).
  { subst ts. rewrite !allOf_append.
    rewrite Amonth, Aday, Ahour, Aminute, Asecond, Ams. reflexivity. }
  clearbody ts.
  set (id := ("ID-" ++ _)%string).
  assert (E : id
    =
      (String "I"%char (String "D"%char (String "-"%char (String a0 (String a1
        (String a2 (String a3 (String a4 (String a5 (String a6 (String a7
        (String a0 (String a1 (String a2 (String a3 (String a4 (String a5
        (String a6 ts))))))))))))))))))) by reflexivity.
  clearbody id. subst id.
  split; [|split; [|split; [|split]]].
  - cbn [String.length]. now rewrite Lts.
  - reflexivity.
  - cbn [substring].
    cbn [allOf]. rewrite H0, H1, H2, H3, H4, H5, H6, H7.
    now destruct ts.
  - cbn [substring]. now destruct ts.
  - cbn [substring]. rewrite <- Lts at 1. now rewrite substring_all.
Qed.

Lemma X16_witness :
  String.length (createParticipantId [7; 200; 36; 255; 0; 90; 61; 18] morning) = 31%nat.
Proof.
  assert (Hcal : inCalendar morning) by (unfold inCalendar, morning; cbn; lia).
  exact (proj1 (X16_participant_id_format [7; 200; 36; 255; 0; 90; 61; 18] morning
                  eq_refl Hcal)).
Defined.

(** ** Ids that are not in the table *)

Lemma generateLoop_returns (entropy : nat -> list Z * Date) (queryOk : nat -> bool)
    (db : list Row) (fuel i : nat) (id : string) :
  generateLoop entropy queryOk db fuel i = Some (Id id) ->
  exists k, (i <= k < i + fuel)%nat
            /\ id = candidate entropy k
            /\ selectById id db = []
            /\ (forall j, (i <= j < k)%nat ->
                  queryOk j = true /\ selectById (candidate entropy j) db <> []).
Proof.
  revert i. induction fuel as [|fuel IH]; intros i H; [discriminate|].
  cbn [generateLoop] in H. fold (candidate entropy i) in H.
  destruct (queryOk i) eqn:Hq; [|discriminate].
  destruct (length (selectById (candidate entropy i) db) =? 0)%nat eqn:Hfree.
  - injection H as <-. exists i. split; [lia|]. split; [reflexivity|].
    split; [|intros j Hj; lia].
    apply Nat.eqb_eq in Hfree. now apply nil_length_inv.
  - destruct (IH (S i) H) as (k & Hk & -> & Hnone & Hbefore).
    exists k. split; [lia|]. split; [reflexivity|]. split; [exact Hnone|].
    intros j Hj. destruct (decide (j = i)) as [->|Hne].
    + split; [exact Hq|]. intros E. rewrite E in Hfree. discriminate.
    + apply Hbefore. lia.
Qed.

Lemma generateLoop_first_free (entropy : nat -> list Z * Date) (queryOk : nat -> bool)
    (db : list Row) (fuel i k : nat) :
  (k < fuel)%nat ->
  (forall j, (i <= j <= i + k)%nat -> queryOk j = true) ->
  (forall j, (i <= j < i + k)%nat -> selectById (candidate entropy j) db <> []) ->
  selectById (candidate entropy (i + k)) db = [] ->
  generateLoop entropy queryOk db fuel i = Some (Id (candidate entropy (i + k))).
Proof.
  revert i k. induction fuel as [|fuel IH]; intros i k Hk Hq Htaken Hfree; [lia|].
  cbn [generateLoop]. fold (candidate entropy i).
  rewrite (Hq i) by lia. destruct k as [|k].
  - rewrite Nat.add_0_r in Hfree. rewrite Hfree. cbn. now rewrite Nat.add_0_r.
  - destruct (selectById (candidate entropy i) db) as [|row rows] eqn:Hi.
    + exfalso. apply (Htaken i); [lia|exact Hi].
    + cbn [length Nat.eqb].
      replace (i + S k)%nat with (S i + k)%nat in * by lia.
      apply IH; [lia| |  |exact Hfree].
      * intros j Hj. apply Hq. lia.
      * intros j Hj. apply Htaken. lia.
Qed.

Lemma generateLoop_all_taken (entropy : nat -> list Z * Date) (queryOk : nat -> bool)
    (db : list Row) (fuel i : nat) :
  (forall j, queryOk j = true) ->
  (forall j, selectById (candidate entropy j) db <> []) ->
  generateLoop entropy queryOk db fuel i = None.
Proof.
  intros Hq Htaken. revert i. induction fuel as [|fuel IH]; intros i; [reflexivity|].
  cbn [generateLoop]. fold (candidate entropy i). rewrite Hq.
  destruct (selectById (candidate entropy i) db) as [|row rows] eqn:Hi.
  - exfalso. exact (Htaken i Hi).
  - cbn [length Nat.eqb]. apply IH.
Qed.

(** X17: [generateUniqueParticipantId] and the endpoint that hands ids out.
    An id that is returned is one that [createParticipantId] drew and that
    no row of the table has, and every id drawn before it was in the table.
    When the id of iteration [k] is the first that no row has (and the
    queries succeed), the function returns it after [k + 1] iterations; when
    every id drawn is in the table it returns after no number of
    iterations.  The endpoint answers 200 only with such an id and with the
    group 0 or 1; and an id that /submit has stored is not handed out
    afterwards. *)
Theorem X17_handed_out_ids_are_not_in_the_table
    (entropy : nat -> list Z * Date) (queryOk : nat -> bool) (db : list Row) :
  (forall fuel id,
      generateUniqueParticipantId entropy queryOk db fuel = Some (Id id) ->
      selectById id db = []
      /\ exists k, (k < fuel)%nat /\ id = candidate entropy k
                   /\ forall j, (j < k)%nat ->
                        selectById (candidate entropy j) db <> [])
  /\ (forall k fuel,
        (k < fuel)%nat ->
        (forall j, (j <= k)%nat -> queryOk j = true) ->
        (forall j, (j < k)%nat -> selectById (candidate entropy j) db <> []) ->
        selectById (candidate entropy k) db = [] ->
        generateUniqueParticipantId entropy queryOk db fuel
        = Some (Id (candidate entropy k)))
  /\ ((forall j, queryOk j = true) ->
      (forall j, selectById (candidate entropy j) db <> []) ->
      forall fuel, generateUniqueParticipantId entropy queryOk db fuel = None)
  /\ (forall fuel low status id group,
        generateSurveyData entropy queryOk low db fuel
        = Some (status, SurveyData id group) ->
        status = 200 /\ selectById id db = [] /\ (group = 0 \/ group = 1))
  /\ (forall body stored fuel low status id group,
        participantId body = JString stored ->
        fst (submit body true db) = 200 ->
        generateSurveyData entropy queryOk low (snd (submit body true db)) fuel
        = Some (status, SurveyData id group) ->
        id <> stored).
Proof.
  assert (Hendpoint : forall db' fuel low status id group,
            generateSurveyData entropy queryOk low db' fuel
            = Some (status, SurveyData id group) ->
            status = 200 /\ selectById id db' = [] /\ (group = 0 \/ group = 1)).
  { intros db' fuel low status id group. unfold generateSurveyData.
    destruct (generateUniqueParticipantId entropy queryOk db' fuel)
      as [[id'|]|] eqn:Hgen; try discriminate.
    intros [= <- <- <-]. split; [reflexivity|]. split.
    - destruct (generateLoop_returns _ _ _ _ _ _ Hgen) as (k & _ & _ & H & _).
      exact H.
    - unfold assignGroup, randomTreatment. destruct low; auto. }
  split; [|split; [|split; [|split]]].
  - intros fuel id H. destruct (generateLoop_returns _ _ _ _ _ _ H)
      as (k & Hk & -> & Hnone & Hbefore).
    split; [exact Hnone|]. exists k. split; [lia|]. split; [reflexivity|].
    intros j Hj. apply Hbefore. lia.
  - intros k fuel Hk Hq Htaken Hfree.
    apply (generateLoop_first_free entropy queryOk db fuel 0 k Hk).
    + intros j Hj. apply Hq. lia.
    + intros j Hj. apply Htaken. lia.
    + exact Hfree.
  - intros Hq Htaken fuel. now apply generateLoop_all_taken.
  - apply Hendpoint.
  - intros body stored fuel low status id group Hstored Hok Hgen ->.
    destruct (Hendpoint _ _ _ _ _ _ Hgen) as (_ & Hnone & _).
    revert Hok Hnone. unfold submit.
    destruct (_ || _); [discriminate|]. cbn [fst snd]. intros _ Hnone.
    unfold selectById in Hnone. rewrite filter_app in Hnone.
    apply app_eq_nil in Hnone as [_ Hnone]. cbn in Hnone.
    rewrite decide_True in Hnone by exact Hstored. discriminate.
Qed.

Lemma X17_witness :
  generateUniqueParticipantId draws (fun _ => true) firstTaken 5
  = Some (Id (candidate draws 1)).
Proof.
  destruct (X17_handed_out_ids_are_not_in_the_table draws (fun _ => true) firstTaken)
    as (_ & Hfirst & _).
  assert (Htaken : selectById (candidate draws 0) firstTaken <> [])
    by (vm_compute; discriminate).
  assert (Hfree : selectById (candidate draws 1) firstTaken = [])
    by (vm_compute; reflexivity).
  apply (Hfirst 1%nat 5%nat).
  - lia.
  - reflexivity.
  - intros j Hj. replace j with 0%nat by lia. exact Htaken.
  - exact Hfree.
Defined.

(** * The participant's metadata *)

Import Metadata.

Lemma toString_group (n : JsNum) (low : bool) :
  let group := if negb (strictEq n (Num 0) || strictEq n (Num 1))
               then (if low then Num 0 else Num 1) else n in
  toString group = "0" \/ toString group = "1".
Proof.
  cbv zeta. destruct (strictEq n (Num 0)) eqn:E0.
  - apply strictEq_Num in E0 as ->. now left.
  - destruct (strictEq n (Num 1)) eqn:E1.
    + apply strictEq_Num in E1 as ->. now right.
    + cbn. destruct low; [now left|now right].
Qed.

(** X18: [getMetadata].  Whatever the storage held and whatever the server
    answered, when it settles without an error the session storage has a
    participant id and the treatment group ["0"] or ["1"].  With a
    participant id and a group ["0"] or ["1"] already stored the server is
    not asked and the storage stays as it is, so a reload keeps the
    participant in the group.  On a storage without the two items the id
    and the group (0 or 1) of the server's answer are stored as they come,
    the group 0 too; a failed request stores nothing; and since the status
    of the answer is not looked at, the answer of a failed
    /generateSurveyData, which has neither field, makes the client store
    the participant id ["undefined"] and a group drawn by itself. *)
Theorem X18_getMetadata_stores_an_id_and_a_group
    (Number : JsValue -> JsNum) (String_ : JsValue -> string)
    (answer : Answer) (low : bool) (s : State) :
  (forall n, Number (JNumber n) = n) ->
  Number (JString "0") = Num 0 ->
  Number (JString "1") = Num 1 ->
  Number JUndefined = NaN ->
  (forall v, String_ (JString v) = v) ->
  String_ JUndefined = "undefined" ->
  (forall s' asked,
      getMetadata Number String_ answer low s = Stored s' asked ->
      (exists id, items (sessionStorage s') !! "participantId" = Some id)
      /\ (items (sessionStorage s') !! "treatmentGroup" = Some "0"
          \/ items (sessionStorage s') !! "treatmentGroup" = Some "1"))
  /\ (forall id group,
        items (sessionStorage s) !! "participantId" = Some id -> id <> "" ->
        items (sessionStorage s) !! "treatmentGroup" = Some group ->
        group = "0" \/ group = "1" ->
        getMetadata Number String_ answer low s = Stored s false)
  /\ (items (sessionStorage s) !! "participantId" = None ->
      items (sessionStorage s) !! "treatmentGroup" = None ->
      (forall id group,
          answer = Body (JString id) (JNumber (Num group)) ->
          group = 0 \/ group = 1 ->
          getMetadata Number String_ answer low s
          = Stored (setItem "treatmentGroup" (toString (Num group))
                      (setItem "participantId" id s)) true)
      /\ (answer = NoAnswer -> getMetadata Number String_ answer low s = Failed)
      /\ (answer = answerOf Ident.SurveyError ->
          getMetadata Number String_ answer low s
          = Stored (setItem "treatmentGroup" (if low then "0" else "1")
                      (setItem "participantId" "undefined" s)) true)).
Proof.
  intros Hnumber Hzero Hone Hundefined Hstring Hmissing.
  split; [|split].
  - intros s' asked. unfold getMetadata. cbv zeta.
    destruct (if negb (stored "participantId" s) || negb (stored "treatmentGroup" s)
              then answer else Body JUndefined JUndefined) as [p g|];
      [|discriminate].
    intros [= <- _]. split.
    + eexists. unfold setItem. cbn.
      rewrite lookup_insert_ne by discriminate. apply lookup_insert_eq.
    + unfold setItem. cbn. rewrite !lookup_insert_eq.
      destruct (toString_group (Number (itemOr "treatmentGroup" g s)) low) as [E|E];
        cbv zeta in E; rewrite E; [now left|now right].
  - intros id group Hid Hid' Hgroup Hgroup'.
    assert (Hne : nonEmpty id = true) by (unfold nonEmpty; now destruct id).
    assert (Hng : nonEmpty group = true) by (destruct Hgroup' as [-> | ->]; reflexivity).
    unfold getMetadata, stored, itemOr. cbv zeta.
    rewrite Hid, Hgroup, Hne, Hng. cbn [negb orb].
    rewrite Hstring.
    assert (E : toString
                  (if negb (strictEq (Number (JString group)) (Num 0)
                            || strictEq (Number (JString group)) (Num 1))
                   then if low then Num 0 else Num 1
                   else Number (JString group)) = group).
    { destruct Hgroup' as [-> | ->]; [rewrite Hzero|rewrite Hone]; reflexivity. }
    rewrite E. f_equal. unfold setItem. cbn.
    destruct s as [? ? ? ? ? ? ? ? ? ? ? ? ? storage ? ? ? ?].
    destruct storage as [? ? ? ? table]. cbn in *.
    rewrite (insert_id table "participantId" id Hid).
    now rewrite (insert_id table "treatmentGroup" group Hgroup).
  - intros Hid Hgroup.
    assert (Hasked : negb (stored "participantId" s) || negb (stored "treatmentGroup" s)
                     = true)
      by (unfold stored; now rewrite Hid).
    split; [|split].
    + intros id group -> Hrange. unfold getMetadata, itemOr. cbv zeta.
      rewrite Hasked, Hid, Hgroup, Hnumber, Hstring.
      destruct Hrange as [-> | ->]; reflexivity.
    + intros ->. unfold getMetadata. cbv zeta. now rewrite Hasked.
    + intros ->. unfold getMetadata, itemOr, answerOf. cbv zeta.
      rewrite Hasked, Hid, Hgroup, Hundefined, Hmissing. cbn.
      destruct low; reflexivity.
Qed.

Lemma X18_witness :
  getMetadata numberOf stringOf
    (answerOf (Ident.SurveyData (candidate draws 0) 0)) false (firstLoad 1000)
  = Stored (setItem "treatmentGroup" "0"
              (setItem "participantId" (candidate draws 0) (firstLoad 1000))) true.
Proof.
  assert (Hid : items (sessionStorage (firstLoad 1000)) !! "participantId" = None)
    by (vm_compute; reflexivity).
  assert (Hgroup : items (sessionStorage (firstLoad 1000)) !! "treatmentGroup" = None)
    by (vm_compute; reflexivity).
  destruct (X18_getMetadata_stores_an_id_and_a_group numberOf stringOf
              (answerOf (Ident.SurveyData (candidate draws 0) 0)) false
              (firstLoad 1000)
              (fun n => eq_refl) eq_refl eq_refl eq_refl (fun v => eq_refl) eq_refl)
    as (_ & _ & Hfresh).
  destruct (Hfresh Hid Hgroup) as (Hanswer & _).
  exact (Hanswer (candidate draws 0) 0 eq_refl (or_introl eq_refl)).
Defined.

(** * The e-mail form and the end of the dialogue *)







